(** * The claude-afk coordination daemon: a shallow embedding

    This development embeds the daemon of the claude-afk plugin
    (scripts/daemon/index.js), its session registry (scripts/daemon/sessions.js)
    and the chat adapter (scripts/daemon/telegram.js) as executable Rocq
    definitions, and states the properties of the specification over them.

    Conventions of the embedding.
    - A JavaScript string is a [string]; each character stands for one code
      unit below 256, so [String.length] is the JavaScript [length].
    - A JavaScript number that is an identifier or a time stamp is a [Z].
    - An object used as a dictionary is a [gmap string V]; a [Map] whose keys
      are arbitrary JavaScript values is a [gmap jsval V], which keeps the
      number [5] and the string ["5"] apart as [Map] does.
    - A property that can be missing ([undefined] or [null]) is an [option].
    - Every handler runs to completion before the next event is taken: the
      points where the source awaits the chat service or the file system are
      not interleaved with other handlers.  What the outside world answers
      during a handler is read from an [Env] record.
    - Writing the state file is assumed to succeed. *)

From stdpp Require Import gmap strings list pretty.
From Stdlib Require Import ZArith Ascii String.
From Stdlib.Strings Require Import Byte.

Open Scope string_scope.
Open Scope Z_scope.

(** ** JavaScript strings *)

Module JsString.

Definition code (c : ascii) : N := N_of_ascii c.

(** White space and line terminators of ECMAScript among code units < 256:
    TAB, LF, VT, FF, CR, SP and NBSP. *)
Definition isWhiteSpace (c : ascii) : bool :=
  let n := code c in
  ((9 <=? n) && (n <=? 13) || (n =? 32) || (n =? 160))%N.

(** The string without its longest prefix of [p]-characters *)
Fixpoint dropLeading (p : ascii → bool) (s : string) : string :=
  match s with
  | EmptyString => EmptyString
  | String c s' => if p c then dropLeading p s' else s
  end.

(** The string without its longest suffix of [p]-characters *)
Fixpoint dropTrailing (p : ascii → bool) (s : string) : string :=
  match s with
  | EmptyString => EmptyString
  | String c s' =>
      match dropTrailing p s' with
      | EmptyString => if p c then EmptyString else String c EmptyString
      | r => String c r
      end
  end.

Definition trimStart (s : string) : string := dropLeading isWhiteSpace s.

Definition trimEnd (s : string) : string := dropTrailing isWhiteSpace s.

(** [String.prototype.trim] *)
Definition trim (s : string) : string := trimEnd (trimStart s).

(** Lower-case mapping of one code unit < 256: A-Z, and the Latin-1 capitals
    U+00C0..U+00DE except the multiplication sign U+00D7. *)
Definition lowerChar (c : ascii) : ascii :=
  let n := code c in
  if ((65 <=? n) && (n <=? 90))%N then ascii_of_N (n + 32)
  else if ((192 <=? n) && (n <=? 222) && negb (n =? 215))%N then ascii_of_N (n + 32)
  else c.

(** [String.prototype.toLowerCase] *)
Fixpoint toLowerCase (s : string) : string :=
  match s with
  | EmptyString => EmptyString
  | String c s' => String (lowerChar c) (toLowerCase s')
  end.

Fixpoint startsWith (p s : string) : bool :=
  match p, s with
  | EmptyString, _ => true
  | String a p', String b s' => if decide (a = b) then startsWith p' s' else false
  | String _ _, EmptyString => false
  end.

(** [String.prototype.includes] *)
Fixpoint includes (s sub : string) : bool :=
  startsWith sub s ||
  match s with
  | EmptyString => false
  | String _ s' => includes s' sub
  end.

(** [s.substring(0, n)] for a natural number [n] *)
Fixpoint substring0 (n : nat) (s : string) : string :=
  match n, s with
  | O, _ => EmptyString
  | S n', String c s' => String c (substring0 n' s')
  | S _, EmptyString => EmptyString
  end.

(** JavaScript truthiness of a string *)
Definition truthy (s : string) : bool :=
  match s with EmptyString => false | _ => true end.

(** [String(n)] for an integral number *)
Definition ofNumber (n : Z) : string := pretty n.

Definition digitValue (c : ascii) : option Z :=
  let n := code c in
  if ((48 <=? n) && (n <=? 57))%N then Some (Z.of_N (n - 48)) else None.

Fixpoint parseDigits (acc : Z) (s : string) : option Z :=
  match s with
  | EmptyString => Some acc
  | String c s' =>
      match digitValue c with
      | Some d => parseDigits (10 * acc + d) s'
      | None => None
      end
  end.

(** [Number(s)] on the decimal integer literals that [String(n)] produces;
    [None] stands for [NaN].  (The source applies [Number] only to keys of
    [pendingRequests], which are all of that form.) *)
Definition toNumber (s : string) : option Z :=
  match s with
  | EmptyString => None
  | String "-" (String c r) => Z.opp <$> parseDigits 0 (String c r)
  | _ => parseDigits 0 s
  end.

End JsString.

(** ** Verdict parsing and pure helpers of index.js *)

Inductive Decision := approved | denied | approved_all.

#[global] Instance Decision_eq_dec : EqDecision Decision.
Proof. solve_decision. Defined.

(** [parsePermissionResponse(text, allowBulkApproval)]; [None] is [null]. *)
Definition parsePermissionResponse (text : string) (allowBulkApproval : bool)
  : option Decision :=
  let normalized := JsString.toLowerCase (JsString.trim text) in
  if bool_decide (normalized = "yes") || bool_decide (normalized = "y") then
    Some approved
  else if bool_decide (normalized = "no") || bool_decide (normalized = "n") then
    Some denied
  else if allowBulkApproval &&
          (bool_decide (normalized = "all") || bool_decide (normalized = "yes all")
           || bool_decide (normalized = "y all") || bool_decide (normalized = "always")) then
    Some approved_all
  else None.

(** [isMaxRetriesExceeded(retryCount, maxRetries)] *)
Definition isMaxRetriesExceeded (retryCount maxRetries : Z) : bool :=
  bool_decide (retryCount >= maxRetries).

(** [escapeMarkdown(text)]: a backslash before each of [_ * ` \[]. *)
Fixpoint escapeMarkdown (text : string) : string :=
  match text with
  | EmptyString => EmptyString
  | String c s' =>
      if bool_decide (c = "_"%char) || bool_decide (c = "*"%char)
         || bool_decide (c = "`"%char) || bool_decide (c = "["%char)
      then String "\"%char (String c (escapeMarkdown s'))
      else String c (escapeMarkdown s')
  end.

Definition nl : string := String (ascii_of_N 10) EmptyString.

(** [formatPermissionNotification] *)
Definition formatPermissionNotification (token : string) (claudeContext : option string)
    (toolName message projectSlug : string) (allowBulkApproval : bool) : string :=
  let notification := "[" +:+ escapeMarkdown projectSlug +:+ "] #" +:+ token +:+ nl +:+ nl in
  let notification :=
    match claudeContext with
    | Some c => if JsString.truthy c
                then notification +:+ escapeMarkdown c +:+ nl +:+ nl
                else notification
    | None => notification
    end in
  let notification := notification +:+ "*Permission:* " +:+ escapeMarkdown toolName +:+ nl in
  let notification := notification +:+ escapeMarkdown message +:+ nl +:+ nl in
  if allowBulkApproval then notification +:+ "Reply: yes / no / all"
  else notification +:+ "Reply: yes / no".

(** [formatStopNotification] *)
Definition formatStopNotification (token : string) (claudeContext : option string)
    (projectSlug : string) : string :=
  let notification := "[" +:+ projectSlug +:+ "] #" +:+ token +:+ nl +:+ nl in
  let notification :=
    match claudeContext with
    | Some c => if JsString.truthy c then notification +:+ c +:+ nl +:+ nl else notification
    | None => notification
    end in
  notification +:+ "Task complete. Reply with follow-up instructions or ignore to stop.".


(** ** JavaScript values used as [Map] keys *)

(** Keys of a [Map] are compared by SameValueZero: a number and the string
    that prints it are different keys. *)
Inductive jsval := JNum (n : Z) | JStr (s : string).

#[global] Instance jsval_eq_dec : EqDecision jsval.
Proof. solve_decision. Defined.

#[global] Instance jsval_countable : Countable jsval :=
  inj_countable'
    (λ v, match v with JNum n => inl n | JStr s => inr s end)
    (λ x, match x with inl n => JNum n | inr s => JStr s end)
    (λ v, match v with JNum _ => eq_refl | JStr _ => eq_refl end).

(** [String(v)] *)
Definition jsString (v : jsval) : string :=
  match v with JNum n => JsString.ofNumber n | JStr s => s end.

(** A [Map] or [Set] that the source iterates over keeps insertion order. *)
Module JsMap.
Section ops.
Context {K V : Type} `{EqDecision K}.

Fixpoint get (k : K) (m : list (K * V)) : option V :=
  match m with
  | [] => None
  | (k', v) :: m' => if decide (k = k') then Some v else get k m'
  end.

Fixpoint set (k : K) (v : V) (m : list (K * V)) : list (K * V) :=
  match m with
  | [] => [(k, v)]
  | (k', v') :: m' => if decide (k = k') then (k, v) :: m' else (k', v') :: set k v m'
  end.

Definition delete (k : K) (m : list (K * V)) : list (K * V) :=
  filter (λ kv, kv.1 ≠ k) m.
End ops.
End JsMap.

Module JsSet.
Section ops.
Context {K : Type} `{EqDecision K}.
Definition has (k : K) (s : list K) : bool := bool_decide (k ∈ s).
Definition add (k : K) (s : list K) : list K := if has k s then s else (s ++ [k])%list.
Definition delete (k : K) (s : list K) : list K := filter (λ x, x ≠ k) s.
End ops.
End JsSet.

(** ** The session registry (sessions.js) *)

Module Sessions.

Definition isLowerAlnum (c : ascii) : bool :=
  let n := JsString.code c in
  ((97 <=? n) && (n <=? 122) || (48 <=? n) && (n <=? 57))%N.

Definition isDash (c : ascii) : bool := bool_decide (c = "-"%char).

(** [s.replace(/X+/g, '-')] where [p] recognises the class X: every maximal
    run of [p]-characters becomes one dash. [inRun] tells that the previous
    character belonged to a run already replaced. *)
Fixpoint replaceRuns (p : ascii → bool) (inRun : bool) (s : string) : string :=
  match s with
  | EmptyString => EmptyString
  | String c s' =>
      if p c then
        if inRun then replaceRuns p true s' else String "-" (replaceRuns p true s')
      else String c (replaceRuns p false s')
  end.

(** [s.replace(/^-+|-+$/g, '')] *)
Definition stripDashes (s : string) : string :=
  JsString.dropTrailing isDash (JsString.dropLeading isDash s).

(** [slugify(name)] *)
Definition slugify (name : string) : string :=
  let s1 := JsString.toLowerCase name in
  let s2 := replaceRuns (λ c, negb (isLowerAlnum c)) false s1 in
  let s3 := stripDashes s2 in
  replaceRuns isDash false s3.

Definition hexDigit (n : N) : ascii :=
  if (n <? 10)%N then ascii_of_N (48 + n) else ascii_of_N (87 + n).

Definition hexByte (b : byte) : string :=
  let n := Byte.to_N b in
  String (hexDigit (n / 16)) (String (hexDigit (n mod 16)) EmptyString).

(** [generateRandomSuffix()]: [crypto.randomBytes(2).toString('hex')], the two
    random bytes being supplied by the caller. *)
Definition generateRandomSuffix (rand : byte * byte) : string :=
  hexByte rand.1 +:+ hexByte rand.2.

Record SessionData := {
  sd_token : string;
  sd_projectSlug : string;
  sd_registeredAt : Z
}.

Record Pending := {
  rp_sessionId : string;
  rp_messageId : jsval;
  rp_tool : string;
  rp_command : string;
  rp_requestId : string;
  rp_retryCount : Z;
  rp_firstRequestAt : Z
}.

(** One entry of [exportState().pendingRequests] *)
Record Exported := {
  ex_messageId : jsval;
  ex_tool : string;
  ex_command : string;
  ex_retryCount : Z;
  ex_firstRequestAt : Z
}.

(** The closure variables of [createSessionRegistry] *)
Record Registry := {
  sessionsBySessionId : gmap string SessionData;
  sessionsByToken : gmap string string;
  afkEnabledSessions : list string;
  pendingByMessageId : list (jsval * Pending);
  pendingKeyToMessageId : gmap string jsval
}.

Definition empty : Registry :=
  {| sessionsBySessionId := ∅; sessionsByToken := ∅; afkEnabledSessions := [];
     pendingByMessageId := []; pendingKeyToMessageId := ∅ |}.

Definition makePendingKey (sessionId tool command : string) : string :=
  sessionId +:+ ":" +:+ tool +:+ ":" +:+ command.

(** [register(sessionId, projectName)]; [rand] and [now] are what
    [crypto.randomBytes(2)] and [Date.now()] return. *)
Definition register (rand : byte * byte) (now : Z) (sessionId projectName : string)
    (r : Registry) : string * Registry :=
  match sessionsBySessionId r !! sessionId with
  | Some data => (sd_token data, r)
  | None =>
      let projectSlug := slugify projectName in
      let suffix := generateRandomSuffix rand in
      let token := projectSlug +:+ "-" +:+ suffix in
      let sessionData :=
        {| sd_token := token; sd_projectSlug := projectSlug; sd_registeredAt := now |} in
      (token,
       {| sessionsBySessionId := <[sessionId := sessionData]> (sessionsBySessionId r);
          sessionsByToken := <[token := sessionId]> (sessionsByToken r);
          afkEnabledSessions := afkEnabledSessions r;
          pendingByMessageId := pendingByMessageId r;
          pendingKeyToMessageId := pendingKeyToMessageId r |})
  end.

(** [unregister(sessionId)] *)
Definition unregister (sessionId : string) (r : Registry) : Registry :=
  match sessionsBySessionId r !! sessionId with
  | Some session =>
      {| sessionsBySessionId := delete sessionId (sessionsBySessionId r);
         sessionsByToken := delete (sd_token session) (sessionsByToken r);
         afkEnabledSessions := JsSet.delete sessionId (afkEnabledSessions r);
         pendingByMessageId :=
           filter (λ kv, rp_sessionId kv.2 ≠ sessionId) (pendingByMessageId r);
         pendingKeyToMessageId :=
           filter (λ kv, JsString.startsWith (sessionId +:+ ":") kv.1 = false)
                  (pendingKeyToMessageId r) |}
  | None => r
  end.

Definition enableAfk (sessionId : string) (r : Registry) : Registry :=
  {| sessionsBySessionId := sessionsBySessionId r;
     sessionsByToken := sessionsByToken r;
     afkEnabledSessions := JsSet.add sessionId (afkEnabledSessions r);
     pendingByMessageId := pendingByMessageId r;
     pendingKeyToMessageId := pendingKeyToMessageId r |}.

Definition disableAfk (sessionId : string) (r : Registry) : Registry :=
  {| sessionsBySessionId := sessionsBySessionId r;
     sessionsByToken := sessionsByToken r;
     afkEnabledSessions := JsSet.delete sessionId (afkEnabledSessions r);
     pendingByMessageId := pendingByMessageId r;
     pendingKeyToMessageId := pendingKeyToMessageId r |}.

Definition isAfkEnabled (sessionId : string) (r : Registry) : bool :=
  JsSet.has sessionId (afkEnabledSessions r).

Definition getAfkEnabledSessions (r : Registry) : list string := afkEnabledSessions r.

(** [addPendingRequest(sessionId, request)], with [request.command || ''],
    [request.retryCount || 0] and [request.firstRequestAt || now] already
    resolved by the caller. *)
Definition addPendingRequest (sessionId : string) (messageId : jsval)
    (tool command requestId : string) (retryCount firstRequestAt : Z)
    (r : Registry) : Registry :=
  let pending :=
    {| rp_sessionId := sessionId; rp_messageId := messageId; rp_tool := tool;
       rp_command := command; rp_requestId := requestId;
       rp_retryCount := retryCount; rp_firstRequestAt := firstRequestAt |} in
  {| sessionsBySessionId := sessionsBySessionId r;
     sessionsByToken := sessionsByToken r;
     afkEnabledSessions := afkEnabledSessions r;
     pendingByMessageId := JsMap.set messageId pending (pendingByMessageId r);
     pendingKeyToMessageId :=
       <[makePendingKey sessionId tool command := messageId]> (pendingKeyToMessageId r) |}.

(** [removePendingByMessageId(messageId)] *)
Definition removePendingByMessageId (messageId : jsval) (r : Registry) : Registry :=
  match JsMap.get messageId (pendingByMessageId r) with
  | Some pending =>
      {| sessionsBySessionId := sessionsBySessionId r;
         sessionsByToken := sessionsByToken r;
         afkEnabledSessions := afkEnabledSessions r;
         pendingByMessageId := JsMap.delete messageId (pendingByMessageId r);
         pendingKeyToMessageId :=
           delete (makePendingKey (rp_sessionId pending) (rp_tool pending) (rp_command pending))
                  (pendingKeyToMessageId r) |}
  | None => r
  end.

Definition getPendingCount (r : Registry) : nat := List.length (pendingByMessageId r).

(** [exportState().pendingRequests]: one entry per session id, the last
    pending request of the session in insertion order. *)
Definition exportPendingRequests (r : Registry) : gmap string Exported :=
  foldl (λ acc kv,
           let pending := kv.2 in
           <[rp_sessionId pending :=
               {| ex_messageId := rp_messageId pending; ex_tool := rp_tool pending;
                  ex_command := rp_command pending; ex_retryCount := rp_retryCount pending;
                  ex_firstRequestAt := rp_firstRequestAt pending |}]> acc)
        ∅ (pendingByMessageId r).

(** [importState(state)]: only the AFK sessions are imported. *)
Definition importState (afkSessions : list string) (r : Registry) : Registry :=
  {| sessionsBySessionId := sessionsBySessionId r;
     sessionsByToken := sessionsByToken r;
     afkEnabledSessions := foldl (λ s x, JsSet.add x s) (afkEnabledSessions r) afkSessions;
     pendingByMessageId := pendingByMessageId r;
     pendingKeyToMessageId := pendingKeyToMessageId r |}.

(** The object that [getByToken] and [getBySessionId] return. *)
Record SessionInfo := {
  si_sessionId : string;
  si_token : string;
  si_projectSlug : string;
  si_registeredAt : Z
}.

(** [getBySessionId(sessionId)] *)
Definition getBySessionId (sessionId : string) (r : Registry) : option SessionInfo :=
  match sessionsBySessionId r !! sessionId with
  | Some session =>
      Some {| si_sessionId := sessionId; si_token := sd_token session;
              si_projectSlug := sd_projectSlug session;
              si_registeredAt := sd_registeredAt session |}
  | None => None
  end.

(** [getByToken(token)]; [!sessionId] also holds of the empty session id. *)
Definition getByToken (token : string) (r : Registry) : option SessionInfo :=
  match sessionsByToken r !! token with
  | Some sessionId =>
      if JsString.truthy sessionId then getBySessionId sessionId r else None
  | None => None
  end.

(** [getPendingByMessageId(messageId)] *)
Definition getPendingByMessageId (messageId : jsval) (r : Registry) : option Pending :=
  JsMap.get messageId (pendingByMessageId r).

(** [getPendingBySessionAndTool(sessionId, tool, command)] *)
Definition getPendingBySessionAndTool (sessionId tool command : string) (r : Registry)
  : option Pending :=
  match pendingKeyToMessageId r !! makePendingKey sessionId tool command with
  | Some messageId => JsMap.get messageId (pendingByMessageId r)
  | None => None
  end.



(** [exportState().afkSessions] *)
Definition exportAfkSessions (r : Registry) : list string := afkEnabledSessions r.

End Sessions.

(** ** The chat adapter (telegram.js) *)

Module Telegram.

(** The parts of an update that the daemon reads: [msg.chat?.id],
    [msg.text], [msg.date] and [msg.reply_to_message?.message_id]. *)
Record Message := {
  chat_id : option Z;
  text : option string;
  date : option Z;
  reply_to_message_id : option Z
}.

Record Update := {
  update_id : Z;
  message : option Message
}.

(** What one [apiRequest] comes to after its retries: the [result] of an
    [ok: true] reply, an [ok: false] reply with its optional [description],
    or the message of the last network error. *)
Inductive ApiResult (A : Type) :=
  | ApiOk (result : A)
  | ApiNotOk (description : option string)
  | ApiNetworkError (msg : string).
Arguments ApiOk {A} result.
Arguments ApiNotOk {A} description.
Arguments ApiNetworkError {A} msg.

(** The message of the error that [apiRequest] throws. *)
Definition apiErrorMessage (description : option string) : string :=
  "Telegram API error: " +:+
  match description with
  | Some d => if JsString.truthy d then d else "Unknown error"
  | None => "Unknown error"
  end.

(** JavaScript truthiness of a number *)
Definition truthyNum (n : Z) : bool := negb (n =? 0).

(** The predicate of the [updates.filter] call in [getUpdates].  The source
    computes [now = Date.now() / 1000] and keeps the update when
    [now - date <= staleThreshold]; both sides are multiplied by 1000 here,
    [now_ms] being [Date.now()]. *)
Definition keepUpdate (now_ms staleThreshold : Z) (u : Update) : bool :=
  match message u with
  | None => true
  | Some m =>
      match date m with
      | None => true
      | Some d =>
          if truthyNum d then bool_decide (now_ms - 1000 * d <= 1000 * staleThreshold)
          else true
      end
  end.

(** The array that [getUpdates] returns when the request succeeded with
    [updates]. *)
Definition filterUpdates (now_ms staleThreshold : Z) (updates : list Update) : list Update :=
  filter (λ u, keepUpdate now_ms staleThreshold u = true) updates.

(** [getMaxUpdateId(updates)]: [null] for no update, else
    [Math.max(...updates.map(u => u.update_id))]. *)
Definition getMaxUpdateId (updates : list Update) : option Z :=
  match updates with
  | [] => None
  | u :: us => Some (foldl Z.max (update_id u) (update_id <$> us))
  end.

(** What one pass through the [try] block of [apiRequest] comes to: the
    reply has a truthy [ok] and carries [result]; the reply has a falsy [ok]
    and maybe a [description]; or [fetchFn] or [response.json()] threw an
    error with message [msg]. *)
Inductive FetchOutcome (A : Type) :=
  | FetchOk (result : A)
  | FetchNotOk (description : option string)
  | FetchFailed (msg : string).
Arguments FetchOk {A} result.
Arguments FetchNotOk {A} description.
Arguments FetchFailed {A} msg.

(** The loop of [apiRequest] from [attempt] on, [more] being
    [retries - attempt]; [outcome i] is what attempt [i] comes to.  The
    value is what the call returns or throws, with the delays (in ms) that
    it waited between attempts. *)
Fixpoint apiAttempts {A} (retryDelay : Z) (outcome : nat → FetchOutcome A)
    (attempt more : nat) : ApiResult A * list Z :=
  match outcome attempt with
  | FetchOk result => (ApiOk result, [])
  | FetchNotOk description => (ApiNotOk description, [])
  | FetchFailed msg =>
      if JsString.includes msg "Telegram API error" then (ApiNetworkError msg, [])
      else
        match more with
        | O => (ApiNetworkError msg, [])
        | S more' =>
            let '(r, delays) := apiAttempts retryDelay outcome (S attempt) more' in
            (r, retryDelay * 2 ^ Z.of_nat attempt :: delays)
        end
  end.

(** [apiRequest(method, params, retries)] *)
Definition apiRequest {A} (retryDelay : Z) (retries : nat) (outcome : nat → FetchOutcome A)
  : ApiResult A * list Z :=
  apiAttempts retryDelay outcome 0 retries.

(** The options of [DEFAULT_OPTIONS] that [apiRequest] reads. *)
Definition defaultMaxRetries : nat := 3.
Definition defaultRetryDelay : Z := 1000.

End Telegram.

(** ** The transcript probe (transcript.js) *)

Module Transcript.

(** A content block: its [type], [tool_use_id] and whether [is_error === true]. *)
Record Block := {
  b_type : string;
  b_tool_use_id : option string;
  b_is_error : bool
}.

Inductive Content := CString (s : string) | CBlocks (bs : list Block).

(** A parsed line: [entry.type] and [entry.message?.content]. *)
Record Entry := {
  e_type : string;
  e_content : option Content
}.

(** A non-blank line of the file; [None] when [JSON.parse] throws on it. *)
Definition Line := option Entry.

Record ToolResult := { tr_found : bool; tr_isError : bool; tr_offset : nat }.
Record UserMessage := { um_found : bool; um_content : string; um_offset : nat }.

Definition matchingBlock (toolUseId : option string) (bs : list Block) : option Block :=
  head (filter (λ b, b_type b = "tool_result" ∧ b_tool_use_id b = toolUseId) bs).

Definition lineToolResult (toolUseId : option string) (l : Line) : option bool :=
  match l with
  | Some e =>
      if bool_decide (e_type e = "user") then
        match e_content e with
        | Some (CBlocks bs) => b_is_error <$> matchingBlock toolUseId bs
        | _ => None
        end
      else None
  | None => None
  end.

Fixpoint scanToolResult (toolUseId : option string) (i : nat) (lines : list Line)
  : option (bool * nat) :=
  match lines with
  | [] => None
  | l :: ls =>
      match lineToolResult toolUseId l with
      | Some isError => Some (isError, S i)
      | None => scanToolResult toolUseId (S i) ls
      end
  end.

(** [findToolResult(path, toolUseId, afterOffset)], [file] being the lines
    read from [path], or [None] when reading fails. *)
Definition findToolResult (file : option (list Line)) (toolUseId : option string)
    (afterOffset : nat) : option ToolResult :=
  match file with
  | None => None
  | Some lines =>
      Some match scanToolResult toolUseId afterOffset (drop afterOffset lines) with
           | Some (isError, offset) =>
               {| tr_found := true; tr_isError := isError; tr_offset := offset |}
           | None =>
               {| tr_found := false; tr_isError := false; tr_offset := List.length lines |}
           end
  end.

Definition lineUserMessage (l : Line) : option string :=
  match l with
  | Some e =>
      if bool_decide (e_type e = "user") then
        match e_content e with
        | Some (CString s) => if JsString.truthy (JsString.trim s) then Some s else None
        | _ => None
        end
      else None
  | None => None
  end.

Fixpoint scanUserMessage (i : nat) (lines : list Line) : option (string * nat) :=
  match lines with
  | [] => None
  | l :: ls =>
      match lineUserMessage l with
      | Some s => Some (s, S i)
      | None => scanUserMessage (S i) ls
      end
  end.

(** [findUserMessage(path, afterOffset)] *)
Definition findUserMessage (file : option (list Line)) (afterOffset : nat)
  : option UserMessage :=
  match file with
  | None => None
  | Some lines =>
      Some match scanUserMessage afterOffset (drop afterOffset lines) with
           | Some (s, offset) => {| um_found := true; um_content := s; um_offset := offset |}
           | None => {| um_found := false; um_content := ""; um_offset := List.length lines |}
           end
  end.

(** [getLineCount(path)] *)
Definition getLineCount (file : option (list Line)) : nat :=
  match file with
  | None => 0%nat
  | Some lines => List.length lines
  end.

(** [getLastToolUse(path)]: the [id] and [name] of the block, and the text
    that [formatToolInput(tool, input)] renders for it. *)
Record ToolUse := {
  tu_id : option string;
  tu_tool : string;
  tu_formatted : string
}.

(** *** The context shown in a notification *)

(** A content block as [getLastClaudeMessage] and [getLastUserMessage] read
    it: its [type] and its [text], which may be missing. *)
Record TextBlock := {
  tb_type : string;
  tb_text : option string
}.

(** [entry.message?.content]: a string, an array of blocks, or another value. *)
Inductive MessageContent :=
  | MString (s : string)
  | MBlocks (bs : list TextBlock)
  | MOther (isTruthy : bool).

(** A parsed line: [entry.type] and [entry.message?.content]. *)
Record MessageEntry := {
  me_type : string;
  me_content : option MessageContent
}.

(** A non-blank line of the file; [None] when [JSON.parse] throws on it. *)
Definition MessageLine := option MessageEntry.

(** [xs.join(sep)] *)
Fixpoint join (sep : string) (xs : list string) : string :=
  match xs with
  | [] => ""
  | [x] => x
  | x :: xs' => x +:+ sep +:+ join sep xs'
  end.

(** Truthiness of [entry.message?.content] *)
Definition contentTruthy (c : MessageContent) : bool :=
  match c with
  | MString s => JsString.truthy s
  | MBlocks _ => true
  | MOther t => t
  end.

(** The variable [text] once the content has been looked at: the string
    itself, or the texts of the [text] blocks joined by line feeds ([join]
    renders a missing text as the empty string); [None] stands for [null]. *)
Definition contentText (c : MessageContent) : option string :=
  match c with
  | MString s => Some s
  | MBlocks bs =>
      match filter (λ b, tb_type b = "text") bs with
      | [] => None
      | textBlocks => Some (join nl ((λ b, default "" (tb_text b)) <$> textBlocks))
      end
  | MOther _ => None
  end.

(** [if (options.maxLength && text.length > options.maxLength)
       text = text.substring(0, options.maxLength - 3) + '...'] *)
Definition limitLength (maxLength : option nat) (text : string) : string :=
  match maxLength with
  | Some n =>
      if negb (n =? 0)%nat && (n <? String.length text)%nat
      then JsString.substring0 (n - 3) text +:+ "..."
      else text
  | None => text
  end.

(** The body of the backward loop of [getLastClaudeMessage] ([role] is
    [assistant]) and of [getLastUserMessage] ([role] is [user]) for one line:
    the text to return, if the line has one. *)
Definition lineText (role : string) (maxLength : option nat) (l : MessageLine)
  : option string :=
  match l with
  | Some entry =>
      if bool_decide (me_type entry = role) then
        match me_content entry with
        | Some content =>
            if contentTruthy content then
              match contentText content with
              | Some text =>
                  if JsString.truthy text && JsString.truthy (JsString.trim text)
                  then Some (limitLength maxLength text)
                  else None
              | None => None
              end
            else None
        | None => None
        end
      else None
  | None => None
  end.

(** The backward loop: [lines] in file order. *)
Definition lastText (role : string) (maxLength : option nat) (lines : list MessageLine)
  : option string :=
  head (omap (lineText role maxLength) (reverse lines)).

(** [getLastClaudeMessage(path, { maxLength })], [file] being the non-blank
    lines read from [path], or [None] when reading fails. *)
Definition getLastClaudeMessage (file : option (list MessageLine)) (maxLength : option nat)
  : option string :=
  file ≫= lastText "assistant" maxLength.

(** [getLastUserMessage(path, { maxLength })] *)
Definition getLastUserMessage (file : option (list MessageLine)) (maxLength : option nat)
  : option string :=
  file ≫= lastText "user" maxLength.

End Transcript.

(** ** The framing of the pipe (ipc.js) *)

Module Ipc.



Section receive.
Context {A : Type}.
Variable parse : string → option A.   (* [JSON.parse]; [None] when it throws *)
Variable stringify : A → string.      (* [JSON.stringify] *)




(** What [respond] and [send] write: [JSON.stringify(message) + '\n']. *)
Definition frame (message : A) : string := stringify message +:+ nl.

End receive.
End Ipc.

(** ** The daemon (index.js): data *)

(** A connection of a hook client, identified by a number. *)
Definition Socket := nat.

Inductive RequestType := RtPermission | RtStop.

#[global] Instance RequestType_eq_dec : EqDecision RequestType.
Proof. solve_decision. Defined.

Record Config := {
  alwaysEnabled : bool;
  maxRetries : Z;
  permissionTimeout : Z;
  stopFollowupTimeout : Z;
  staleUpdateThreshold : Z;
  allowSinglePendingFallback : bool;
  bulkApprovalTools : list string
}.

(** The fields of [DEFAULT_CONFIG] that the modelled functions read. *)
Definition DEFAULT_CONFIG : Config :=
  {| alwaysEnabled := false;
     maxRetries := 3;
     permissionTimeout := 3600;
     stopFollowupTimeout := 3600;
     staleUpdateThreshold := 300;
     allowSinglePendingFallback := true;
     bulkApprovalTools := ["Edit"; "Write"] |}.

(** A value of [state.pendingRequests], as an object of optional properties.
    [pr_messageId] only occurs in entries that come out of the registry's
    [exportState]. *)
Record PendingRequest := {
  pr_sessionId : option string;
  pr_tool : option string;
  pr_command : option string;
  pr_tool_use_id : option string;
  pr_requestType : option RequestType;
  pr_transcriptPath : option string;
  pr_projectDir : option string;
  pr_terminalId : option string;
  pr_lastCheckedOffset : option nat;
  pr_firstRequestAt : option Z;
  pr_requestId : option string;
  pr_retryCount : option Z;
  pr_socketAlive : option bool;
  pr_messageId : option jsval
}.

Definition set_retryCount (n : Z) (p : PendingRequest) : PendingRequest :=
  {| pr_sessionId := pr_sessionId p; pr_tool := pr_tool p; pr_command := pr_command p;
     pr_tool_use_id := pr_tool_use_id p; pr_requestType := pr_requestType p;
     pr_transcriptPath := pr_transcriptPath p; pr_projectDir := pr_projectDir p;
     pr_terminalId := pr_terminalId p; pr_lastCheckedOffset := pr_lastCheckedOffset p;
     pr_firstRequestAt := pr_firstRequestAt p; pr_requestId := pr_requestId p;
     pr_retryCount := Some n; pr_socketAlive := pr_socketAlive p;
     pr_messageId := pr_messageId p |}.

Definition set_lastCheckedOffset (n : nat) (p : PendingRequest) : PendingRequest :=
  {| pr_sessionId := pr_sessionId p; pr_tool := pr_tool p; pr_command := pr_command p;
     pr_tool_use_id := pr_tool_use_id p; pr_requestType := pr_requestType p;
     pr_transcriptPath := pr_transcriptPath p; pr_projectDir := pr_projectDir p;
     pr_terminalId := pr_terminalId p; pr_lastCheckedOffset := Some n;
     pr_firstRequestAt := pr_firstRequestAt p; pr_requestId := pr_requestId p;
     pr_retryCount := pr_retryCount p; pr_socketAlive := pr_socketAlive p;
     pr_messageId := pr_messageId p |}.

(** An entry of the registry's export read as a pending request. *)
Definition pendingOfExported (e : Sessions.Exported) : PendingRequest :=
  {| pr_sessionId := None; pr_tool := Some (Sessions.ex_tool e);
     pr_command := Some (Sessions.ex_command e); pr_tool_use_id := None;
     pr_requestType := None; pr_transcriptPath := None; pr_projectDir := None;
     pr_terminalId := None; pr_lastCheckedOffset := None;
     pr_firstRequestAt := Some (Sessions.ex_firstRequestAt e); pr_requestId := None;
     pr_retryCount := Some (Sessions.ex_retryCount e); pr_socketAlive := None;
     pr_messageId := Some (Sessions.ex_messageId e) |}.

(** The persisted [state] object. *)
Record State := {
  chatId : option Z;
  afkSessions : list string;
  pendingRequests : gmap string PendingRequest;
  requestsBySession : gmap string (list string);
  sessionWhitelists : gmap string (list string)
}.

(** What [loadState] returns when there is no usable state file. *)
Definition emptyState : State :=
  {| chatId := None; afkSessions := []; pendingRequests := ∅;
     requestsBySession := ∅; sessionWhitelists := ∅ |}.

Definition set_chatId (c : option Z) (s : State) : State :=
  {| chatId := c; afkSessions := afkSessions s; pendingRequests := pendingRequests s;
     requestsBySession := requestsBySession s; sessionWhitelists := sessionWhitelists s |}.
Definition set_afkSessions (a : list string) (s : State) : State :=
  {| chatId := chatId s; afkSessions := a; pendingRequests := pendingRequests s;
     requestsBySession := requestsBySession s; sessionWhitelists := sessionWhitelists s |}.
Definition set_pendingRequests (p : gmap string PendingRequest) (s : State) : State :=
  {| chatId := chatId s; afkSessions := afkSessions s; pendingRequests := p;
     requestsBySession := requestsBySession s; sessionWhitelists := sessionWhitelists s |}.
Definition set_requestsBySession (r : gmap string (list string)) (s : State) : State :=
  {| chatId := chatId s; afkSessions := afkSessions s; pendingRequests := pendingRequests s;
     requestsBySession := r; sessionWhitelists := sessionWhitelists s |}.
Definition set_sessionWhitelists (w : gmap string (list string)) (s : State) : State :=
  {| chatId := chatId s; afkSessions := afkSessions s; pendingRequests := pendingRequests s;
     requestsBySession := requestsBySession s; sessionWhitelists := w |}.

(** JavaScript truthiness of [state.chatId] *)
Definition chatIdSet (s : State) : bool :=
  match chatId s with
  | Some c => Telegram.truthyNum c
  | None => false
  end.

(** *** Frames written to a hook client *)

Inductive Status :=
  | st_approved | st_denied | st_not_enabled | st_not_configured
  | st_timeout_retry | st_timeout_final | st_resolved_locally | st_error
  | st_continue | st_stop | st_enabled | st_disabled.

Inductive Resolution := res_approved | res_denied | res_socket_closed | res_local_followup.

Record Response := {
  request_id : string;
  status : Status;
  r_message : option string;
  bulk_approved : option bool;
  instructions : option string;
  resolution : option Resolution
}.

Definition response (request_id : string) (status : Status) : Response :=
  {| request_id := request_id; status := status; r_message := None;
     bulk_approved := None; instructions := None; resolution := None |}.

Definition responseMsg (request_id : string) (status : Status) (msg : string) : Response :=
  {| request_id := request_id; status := status; r_message := Some msg;
     bulk_approved := None; instructions := None; resolution := None |}.

Record StatusResponse := {
  sr_request_id : string;
  telegram_configured : bool;
  chat_id_configured : bool;
  afk_sessions : list string;
  pending_requests : nat;
  always_enabled : bool;
  bulk_approval_tools : list string;
  session_whitelists : gmap string (list string)
}.

Inductive Frame :=
  | FResponse (r : Response)
  | FStatus (r : StatusResponse).

(** *** Observable effects *)

Inductive Effect :=
  | Respond (socket : Socket) (frame : Frame)          (* [respond(frame)] on a connection *)
  | SendMessage (chat : option Z) (text : string)      (* a message accepted by the chat service *)
  | DeleteMessage (chat : option Z) (messageId : jsval) (* a deletion requested from the chat service *)
  | SaveState (s : State).                             (* [saveState(state)] *)

Inductive JsError :=
  | ReferenceError (identifier : string)
  | TypeError (msg : string)
  | Error (msg : string).

(** [err.message] *)
Definition errMessage (e : JsError) : string :=
  match e with
  | ReferenceError x => x +:+ " is not defined"
  | TypeError m => m
  | Error m => m
  end.

(** How the process stands: running, ended by [process.exit(code)], or
    brought down by an error that no handler caught (an uncaught exception
    or an unhandled promise rejection). *)
Inductive ProcStatus :=
  | Running
  | Exited (code : Z)
  | Crashed (e : JsError).

(** The exit status the operating system sees; Node reports an uncaught
    error with exit status 1. *)
Definition exitStatus (s : ProcStatus) : option Z :=
  match s with
  | Running => None
  | Exited c => Some c
  | Crashed _ => Some 1
  end.

(** An entry of [waitingSockets]; [respond] writes to [w_socket]. *)
Record Waiting := {
  w_socket : Socket;
  w_requestId : string;
  w_sessionId : string;
  w_type : RequestType;
  w_toolName : option string;
  w_allowBulkApproval : bool;
  w_timeout : option nat
}.

(** The closure of a [setTimeout] callback armed by a request handler. *)
Record Timer := {
  tm_type : RequestType;
  tm_messageId : Z;
  tm_socket : Socket;
  tm_session_id : string;
  tm_request_id : string
}.

(** The variables of the [createDaemon] closure, together with the sockets'
    [destroyed] flags, the effects performed so far and the process status. *)
Record Daemon := {
  config : Config   (* [const config = loadConfig()] *);
  tokenConfigured : bool   (* whether [getBotToken()] gave a token *);
  state : State   (* [let state = loadState()] *);
  registry : Sessions.Registry   (* [const registry = createSessionRegistry()] *);
  waitingSockets : gmap jsval Waiting   (* [Map] messageId -> waiting data *);
  socketToMessageIds : gmap Socket (list Z)   (* [Map] socket -> [Set] of messageIds *);
  timers : gmap nat Timer   (* armed [setTimeout] handles *);
  nextTimer : nat   (* the next fresh timer handle *);
  telegramOffset : Z;
  consecutiveConflictErrors : Z;
  isPolling : bool;
  isPollingTranscripts : bool;
  running : bool;
  destroyedSockets : gset Socket   (* sockets whose [destroyed] flag is set *);
  effects : list Effect   (* what the daemon has done so far, oldest first *);
  proc : ProcStatus
}.

Definition with_state (v : State) (d : Daemon) : Daemon :=
  {| config := config d; tokenConfigured := tokenConfigured d; state := v;
     registry := registry d; waitingSockets := waitingSockets d;
     socketToMessageIds := socketToMessageIds d; timers := timers d; nextTimer := nextTimer d;
     telegramOffset := telegramOffset d;
     consecutiveConflictErrors := consecutiveConflictErrors d; isPolling := isPolling d;
     isPollingTranscripts := isPollingTranscripts d; running := running d;
     destroyedSockets := destroyedSockets d; effects := effects d; proc := proc d |}.
Definition with_registry (v : Sessions.Registry) (d : Daemon) : Daemon :=
  {| config := config d; tokenConfigured := tokenConfigured d; state := state d; registry := v;
     waitingSockets := waitingSockets d; socketToMessageIds := socketToMessageIds d;
     timers := timers d; nextTimer := nextTimer d; telegramOffset := telegramOffset d;
     consecutiveConflictErrors := consecutiveConflictErrors d; isPolling := isPolling d;
     isPollingTranscripts := isPollingTranscripts d; running := running d;
     destroyedSockets := destroyedSockets d; effects := effects d; proc := proc d |}.
Definition with_waitingSockets (v : gmap jsval Waiting) (d : Daemon) : Daemon :=
  {| config := config d; tokenConfigured := tokenConfigured d; state := state d;
     registry := registry d; waitingSockets := v; socketToMessageIds := socketToMessageIds d;
     timers := timers d; nextTimer := nextTimer d; telegramOffset := telegramOffset d;
     consecutiveConflictErrors := consecutiveConflictErrors d; isPolling := isPolling d;
     isPollingTranscripts := isPollingTranscripts d; running := running d;
     destroyedSockets := destroyedSockets d; effects := effects d; proc := proc d |}.
Definition with_socketToMessageIds (v : gmap Socket (list Z)) (d : Daemon) : Daemon :=
  {| config := config d; tokenConfigured := tokenConfigured d; state := state d;
     registry := registry d; waitingSockets := waitingSockets d; socketToMessageIds :=
     v; timers := timers d; nextTimer := nextTimer d; telegramOffset := telegramOffset
     d; consecutiveConflictErrors := consecutiveConflictErrors d; isPolling := isPolling
     d; isPollingTranscripts := isPollingTranscripts d; running := running d;
     destroyedSockets := destroyedSockets d; effects := effects d; proc := proc d |}.
Definition with_timers (v : gmap nat Timer) (d : Daemon) : Daemon :=
  {| config := config d; tokenConfigured := tokenConfigured d; state := state d;
     registry := registry d; waitingSockets := waitingSockets d;
     socketToMessageIds := socketToMessageIds d; timers := v; nextTimer := nextTimer d;
     telegramOffset := telegramOffset d;
     consecutiveConflictErrors := consecutiveConflictErrors d; isPolling := isPolling d;
     isPollingTranscripts := isPollingTranscripts d; running := running d;
     destroyedSockets := destroyedSockets d; effects := effects d; proc := proc d |}.
Definition with_nextTimer (v : nat) (d : Daemon) : Daemon :=
  {| config := config d; tokenConfigured := tokenConfigured d; state := state d;
     registry := registry d; waitingSockets := waitingSockets d;
     socketToMessageIds := socketToMessageIds d; timers := timers d; nextTimer := v;
     telegramOffset := telegramOffset d;
     consecutiveConflictErrors := consecutiveConflictErrors d; isPolling := isPolling d;
     isPollingTranscripts := isPollingTranscripts d; running := running d;
     destroyedSockets := destroyedSockets d; effects := effects d; proc := proc d |}.
Definition with_telegramOffset (v : Z) (d : Daemon) : Daemon :=
  {| config := config d; tokenConfigured := tokenConfigured d; state := state d;
     registry := registry d; waitingSockets := waitingSockets d;
     socketToMessageIds := socketToMessageIds d; timers := timers d; nextTimer := nextTimer d;
     telegramOffset := v; consecutiveConflictErrors := consecutiveConflictErrors d;
     isPolling := isPolling d; isPollingTranscripts := isPollingTranscripts d;
     running := running d; destroyedSockets := destroyedSockets d; effects := effects d;
     proc := proc d |}.
Definition with_consecutiveConflictErrors (v : Z) (d : Daemon) : Daemon :=
  {| config := config d; tokenConfigured := tokenConfigured d; state := state d;
     registry := registry d; waitingSockets := waitingSockets d;
     socketToMessageIds := socketToMessageIds d; timers := timers d; nextTimer := nextTimer d;
     telegramOffset := telegramOffset d; consecutiveConflictErrors := v;
     isPolling := isPolling d; isPollingTranscripts := isPollingTranscripts d;
     running := running d; destroyedSockets := destroyedSockets d; effects := effects d;
     proc := proc d |}.
Definition with_isPolling (v : bool) (d : Daemon) : Daemon :=
  {| config := config d; tokenConfigured := tokenConfigured d; state := state d;
     registry := registry d; waitingSockets := waitingSockets d;
     socketToMessageIds := socketToMessageIds d; timers := timers d; nextTimer := nextTimer d;
     telegramOffset := telegramOffset d;
     consecutiveConflictErrors := consecutiveConflictErrors d; isPolling := v;
     isPollingTranscripts := isPollingTranscripts d; running := running d;
     destroyedSockets := destroyedSockets d; effects := effects d; proc := proc d |}.
Definition with_isPollingTranscripts (v : bool) (d : Daemon) : Daemon :=
  {| config := config d; tokenConfigured := tokenConfigured d; state := state d;
     registry := registry d; waitingSockets := waitingSockets d;
     socketToMessageIds := socketToMessageIds d; timers := timers d; nextTimer := nextTimer d;
     telegramOffset := telegramOffset d;
     consecutiveConflictErrors := consecutiveConflictErrors d; isPolling := isPolling d;
     isPollingTranscripts := v; running := running d; destroyedSockets := destroyedSockets d;
     effects := effects d; proc := proc d |}.
Definition with_running (v : bool) (d : Daemon) : Daemon :=
  {| config := config d; tokenConfigured := tokenConfigured d; state := state d;
     registry := registry d; waitingSockets := waitingSockets d;
     socketToMessageIds := socketToMessageIds d; timers := timers d; nextTimer := nextTimer d;
     telegramOffset := telegramOffset d;
     consecutiveConflictErrors := consecutiveConflictErrors d; isPolling := isPolling d;
     isPollingTranscripts := isPollingTranscripts d; running := v;
     destroyedSockets := destroyedSockets d; effects := effects d; proc := proc d |}.
Definition with_destroyedSockets (v : gset Socket) (d : Daemon) : Daemon :=
  {| config := config d; tokenConfigured := tokenConfigured d; state := state d;
     registry := registry d; waitingSockets := waitingSockets d;
     socketToMessageIds := socketToMessageIds d; timers := timers d; nextTimer := nextTimer d;
     telegramOffset := telegramOffset d;
     consecutiveConflictErrors := consecutiveConflictErrors d; isPolling := isPolling d;
     isPollingTranscripts := isPollingTranscripts d; running := running d;
     destroyedSockets := v; effects := effects d; proc := proc d |}.
Definition with_effects (v : list Effect) (d : Daemon) : Daemon :=
  {| config := config d; tokenConfigured := tokenConfigured d; state := state d;
     registry := registry d; waitingSockets := waitingSockets d;
     socketToMessageIds := socketToMessageIds d; timers := timers d; nextTimer := nextTimer d;
     telegramOffset := telegramOffset d;
     consecutiveConflictErrors := consecutiveConflictErrors d; isPolling := isPolling d;
     isPollingTranscripts := isPollingTranscripts d; running := running d;
     destroyedSockets := destroyedSockets d; effects := v; proc := proc d |}.
Definition with_proc (v : ProcStatus) (d : Daemon) : Daemon :=
  {| config := config d; tokenConfigured := tokenConfigured d; state := state d;
     registry := registry d; waitingSockets := waitingSockets d;
     socketToMessageIds := socketToMessageIds d; timers := timers d; nextTimer := nextTimer d;
     telegramOffset := telegramOffset d;
     consecutiveConflictErrors := consecutiveConflictErrors d; isPolling := isPolling d;
     isPollingTranscripts := isPollingTranscripts d; running := running d;
     destroyedSockets := destroyedSockets d; effects := effects d; proc := v |}.

(** ** The daemon: control flow

    A handler is a state transformer over [Daemon] that returns a value,
    throws a JavaScript error, or ends the process. *)

Inductive Res (A : Type) :=
  | Val (a : A)
  | Throw (e : JsError)
  | Halt.
Arguments Val {A} a.
Arguments Throw {A} e.
Arguments Halt {A}.

Definition M (A : Type) : Type := Daemon → Res A * Daemon.

#[global] Instance M_ret : MRet M := λ A a d, (Val a, d).

#[global] Instance M_bind : MBind M := λ A B k m d,
  match m d with
  | (Val a, d') => k a d'
  | (Throw e, d') => (Throw e, d')
  | (Halt, d') => (Halt, d')
  end.

Definition throw {A} (e : JsError) : M A := λ d, (Throw e, d).

Definition get : M Daemon := λ d, (Val d, d).

Definition modify (f : Daemon → Daemon) : M unit := λ d, (Val tt, f d).

Definition modifyState (f : State → State) : M unit :=
  modify (λ d, with_state (f (state d)) d).

Definition emit (e : Effect) : M unit :=
  modify (λ d, with_effects (effects d ++ [e])%list d).

(** [try { m } catch (err) { h err }] *)
Definition tryCatch {A} (m : M A) (h : JsError → M A) : M A := λ d,
  match m d with
  | (Throw e, d') => h e d'
  | r => r
  end.

(** [try { m } finally { f }] *)
Definition tryFinally {A} (m : M A) (f : M unit) : M A := λ d,
  match m d with
  | (Halt, d') => (Halt, d')
  | (r, d') =>
      match f d' with
      | (Val _, d'') => (r, d'')
      | (Throw e, d'') => (Throw e, d'')
      | (Halt, d'') => (Halt, d'')
      end
  end.

(** [promise.catch(() => {})] *)
Definition swallow {A} (m : M A) : M unit :=
  tryCatch (m ≫= λ _, mret tt) (λ _, mret tt).

(** An error that nothing catches brings the process down. *)
Definition crash (e : JsError) (d : Daemon) : Daemon :=
  match proc d with
  | Running => with_proc (Crashed e) d
  | _ => d
  end.

(** A call of an async function whose promise is neither awaited nor given a
    [catch]: the caller goes on, and a rejection is unhandled. *)
Definition detach {A} (m : M A) : M unit := λ d,
  match m d with
  | (Val _, d') => (Val tt, d')
  | (Throw e, d') => (Val tt, crash e d')
  | (Halt, d') => (Halt, d')
  end.

(** [process.exit(code)] *)
Definition exitProcess {A} (code : Z) : M A := λ d, (Halt, with_proc (Exited code) d).

(** [for (const x of xs) { await f x }] over an array that the body does not
    change *)
Fixpoint forEach {A} (xs : list A) (f : A → M unit) : M unit :=
  match xs with
  | [] => mret tt
  | x :: xs' => f x;; forEach xs' f
  end.

(** What the outside world answers while one handler runs. *)
Record Env := {
  now_ms : Z;                                   (* [Date.now()] *)
  randomBytes2 : byte * byte;                   (* [crypto.randomBytes(2)] *)
  sendResult : option Z → string → Telegram.ApiResult Z;
      (* the [message_id] of the result of a [sendMessage] request *)
  updatesResult : Z → Telegram.ApiResult (list Telegram.Update);
      (* the result of a [getUpdates] request from an offset *)
  readTranscript : option string → option (list Transcript.Line);
  getLastClaudeMessage : string → nat → option string;
  getLastUserMessage : string → nat → option string;
  getLastToolUse : string → option Transcript.ToolUse;
  findSubagentTranscripts : option string → list string;
  getFileMtime : string → option Z;
  readSessionFile : string → option (option string);
      (* the [sessionId] field of the terminal's session file; [None] when the
         file cannot be read or parsed *)
  basename : string → string                    (* [path.basename] *)
}.

Definition notConfigured : JsError :=
  Error "Telegram client not configured: missing bot token".

Definition apiFailure {A} (r : Telegram.ApiResult A) : JsError :=
  match r with
  | Telegram.ApiNotOk description => Error (Telegram.apiErrorMessage description)
  | Telegram.ApiNetworkError msg => Error msg
  | Telegram.ApiOk _ => Error ""
  end.

(** [telegram.sendMessage(chatId, text)]; the value is [result.message_id]. *)
Definition sendMessage (env : Env) (chat : option Z) (text : string) : M Z :=
  d ← get;
  if negb (tokenConfigured d) then throw notConfigured
  else match sendResult env chat text with
       | Telegram.ApiOk message_id => emit (SendMessage chat text);; mret message_id
       | r => throw (apiFailure r)
       end.

(** [telegram.deleteMessage(chatId, messageId)]: throws without a token,
    otherwise issues the request and ignores its failure. *)
Definition deleteMessage (chat : option Z) (messageId : jsval) : M unit :=
  d ← get;
  if negb (tokenConfigured d) then throw notConfigured
  else emit (DeleteMessage chat messageId).

(** [telegram.getUpdates(offset)] *)
Definition getUpdates (env : Env) (offset : Z) : M (list Telegram.Update) :=
  d ← get;
  if negb (tokenConfigured d) then mret []
  else match updatesResult env offset with
       | Telegram.ApiOk updates =>
           mret (Telegram.filterUpdates (now_ms env) (staleUpdateThreshold (config d)) updates)
       | r => throw (apiFailure r)
       end.

Definition saveState : M unit :=
  d ← get; emit (SaveState (state d)).

(** [respond(frame)] of the connection [socket] *)
Definition respond (socket : Socket) (r : Response) : M unit :=
  emit (Respond socket (FResponse r)).

Definition socketDestroyed (socket : Socket) (d : Daemon) : bool :=
  bool_decide (socket ∈ destroyedSockets d).

(** ** The daemon: the dual index *)

(** The property name that [obj[key]] uses for a possibly missing key. *)
Definition propKey (key : option string) : string := default "undefined" key.

(** [arr.splice(arr.indexOf(x), 1)] when [x] occurs in [arr] *)
Fixpoint removeFirst (x : string) (arr : list string) : list string :=
  match arr with
  | [] => []
  | y :: arr' => if decide (x = y) then arr' else y :: removeFirst x arr'
  end.

(** [findExistingPendingRequest(state, sessionId, toolName, command)] *)
Definition findExistingPendingRequest (s : State) (sessionId toolName : string)
    (command : option string) : option (string * PendingRequest) :=
  let sessionRequests := default [] (requestsBySession s !! sessionId) in
  head (omap (λ msgId,
               match pendingRequests s !! msgId with
               | Some req =>
                   if bool_decide (pr_tool req = Some toolName)
                      && bool_decide (pr_command req = command)
                   then Some (msgId, req) else None
               | None => None
               end) sessionRequests).

(** [removeFromDualIndex(state, messageId, sessionId)] *)
Definition removeFromDualIndex (messageId : jsval) (sessionId : option string)
    (s : State) : State :=
  let msgIdStr := jsString messageId in
  let s := set_pendingRequests (delete msgIdStr (pendingRequests s)) s in
  match requestsBySession s !! propKey sessionId with
  | Some sessionRequests =>
      match removeFirst msgIdStr sessionRequests with
      | [] => set_requestsBySession (delete (propKey sessionId) (requestsBySession s)) s
      | rest => set_requestsBySession (<[propKey sessionId := rest]> (requestsBySession s)) s
      end
  | None => s
  end.

(** [checkRequestExists(state, messageId).pending] *)
Definition checkRequestExists (s : State) (messageId : jsval) : option PendingRequest :=
  pendingRequests s !! jsString messageId.

(** The two statements that add a message id to both indices. *)
Definition insertIntoDualIndex (msgIdStr sessionId : string) (p : PendingRequest)
    (s : State) : State :=
  let s := set_pendingRequests (<[msgIdStr := p]> (pendingRequests s)) s in
  let arr := default [] (requestsBySession s !! sessionId) in
  set_requestsBySession (<[sessionId := (arr ++ [msgIdStr])%list]> (requestsBySession s)) s.

(** ** The daemon: requests of hook clients *)

(** A frame received from a hook client. *)
Record HookMsg := {
  msg_type : string;
  msg_request_id : string;
  session_id : string;
  terminal_id : option string;
  tool_name : string;
  message : option string;
  transcript_path : string;
  cwd : option string
}.

(** [x || fallback] for a possibly missing string *)
Definition orElse (x : option string) (fallback : string) : string :=
  match x with
  | Some s => if JsString.truthy s then s else fallback
  | None => fallback
  end.

Definition truthyStr (x : option string) : bool :=
  match x with
  | Some s => JsString.truthy s
  | None => false
  end.

(** [trackWaitingSocket(messageId, socket, waitingData)] *)
Definition trackWaitingSocket (messageId : Z) (waiting : Waiting) : M unit :=
  modify (λ d,
    let ids := default [] (socketToMessageIds d !! w_socket waiting) in
    with_socketToMessageIds
      (<[w_socket waiting := JsSet.add messageId ids]> (socketToMessageIds d))
      (with_waitingSockets (<[JNum messageId := waiting]> (waitingSockets d)) d)).

(** [msgIds.delete(messageId)] on the set of [socket], if there is one *)
Definition untrackMessage (socket : Socket) (messageId : Z) : M unit :=
  modify (λ d,
    match socketToMessageIds d !! socket with
    | Some ids =>
        with_socketToMessageIds
          (<[socket := JsSet.delete messageId ids]> (socketToMessageIds d)) d
    | None => d
    end).

(** [setTimeout(callback, ...)]: the handle of the armed timer *)
Definition setTimeout (t : Timer) : M nat :=
  d ← get;
  modify (λ d, with_nextTimer (S (nextTimer d))
                 (with_timers (<[nextTimer d := t]> (timers d)) d));;
  mret (nextTimer d).

(** [if (waiting.timeout) clearTimeout(waiting.timeout)] *)
Definition clearTimeout (handle : option nat) : M unit :=
  match handle with
  | Some h => modify (λ d, with_timers (delete h (timers d)) d)
  | None => mret tt
  end.

Definition isToolWhitelisted (s : State) (sessionId toolName : string) : bool :=
  match sessionWhitelists s !! sessionId with
  | Some whitelist => bool_decide (toolName ∈ whitelist)
  | None => false
  end.

(** [addToWhitelist(sessionId, toolName)] *)
Definition addToWhitelist (sessionId toolName : string) : M unit :=
  d ← get;
  let whitelist := default [] (sessionWhitelists (state d) !! sessionId) in
  if bool_decide (toolName ∈ whitelist) then mret tt
  else
    modifyState (λ s, set_sessionWhitelists
                        (<[sessionId := (whitelist ++ [toolName])%list]> (sessionWhitelists s)) s);;
    saveState.

(** [clearWhitelist(sessionId)] *)
Definition clearWhitelist (sessionId : string) : M unit :=
  d ← get;
  match sessionWhitelists (state d) !! sessionId with
  | Some _ =>
      modifyState (λ s, set_sessionWhitelists (delete sessionId (sessionWhitelists s)) s);;
      saveState
  | None => mret tt
  end.

(** [isBulkApprovalAllowed(toolName)] *)
Definition isBulkApprovalAllowed (c : Config) (toolName : option string) : bool :=
  match toolName with
  | Some t => bool_decide (t ∈ bulkApprovalTools c)
  | None => false
  end.

(** The callback of the permission timeout armed in [handlePermissionRequest]. *)
Definition permissionTimeoutFired (t : Timer) : M unit :=
  d ← get;
  match waitingSockets d !! JNum (tm_messageId t) with
  | Some waiting =>
      modify (λ d, with_waitingSockets (delete (JNum (tm_messageId t)) (waitingSockets d)) d);;
      untrackMessage (tm_socket t) (tm_messageId t);;
      modifyState (removeFromDualIndex (JNum (tm_messageId t)) (Some (tm_session_id t)));;
      (if chatIdSet (state d)
       then swallow (deleteMessage (chatId (state d)) (JNum (tm_messageId t)))
       else mret tt);;
      saveState;;
      d ← get;
      if negb (socketDestroyed (w_socket waiting) d) then
        respond (w_socket waiting)
          (responseMsg (tm_request_id t) st_timeout_retry "No response within timeout")
      else mret tt
  | None => mret tt
  end.

(** The callback of the stop timeout armed in [handleStopRequest]. *)
Definition stopTimeoutFired (t : Timer) : M unit :=
  d ← get;
  match waitingSockets d !! JNum (tm_messageId t) with
  | Some waiting =>
      modify (λ d, with_waitingSockets (delete (JNum (tm_messageId t)) (waitingSockets d)) d);;
      untrackMessage (tm_socket t) (tm_messageId t);;
      (if chatIdSet (state d)
       then swallow (deleteMessage (chatId (state d)) (JNum (tm_messageId t)))
       else mret tt);;
      respond (tm_socket t) (response (tm_request_id t) st_stop)
  | None => mret tt
  end.

(** A timer goes off: it fires once, and only if it was not cleared. *)
Definition timerFired (handle : nat) : M unit :=
  d ← get;
  match timers d !! handle with
  | Some t =>
      modify (λ d, with_timers (delete handle (timers d)) d);;
      match tm_type t with
      | RtPermission => permissionTimeoutFired t
      | RtStop => stopTimeoutFired t
      end
  | None => mret tt
  end.

(** The closure of the timeout callback of a request. *)
Definition requestTimer (type : RequestType) (message_id : Z) (msg : HookMsg)
    (socket : Socket) : Timer :=
  {| tm_type := type; tm_messageId := message_id; tm_socket := socket;
     tm_session_id := session_id msg; tm_request_id := msg_request_id msg |}.

(** The object that [handlePermissionRequest] stores in [pendingRequests]. *)
Definition permissionEntry (env : Env) (msg : HookMsg) (retryCount : Z) : PendingRequest :=
  {| pr_sessionId := Some (session_id msg);
     pr_tool := Some (tool_name msg);
     pr_command := message msg;
     pr_tool_use_id := getLastToolUse env (transcript_path msg) ≫= Transcript.tu_id;
     pr_requestType := Some RtPermission;
     pr_transcriptPath := Some (transcript_path msg);
     pr_projectDir := cwd msg;
     pr_terminalId := terminal_id msg;
     pr_lastCheckedOffset := Some 0%nat;
     pr_firstRequestAt := Some (now_ms env);
     pr_requestId := Some (msg_request_id msg);
     pr_retryCount := Some retryCount;
     pr_socketAlive := Some true;
     pr_messageId := None |}.

(** The data that [handlePermissionRequest] parks in [waitingSockets]. *)
Definition permissionWaiting (msg : HookMsg) (socket : Socket) (allowBulkApproval : bool)
    (timeout : nat) : Waiting :=
  {| w_socket := socket; w_requestId := msg_request_id msg;
     w_sessionId := session_id msg; w_type := RtPermission;
     w_toolName := Some (tool_name msg);
     w_allowBulkApproval := allowBulkApproval;
     w_timeout := Some timeout |}.

(** The object that [handleStopRequest] stores in [pendingRequests]. *)
Definition stopEntry (env : Env) (msg : HookMsg) : PendingRequest :=
  {| pr_sessionId := Some (session_id msg);
     pr_tool := None;
     pr_command := None;
     pr_tool_use_id := None;
     pr_requestType := Some RtStop;
     pr_transcriptPath := Some (transcript_path msg);
     pr_projectDir := cwd msg;
     pr_terminalId := terminal_id msg;
     pr_lastCheckedOffset :=
       Some (Transcript.getLineCount (readTranscript env (Some (transcript_path msg))));
     pr_firstRequestAt := Some (now_ms env);
     pr_requestId := Some (msg_request_id msg);
     pr_retryCount := None;
     pr_socketAlive := Some true;
     pr_messageId := None |}.

(** The data that [handleStopRequest] parks in [waitingSockets]. *)
Definition stopWaiting (msg : HookMsg) (socket : Socket) (timeout : nat) : Waiting :=
  {| w_socket := socket; w_requestId := msg_request_id msg;
     w_sessionId := session_id msg; w_type := RtStop;
     w_toolName := None; w_allowBulkApproval := false;
     w_timeout := Some timeout |}.

(** The context line of a permission prompt: the last assistant text, or else
    the last user text behind [User: ]; [None] when both are missing or empty. *)
Definition permissionContext (env : Env) (path : string) : option string :=
  let userFallback :=
    match getLastUserMessage env path 300 with
    | Some u => if JsString.truthy u then Some ("User: " +:+ u) else None
    | None => None
    end in
  match getLastClaudeMessage env path 500 with
  | Some c => if JsString.truthy c then Some c else userFallback
  | None => userFallback
  end.

(** [handlePermissionRequest(msg, respond, socket)] *)
Definition handlePermissionRequest (env : Env) (msg : HookMsg) (socket : Socket) : M unit :=
  d ← get;
  if negb (alwaysEnabled (config d))
     && negb (Sessions.isAfkEnabled (session_id msg) (registry d)) then
    respond socket (response (msg_request_id msg) st_not_enabled)
  else if negb (tokenConfigured d) then
    respond socket (responseMsg (msg_request_id msg) st_not_configured
                      "Telegram bot not configured. Run /claude-afk:setup")
  else if negb (chatIdSet (state d)) then
    respond socket (responseMsg (msg_request_id msg) st_not_configured
                      "No chat ID configured. Send /start to your Telegram bot")
  else if isToolWhitelisted (state d) (session_id msg) (tool_name msg) then
    respond socket
      {| request_id := msg_request_id msg; status := st_approved; r_message := None;
         bulk_approved := Some true; instructions := None; resolution := None |}
  else
    let existing :=
      findExistingPendingRequest (state d) (session_id msg) (tool_name msg) (message msg) in
    (* the retry scenario: [carried] is [None] when the request has been answered
       with [timeout_final], otherwise the retry count for the new entry *)
    carried ←
      match existing with
      | Some (messageId, request) =>
          let retryCount := default 0 (pr_retryCount request) + 1 in
          modifyState (λ s, set_pendingRequests
                              (alter (set_retryCount retryCount) messageId (pendingRequests s)) s);;
          if isMaxRetriesExceeded retryCount (maxRetries (config d)) then
            modifyState (removeFromDualIndex (JStr messageId) (Some (session_id msg)));;
            (if chatIdSet (state d) && JsString.truthy messageId
             then swallow (deleteMessage (chatId (state d)) (JStr messageId))
             else mret tt);;
            saveState;;
            respond socket (responseMsg (msg_request_id msg) st_timeout_final
                              "User unavailable after multiple retries.");;
            mret None
          else mret (Some retryCount)
      | None => mret (Some 0)
      end;
    match carried with
    | None => mret tt
    | Some retryCount =>
        let claudeContext := permissionContext env (transcript_path msg) in
        let toolUse := getLastToolUse env (transcript_path msg) in
        let actualCommand :=
          match toolUse with
          | Some tu => Transcript.tu_formatted tu
          | None => orElse (message msg) "(unknown)"
          end in
        let projectSlug :=
          orElse (Some (basename env (orElse (cwd msg) "."))) "project" in
        d ← get;
        let '(token, registry') :=
          Sessions.register (randomBytes2 env) (now_ms env) (session_id msg) projectSlug
                            (registry d) in
        modify (with_registry registry');;
        let allowBulkApproval := isBulkApprovalAllowed (config d) (Some (tool_name msg)) in
        tryCatch
          (let notificationText :=
             formatPermissionNotification token claudeContext (tool_name msg) actualCommand
                                          projectSlug allowBulkApproval in
           message_id ← sendMessage env (chatId (state d)) notificationText;
           let msgIdStr := JsString.ofNumber message_id in
           modifyState (insertIntoDualIndex msgIdStr (session_id msg)
                          (permissionEntry env msg retryCount));;
           permissionTimeout ← setTimeout (requestTimer RtPermission message_id msg socket);
           trackWaitingSocket message_id
             (permissionWaiting msg socket allowBulkApproval permissionTimeout);;
           saveState)
          (λ err,
             respond socket (responseMsg (msg_request_id msg) st_error
                               ("Failed to send notification: " +:+ errMessage err)))
    end.

(** [handleStopRequest(msg, respond, socket)] *)
Definition handleStopRequest (env : Env) (msg : HookMsg) (socket : Socket) : M unit :=
  d ← get;
  if negb (alwaysEnabled (config d))
     && negb (Sessions.isAfkEnabled (session_id msg) (registry d)) then
    respond socket (response (msg_request_id msg) st_not_enabled)
  else if negb (tokenConfigured d) || negb (chatIdSet (state d)) then
    respond socket (response (msg_request_id msg) st_not_configured)
  else
    let claudeContext := getLastClaudeMessage env (transcript_path msg) 500 in
    let projectSlug :=
      orElse (Some (basename env (orElse (cwd msg) "."))) "project" in
    let '(token, registry') :=
      Sessions.register (randomBytes2 env) (now_ms env) (session_id msg) projectSlug
                        (registry d) in
    modify (with_registry registry');;
    tryCatch
      (let notificationText := formatStopNotification token claudeContext projectSlug in
       message_id ← sendMessage env (chatId (state d)) notificationText;
       let msgIdStr := JsString.ofNumber message_id in
       modifyState (insertIntoDualIndex msgIdStr (session_id msg) (stopEntry env msg));;
       saveState;;
       stopTimeout ← setTimeout (requestTimer RtStop message_id msg socket);
       trackWaitingSocket message_id (stopWaiting msg socket stopTimeout))
      (λ err,
         respond socket (responseMsg (msg_request_id msg) st_error
                           ("Failed to send notification: " +:+ errMessage err))).

(** [handleEnableAfk(msg, respond)] *)
Definition handleEnableAfk (msg : HookMsg) (socket : Socket) : M unit :=
  modify (λ d, with_registry (Sessions.enableAfk (session_id msg) (registry d)) d);;
  d ← get;
  modifyState (set_afkSessions (Sessions.getAfkEnabledSessions (registry d)));;
  saveState;;
  respond socket (response (msg_request_id msg) st_enabled).

(** [handleDisableAfk(msg, respond)] *)
Definition handleDisableAfk (msg : HookMsg) (socket : Socket) : M unit :=
  modify (λ d, with_registry (Sessions.disableAfk (session_id msg) (registry d)) d);;
  clearWhitelist (session_id msg);;
  d ← get;
  modifyState (set_afkSessions (Sessions.getAfkEnabledSessions (registry d)));;
  saveState;;
  respond socket (response (msg_request_id msg) st_disabled).

(** [handleStatus(msg, respond)] *)
Definition handleStatus (msg : HookMsg) (socket : Socket) : M unit :=
  d ← get;
  emit (Respond socket (FStatus
    {| sr_request_id := msg_request_id msg;
       telegram_configured := tokenConfigured d;
       chat_id_configured := chatIdSet (state d);
       afk_sessions := Sessions.getAfkEnabledSessions (registry d);
       pending_requests := Sessions.getPendingCount (registry d);
       always_enabled := alwaysEnabled (config d);
       bulk_approval_tools := bulkApprovalTools (config d);
       session_whitelists := sessionWhitelists (state d) |})).

(** [handleRequest(msg, respond, socket)]; the two request handlers are async
    functions whose promise is dropped. *)
Definition handleRequest (env : Env) (msg : HookMsg) (socket : Socket) : M unit :=
  if bool_decide (msg_type msg = "permission_request") then
    detach (handlePermissionRequest env msg socket)
  else if bool_decide (msg_type msg = "stop_request") then
    detach (handleStopRequest env msg socket)
  else if bool_decide (msg_type msg = "enable_afk") then handleEnableAfk msg socket
  else if bool_decide (msg_type msg = "disable_afk") then handleDisableAfk msg socket
  else if bool_decide (msg_type msg = "status") then handleStatus msg socket
  else
    respond socket (responseMsg (msg_request_id msg) st_error
                      ("Unknown request type: " +:+ msg_type msg)).

(** [handleSocketDisconnect(socket)] *)
Definition handleSocketDisconnect (socket : Socket) : M unit :=
  d ← get;
  match socketToMessageIds d !! socket with
  | None => mret tt
  | Some [] => mret tt
  | Some messageIds =>
      forEach messageIds (λ messageId,
        d ← get;
        match waitingSockets d !! JNum messageId with
        | Some waiting =>
            clearTimeout (w_timeout waiting);;
            modify (λ d, with_registry
                           (Sessions.removePendingByMessageId (JNum messageId) (registry d)) d);;
            modify (λ d, with_waitingSockets (delete (JNum messageId) (waitingSockets d)) d);;
            if chatIdSet (state d)
            then swallow (deleteMessage (chatId (state d)) (JNum messageId))
            else mret tt
        | None => mret tt
        end);;
      modify (λ d, with_socketToMessageIds (delete socket (socketToMessageIds d)) d);;
      d ← get;
      modifyState (set_pendingRequests
                     (pendingOfExported <$> Sessions.exportPendingRequests (registry d)));;
      saveState
  end.

(** ** The daemon: replies from the chat *)

Definition msgAlreadyHandled : string := "✅ Already handled locally".
Definition msgUnableToDeliver : string :=
  "⚠️ Unable to deliver response - session may have ended. Please respond in Claude Code if still needed.".
Definition msgReplyYesNoAll : string := "Reply 'yes', 'no', or 'all'".
Definition msgReplyYesNo : string := "Reply 'yes' or 'no'".
Definition msgPaired : string :=
  "✅ Claude AFK is now paired with this chat!" +:+ nl +:+ nl +:+
  "You'll receive permission requests here when AFK mode is enabled.".
Definition msgRecorded : string :=
  "✅ Response recorded, but the session is no longer active. " +:+
  "If you resumed the session, you may need to re-run the command.".
Definition msgReplyDirectly : string := "Please reply directly to a notification message.".
Definition msgExpired : string := "This request has expired or already been handled.".
Definition msgConflict : string :=
  "⚠️ Claude AFK detected another bot instance polling." +:+ nl +:+ nl +:+
  "This daemon is shutting down. The other instance will handle notifications." +:+ nl +:+ nl +:+
  "If this was unexpected, check for daemons running on other machines.".
Definition msgSessionEnded : string := "⚠️ Session ended - pending requests expired".
Definition msgAllApproved (toolName : string) : string :=
  "✓ All " +:+ toolName +:+ " requests will be auto-approved for this session.".

(** Reading a property of [undefined] *)
Definition readOfUndefined (property : string) : JsError :=
  TypeError ("Cannot read properties of undefined (reading '" +:+ property +:+ "')").

(** [parsePermissionResponse(text, allow)] on a text that may be [undefined] *)
Definition parseReply (text : option string) (allow : bool) : M (option Decision) :=
  match text with
  | Some t => mret (parsePermissionResponse t allow)
  | None => throw (readOfUndefined "trim")
  end.

(** [checkTranscriptForResolution(request)] *)
Definition checkTranscriptForResolution (env : Env) (request : PendingRequest) : bool :=
  match pr_requestType request with
  | Some RtPermission =>
      match Transcript.findToolResult (readTranscript env (pr_transcriptPath request))
                                      (pr_tool_use_id request) 0 with
      | Some r => Transcript.tr_found r
      | None => false
      end
  | Some RtStop =>
      match Transcript.findUserMessage (readTranscript env (pr_transcriptPath request))
                                       (default 0%nat (pr_lastCheckedOffset request)) with
      | Some r => Transcript.um_found r
      | None => false
      end
  | None => false
  end.

(** The [catch] block shared by both branches of [handleResponse]: the reply
    could not be written to the hook. *)
Definition undeliverable (env : Env) (pending : PendingRequest) : M unit :=
  d ← get;
  if checkTranscriptForResolution env pending
  then swallow (sendMessage env (chatId (state d)) msgAlreadyHandled)
  else swallow (sendMessage env (chatId (state d)) msgUnableToDeliver).

(** The text carried as [instructions] by a [continue] reply. *)
Definition truncateInstructions (text : string) : string :=
  if (2000 <? String.length text)%nat then
    JsString.substring0 1997 text +:+ "... (truncated, original was "
      +:+ JsString.ofNumber (Z.of_nat (String.length text)) +:+ " chars)"
  else text.

(** [handleResponse(messageId, waiting, text)] *)
Definition handleResponse (env : Env) (messageId : Z) (waiting : Waiting)
    (text : option string) : M unit :=
  d ← get;
  match checkRequestExists (state d) (JNum messageId) with
  | None =>
      swallow (sendMessage env (chatId (state d)) msgAlreadyHandled);;
      swallow (deleteMessage (chatId (state d)) (JNum messageId))
  | Some pending =>
      clearTimeout (w_timeout waiting);;
      modify (λ d, with_waitingSockets (delete (JNum messageId) (waitingSockets d)) d);;
      untrackMessage (w_socket waiting) messageId;;
      match w_type waiting with
      | RtPermission =>
          decision ← parseReply text (w_allowBulkApproval waiting);
          match decision with
          | None =>
              let validResponses :=
                if w_allowBulkApproval waiting then msgReplyYesNoAll else msgReplyYesNo in
              detach (sendMessage env (chatId (state d)) validResponses);;
              modify (λ d, with_waitingSockets
                             (<[JNum messageId := waiting]> (waitingSockets d)) d)
          | Some decision =>
              (match decision, w_toolName waiting with
               | approved_all, Some toolName =>
                   if JsString.truthy toolName && JsString.truthy (w_sessionId waiting) then
                     addToWhitelist (w_sessionId waiting) toolName;;
                     swallow (sendMessage env (chatId (state d)) (msgAllApproved toolName))
                   else mret tt
               | _, _ => mret tt
               end);;
              modifyState (removeFromDualIndex (JNum messageId) (Some (w_sessionId waiting)));;
              saveState;;
              d ← get;
              if socketDestroyed (w_socket waiting) d then undeliverable env pending
              else
                respond (w_socket waiting)
                  {| request_id := w_requestId waiting;
                     status := match decision with denied => st_denied | _ => st_approved end;
                     r_message := match decision with
                                  | denied => Some "User denied"
                                  | _ => None
                                  end;
                     bulk_approved := Some (bool_decide (decision = approved_all));
                     instructions := None;
                     resolution := None |}
          end
      | RtStop =>
          modifyState (removeFromDualIndex (JNum messageId) (Some (w_sessionId waiting)));;
          saveState;;
          match text with
          | None => throw (readOfUndefined "length")
          | Some text =>
              let instructions := truncateInstructions text in
              d ← get;
              if socketDestroyed (w_socket waiting) d then undeliverable env pending
              else
                respond (w_socket waiting)
                  {| request_id := w_requestId waiting;
                     status := st_continue;
                     r_message := None;
                     bulk_approved := None;
                     instructions := Some instructions;
                     resolution := None |}
          end
      end
  end.

Definition truthyNumOpt (n : option Z) : bool :=
  match n with
  | Some n => Telegram.truthyNum n
  | None => false
  end.

(** [chatId === state.chatId]: two equal numbers ([undefined] is not [null]). *)
Definition sameChat (chat stored : option Z) : bool :=
  match chat, stored with
  | Some a, Some b => bool_decide (a = b)
  | _, _ => false
  end.

(** [processUpdate(update)]; the call of [handleResponse] is not awaited. *)
Definition processUpdate (env : Env) (update : Telegram.Update) : M unit :=
  match Telegram.message update with
  | None => mret tt
  | Some msg =>
      let chat := Telegram.chat_id msg in
      let text := JsString.trim <$> Telegram.text msg in
      d ← get;
      if bool_decide (text = Some "/start") && truthyNumOpt chat then
        modifyState (set_chatId chat);;
        saveState;;
        sendMessage env chat msgPaired;;
        mret tt
      else if negb (sameChat chat (chatId (state d))) then mret tt
      else if negb (truthyNumOpt (Telegram.reply_to_message_id msg)) then
        let pendingRequestCount := size (pendingRequests (state d)) in
        if allowSinglePendingFallback (config d) && bool_decide (pendingRequestCount = 1%nat) then
          match map_to_list (pendingRequests (state d)) with
          | (messageId, pending) :: _ =>
              match JsString.toNumber messageId
                    ≫= λ n, (λ w, (n, w)) <$> waitingSockets d !! JNum n with
              | Some (n, waiting) => detach (handleResponse env n waiting text)
              | None =>
                  decision ← parseReply text (isBulkApprovalAllowed (config d) (pr_tool pending));
                  match decision with
                  | Some _ =>
                      modifyState (removeFromDualIndex (JStr messageId) (pr_sessionId pending));;
                      saveState;;
                      swallow (deleteMessage chat (JStr messageId));;
                      sendMessage env chat msgRecorded;;
                      mret tt
                  | None =>
                      sendMessage env chat msgReplyYesNo;;
                      mret tt
                  end
              end
          | [] => mret tt
          end
        else if (0 <? pendingRequestCount)%nat then
          sendMessage env chat msgReplyDirectly;;
          mret tt
        else mret tt
      else
        match Telegram.reply_to_message_id msg ≫= λ n, waitingSockets d !! JNum n with
        | None =>
            sendMessage env chat msgExpired;;
            mret tt
        | Some waiting =>
            detach (handleResponse env (default 0 (Telegram.reply_to_message_id msg))
                                   waiting text)
        end
  end.

(** [await shutdown()]: no binding of the name [shutdown] exists in index.js
    (the function that stops the daemon is [stop]), in the modules it requires
    or among the globals of Node, so evaluating the call throws. *)
Definition shutdown : M unit := throw (ReferenceError "shutdown").

(** [processTelegramUpdates()] *)
Definition processTelegramUpdates (env : Env) : M unit :=
  d ← get;
  if negb (tokenConfigured d) then mret tt
  else if isPolling d then mret tt
  else
    modify (with_isPolling true);;
    tryFinally
      (tryCatch
         (updates ← getUpdates env (telegramOffset d);
          modify (with_consecutiveConflictErrors 0);;
          forEach updates (λ update,
            modify (with_telegramOffset (Telegram.update_id update + 1));;
            processUpdate env update))
         (λ err,
            if JsString.truthy (errMessage err)
               && JsString.includes (errMessage err) "Conflict" then
              modify (λ d, with_consecutiveConflictErrors (consecutiveConflictErrors d + 1) d);;
              d ← get;
              if bool_decide (consecutiveConflictErrors d >= 3) then
                (if chatIdSet (state d)
                 then swallow (sendMessage env (chatId (state d)) msgConflict)
                 else mret tt);;
                shutdown;;
                exitProcess 0
              else mret tt
            else mret tt))
      (modify (with_isPolling false)).

(** ** The daemon: the resolution watcher *)

(** [handleLocalResolution(messageId, request, resolution)]; [messageId] is an
    element of a [requestsBySession] array, that is, a string. *)
Definition handleLocalResolution (messageId : string) (request : PendingRequest)
    (res : Resolution) : M unit :=
  tryCatch
    (d ← get;
     (match waitingSockets d !! JStr messageId with
      | Some waiting =>
          if negb (socketDestroyed (w_socket waiting) d) then
            respond (w_socket waiting)
              {| request_id := w_requestId waiting; status := st_resolved_locally;
                 r_message := None; bulk_approved := None; instructions := None;
                 resolution := Some res |}
          else mret tt
      | None => mret tt
      end);;
     swallow (deleteMessage (chatId (state d)) (JStr messageId));;
     modifyState (removeFromDualIndex (JStr messageId) (pr_sessionId request));;
     modify (λ d, with_waitingSockets (delete (JStr messageId) (waitingSockets d)) d);;
     saveState)
    (λ _, mret tt).

(** The scan of the sub-agent transcripts in [checkPermissionResolution]:
    the verdict found in the first recently modified file that has one. *)
Fixpoint scanSubagents (env : Env) (toolUseId : option string) (files : list string)
  : option bool :=
  match files with
  | [] => None
  | file :: files' =>
      let recent :=
        match getFileMtime env file with
        | Some mtime => Telegram.truthyNum mtime && bool_decide (mtime > now_ms env - 10000)
        | None => false
        end in
      if recent then
        match Transcript.findToolResult (readTranscript env (Some file)) toolUseId 0 with
        | Some r => if Transcript.tr_found r then Some (Transcript.tr_isError r)
                    else scanSubagents env toolUseId files'
        | None => scanSubagents env toolUseId files'
        end
      else scanSubagents env toolUseId files'
  end.

Definition verdict (isError : bool) : Resolution :=
  if isError then res_denied else res_approved.

(** [request.lastCheckedOffset = offset]: [request] is the object stored under
    [messageId], if it is still stored. *)
Definition advanceOffset (messageId : string) (offset : nat) : M unit :=
  modifyState (λ s, set_pendingRequests
                      (alter (set_lastCheckedOffset offset) messageId (pendingRequests s)) s).

(** [checkPermissionResolution(messageId, request)] *)
Definition checkPermissionResolution (env : Env) (messageId : string)
    (request : PendingRequest) : M unit :=
  tryCatch
    (let result :=
       Transcript.findToolResult (readTranscript env (pr_transcriptPath request))
                                 (pr_tool_use_id request)
                                 (default 0%nat (pr_lastCheckedOffset request)) in
     let found := match result with Some r => Transcript.tr_found r | None => false end in
     if found then
       handleLocalResolution messageId request
         (verdict (match result with Some r => Transcript.tr_isError r | None => false end))
     else
       match (if truthyStr (pr_projectDir request)
              then scanSubagents env (pr_tool_use_id request)
                     (findSubagentTranscripts env (pr_transcriptPath request))
              else None) with
       | Some isError => handleLocalResolution messageId request (verdict isError)
       | None =>
           match result with
           | Some r => advanceOffset messageId (Transcript.tr_offset r)
           | None => mret tt
           end
       end)
    (λ _, mret tt).

(** [checkStopResolution(messageId, request)] *)
Definition checkStopResolution (env : Env) (messageId : string)
    (request : PendingRequest) : M unit :=
  tryCatch
    (let result :=
       Transcript.findUserMessage (readTranscript env (pr_transcriptPath request))
                                  (default 0%nat (pr_lastCheckedOffset request)) in
     match result with
     | Some r =>
         (if Transcript.um_found r
          then handleLocalResolution messageId request res_local_followup
          else mret tt);;
         advanceOffset messageId (Transcript.um_offset r)
     | None => mret tt
     end)
    (λ _, mret tt).

(** [handleSessionExpired(sessionId, messageIds)] *)
Definition handleSessionExpired (env : Env) (sessionId : string) (messageIds : list string)
  : M unit :=
  tryCatch
    (d ← get;
     swallow (sendMessage env (chatId (state d)) msgSessionEnded);;
     forEach messageIds (λ messageId,
       swallow (deleteMessage (chatId (state d)) (JStr messageId));;
       modifyState (λ s, set_pendingRequests (delete messageId (pendingRequests s)) s);;
       modify (λ d, with_waitingSockets (delete (JStr messageId) (waitingSockets d)) d));;
     modifyState (λ s, set_requestsBySession (delete sessionId (requestsBySession s)) s);;
     saveState)
    (λ _, mret tt).

(** [checkSessionValidity(sessionId, messageIds)] *)
Definition checkSessionValidity (env : Env) (sessionId : string) (messageIds : list string)
  : M unit :=
  tryCatch
    (d ← get;
     match head messageIds ≫= λ m, pendingRequests (state d) !! m with
     | Some firstRequest =>
         match pr_terminalId firstRequest with
         | Some terminalId =>
             if JsString.truthy terminalId then
               match readSessionFile env terminalId with
               | Some sessionIdInFile =>
                   if bool_decide (sessionIdInFile = Some sessionId) then mret tt
                   else handleSessionExpired env sessionId messageIds
               | None => handleSessionExpired env sessionId messageIds
               end
             else mret tt
         | None => mret tt
         end
     | None => mret tt
     end)
    (λ _, mret tt).

(** The body of the inner loop of [pollTranscripts] for one message id. *)
Definition pollRequest (env : Env) (messageId : string) : M unit :=
  d ← get;
  match pendingRequests (state d) !! messageId with
  | None => mret tt
  | Some request =>
      let socketDead :=
        match waitingSockets d !! JStr messageId with
        | Some waiting => socketDestroyed (w_socket waiting) d
        | None => false
        end in
      if socketDead then handleLocalResolution messageId request res_socket_closed
      else
        match pr_requestType request with
        | Some RtPermission => checkPermissionResolution env messageId request
        | Some RtStop => checkStopResolution env messageId request
        | None => mret tt
        end
  end.

(** The array that [messageIds] refers to during [pollTranscripts]: the one
    stored under [sessionId].  A resolution splices it while the loop runs;
    once its last element is gone the key is deleted and the array is empty. *)
Definition liveMessageIds (sessionId : string) (d : Daemon) : list string :=
  default [] (requestsBySession (state d) !! sessionId).

(** [for (const messageId of messageIds)] from index [i] on: the iterator
    reads the array anew at every step.  The array never grows during the
    loop, so [fuel] = its initial length is enough ([pollRequests_fuel]). *)
Fixpoint pollRequests (env : Env) (sessionId : string) (fuel i : nat) : M unit :=
  match fuel with
  | O => mret tt
  | S fuel' =>
      d ← get;
      match liveMessageIds sessionId d !! i with
      | Some messageId =>
          pollRequest env messageId;;
          pollRequests env sessionId fuel' (S i)
      | None => mret tt
      end
  end.

(** The body of the outer loop of [pollTranscripts] for one session. *)
Definition pollSession (env : Env) (sessionId : string) : M unit :=
  d ← get;
  pollRequests env sessionId (List.length (liveMessageIds sessionId d)) 0;;
  d ← get;
  match head (liveMessageIds sessionId d) ≫= λ m, pendingRequests (state d) !! m with
  | Some _ => checkSessionValidity env sessionId (liveMessageIds sessionId d)
  | None => mret tt
  end.

(** [pollTranscripts()]; the sessions are those present when the tick starts.
    They are taken in the order of [map_to_list], which need not be the
    order of [Object.entries]; nothing below depends on that order. *)
Definition pollTranscripts (env : Env) : M unit :=
  d ← get;
  if isPollingTranscripts d then mret tt
  else
    modify (with_isPollingTranscripts true);;
    tryFinally
      (tryCatch
         (forEach (map_to_list (requestsBySession (state d))).*1 (pollSession env))
         (λ _, mret tt))
      (modify (with_isPollingTranscripts false)).

(** ** The daemon: start, stop and the event loop *)

Definition msgRestarted (request : PendingRequest) : string :=
  "⚠️ Daemon restarted. Previous request expired:" +:+ nl +:+
  propKey (pr_tool request) +:+ ": " +:+ orElse (pr_command request) "(no command)" +:+ nl +:+
  "Please re-run the command if still needed.".

(** [createDaemon()] up to its [return]: the closure with the configuration
    and the state that were loaded. *)
Definition createDaemon (cfg : Config) (hasToken : bool) (loaded : State) : Daemon :=
  {| config := cfg; tokenConfigured := hasToken; state := loaded;
     registry := Sessions.empty; waitingSockets := ∅; socketToMessageIds := ∅;
     timers := ∅; nextTimer := 0%nat; telegramOffset := 0;
     consecutiveConflictErrors := 0; isPolling := false; isPollingTranscripts := false;
     running := false; destroyedSockets := ∅; effects := []; proc := Running |}.

(** [start()]; [lockAcquired] is [lock.acquired]. *)
Definition start (env : Env) (lockAcquired : bool) : M unit :=
  if negb lockAcquired then exitProcess 1
  else
    modify (λ d, with_registry (Sessions.importState (afkSessions (state d)) (registry d)) d);;
    d ← get;
    let hasPendingRequests := (0 <? size (pendingRequests (state d)))%nat in
    let hasStaleSessionIndex := (0 <? size (requestsBySession (state d)))%nat in
    (if hasPendingRequests || hasStaleSessionIndex then
       (if hasPendingRequests && tokenConfigured d && chatIdSet (state d) then
          forEach (map_to_list (pendingRequests (state d))) (λ entry,
            sendMessage env (chatId (state d)) (msgRestarted entry.2);; mret tt)
        else mret tt);;
       modifyState (λ s, set_requestsBySession ∅ (set_pendingRequests ∅ s));;
       saveState
     else mret tt);;
    modify (with_running true).

(** [stop()] *)
Definition stop : M unit :=
  d ← get;
  if negb (running d) then mret tt
  else
    modify (with_running false);;
    exitProcess 0.

(** What the event loop delivers to the daemon. *)
Inductive Event :=
  | HookFrame (socket : Socket) (msg : HookMsg)  (* a frame arrives on a connection *)
  | SocketClosed (socket : Socket)     (* the socket is destroyed and its close event is delivered *)
  | SocketDestroyed (socket : Socket)  (* the socket is destroyed; no event is delivered *)
  | TimerFired (handle : nat)
  | TelegramTick                       (* the update-polling interval *)
  | TranscriptTick                     (* the transcript-polling interval *)
  | Signal.                            (* SIGINT or SIGTERM *)

Definition handler (env : Env) (ev : Event) : M unit :=
  match ev with
  | HookFrame socket msg => handleRequest env msg socket
  | SocketClosed socket =>
      modify (λ d, with_destroyedSockets ({[socket]} ∪ destroyedSockets d) d);;
      handleSocketDisconnect socket
  | SocketDestroyed socket =>
      modify (λ d, with_destroyedSockets ({[socket]} ∪ destroyedSockets d) d)
  | TimerFired handle => timerFired handle
  | TelegramTick => processTelegramUpdates env
  | TranscriptTick => pollTranscripts env
  | Signal => stop
  end.

(** Running a callback of the event loop: nothing happens once the process
    has ended, and an error that escapes the callback brings it down. *)
Definition dispatch (m : M unit) (d : Daemon) : Daemon :=
  match proc d with
  | Running =>
      match m d with
      | (Throw e, d') => crash e d'
      | (_, d') => d'
      end
  | _ => d
  end.

Definition step (env : Env) (ev : Event) (d : Daemon) : Daemon :=
  dispatch (handler env ev) d.

(** The main program: [createDaemon().then(daemon => daemon.start())], a
    failure of which ends the process with status 1. *)
Definition main (env : Env) (cfg : Config) (hasToken : bool) (loaded : State)
    (lockAcquired : bool) : Daemon :=
  dispatch (tryCatch (start env lockAcquired) (λ _, exitProcess 1))
           (createDaemon cfg hasToken loaded).

(** A run: every event comes with what the outside world answers during it. *)
Fixpoint run (evs : list (Env * Event)) (d : Daemon) : Daemon :=
  match evs with
  | [] => d
  | (env, ev) :: evs' => run evs' (step env ev d)
  end.

(** The states the daemon can be in once it has started: [start] returned
    without ending the process. *)
Inductive reachable : Daemon → Prop :=
  | reachable_started env cfg hasToken loaded :
      proc (main env cfg hasToken loaded true) = Running →
      reachable (main env cfg hasToken loaded true)
  | reachable_step env ev d :
      reachable d → reachable (step env ev d).

(** ** Notions used to state the properties *)







(** A call of a method of the session registry. *)
Inductive RegistryCall :=
  | CallRegister (rand : byte * byte) (now : Z) (sessionId projectName : string)
  | CallUnregister (sessionId : string)
  | CallEnableAfk (sessionId : string)
  | CallDisableAfk (sessionId : string)
  | CallAddPendingRequest (sessionId : string) (messageId : jsval)
      (tool command requestId : string) (retryCount firstRequestAt : Z)
  | CallRemovePendingByMessageId (messageId : jsval)
  | CallImportState (afkSessions : list string).

Definition call (c : RegistryCall) (r : Sessions.Registry) : Sessions.Registry :=
  match c with
  | CallRegister rand now sessionId projectName =>
      (Sessions.register rand now sessionId projectName r).2
  | CallUnregister sessionId => Sessions.unregister sessionId r
  | CallEnableAfk sessionId => Sessions.enableAfk sessionId r
  | CallDisableAfk sessionId => Sessions.disableAfk sessionId r
  | CallAddPendingRequest sessionId messageId tool command requestId retryCount firstRequestAt =>
      Sessions.addPendingRequest sessionId messageId tool command requestId retryCount
                                 firstRequestAt r
  | CallRemovePendingByMessageId messageId => Sessions.removePendingByMessageId messageId r
  | CallImportState afkSessions => Sessions.importState afkSessions r
  end.

Definition calls (cs : list RegistryCall) (r : Sessions.Registry) : Sessions.Registry :=
  foldl (λ r c, call c r) r cs.


(** [m] keeps the property [I] of the persisted state, however it ends. *)
Definition preserves (I : State → Prop) {A} (m : M A) : Prop :=
  ∀ d, I (state d) → I (state (m d).2).

(** A property of the persisted state that every mutation performed by the
    handlers keeps, pairing and the insertion of a new request apart. *)
Record StateInvariant (I : State → Prop) : Prop := {
  inv_afkSessions a s : I s → I (set_afkSessions a s);
  inv_pendingRequests p s : I s → I (set_pendingRequests p s);
  inv_sessionWhitelists w s : I s → I (set_sessionWhitelists w s);
  inv_remove m sid s : I s → I (removeFromDualIndex m sid s);
  inv_expire sid s : I s → I (set_requestsBySession (delete sid (requestsBySession s)) s);
  inv_clear s : I s → I (set_requestsBySession ∅ (set_pendingRequests ∅ s))
}.

(** The insertion of a new request keeps [I]. *)
Definition keptByInsert (I : State → Prop) : Prop :=
  ∀ m sid p s, I s → I (insertIntoDualIndex m sid p s).

(** An update that pairs the daemon with a chat: the trimmed text is
    [/start] and the chat id is a non-zero number. *)
Definition isPairing (u : Telegram.Update) : bool :=
  match Telegram.message u with
  | Some msg =>
      bool_decide (JsString.trim <$> Telegram.text msg = Some "/start")
      && truthyNumOpt (Telegram.chat_id msg)
  | None => false
  end.

(** The chat service hands out no pairing update. *)
Definition pairingFree (env : Env) : Prop :=
  ∀ offset updates u,
    updatesResult env offset = Telegram.ApiOk updates → u ∈ updates → isPairing u = false.

(** No session id is mapped to an empty sequence. *)
Definition requestsNonEmpty (s : State) : Prop :=
  ∀ sessionId arr, requestsBySession s !! sessionId = Some arr → arr ≠ [].

(** Dual-index consistency: every pending request is listed under its
    session, and every listed message id is a pending request of that
    session. *)
Definition dualIndexConsistent (s : State) : Prop :=
  (∀ m p, pendingRequests s !! m = Some p →
          ∃ arr, requestsBySession s !! propKey (pr_sessionId p) = Some arr ∧ m ∈ arr) ∧
  (∀ sessionId arr m, requestsBySession s !! sessionId = Some arr → m ∈ arr →
          ∃ p, pendingRequests s !! m = Some p ∧ pr_sessionId p = Some sessionId).

(** The (session-id, tool-name, command-text) triple of a pending request. *)
Definition triple (p : PendingRequest) : option string * option string * option string :=
  (pr_sessionId p, pr_tool p, pr_command p).

(** At most one pending request per triple. *)
Definition onePerTriple (s : State) : Prop :=
  ∀ m1 m2 p1 p2,
    pendingRequests s !! m1 = Some p1 → pendingRequests s !! m2 = Some p2 →
    triple p1 = triple p2 → m1 = m2.

(** The update carries a date that lies more than [staleThreshold] seconds
    before [now_ms]. *)
Definition isStale (now_ms staleThreshold : Z) (u : Telegram.Update) : bool :=
  match Telegram.message u with
  | Some msg =>
      match Telegram.date msg with
      | Some d => bool_decide (now_ms - 1000 * d > 1000 * staleThreshold)
      | None => false
      end
  | None => false
  end.


(** The environment with another answer of the chat service to [getUpdates]. *)
Definition withUpdates (env : Env)
    (r : Z → Telegram.ApiResult (list Telegram.Update)) : Env :=
  {| now_ms := now_ms env; randomBytes2 := randomBytes2 env; sendResult := sendResult env;
     updatesResult := r; readTranscript := readTranscript env;
     getLastClaudeMessage := getLastClaudeMessage env;
     getLastUserMessage := getLastUserMessage env; getLastToolUse := getLastToolUse env;
     findSubagentTranscripts := findSubagentTranscripts env;
     getFileMtime := getFileMtime env; readSessionFile := readSessionFile env;
     basename := basename env |}.

(** Whether an effect is a frame written to a hook client. *)
Definition isRespond (e : Effect) : bool :=
  match e with
  | Respond _ _ => true
  | _ => false
  end.

(** The effects performed since the daemon was in state [before]. *)
Definition since (before after : Daemon) : list Effect :=
  drop (List.length (effects before)) (effects after).

(** The gates of [handlePermissionRequest] are open: AFK is on for the
    session, the chat is configured and paired, the tool is not whitelisted. *)
Definition gatesOpen (msg : HookMsg) (d : Daemon) : Prop :=
  (alwaysEnabled (config d) || Sessions.isAfkEnabled (session_id msg) (registry d)) = true
  ∧ tokenConfigured d = true
  ∧ chatIdSet (state d) = true
  ∧ isToolWhitelisted (state d) (session_id msg) (tool_name msg) = false.

(** The persisted state once the retry count of the request stored under
    [m0] has been set to [rc]. *)
Definition bumped (m0 : string) (rc : Z) (s : State) : State :=
  set_pendingRequests (alter (set_retryCount rc) m0 (pendingRequests s)) s.

(** The retry count that a new request inherits from the matching one. *)
Definition inherited (existing : option (string * PendingRequest)) : Z :=
  match existing with
  | Some (_, req0) => default 0 (pr_retryCount req0) + 1
  | None => 0
  end.

(** The persisted state after the retry count of the matching request, if
    any, has been incremented. *)
Definition afterBump (existing : option (string * PendingRequest)) (s : State) : State :=
  match existing with
  | Some (m0, _) => bumped m0 (inherited existing) s
  | None => s
  end.

(** The frame that carries the instructions of a stop reply. *)
Definition continueFrame (waiting : Waiting) (instructions : string) : Effect :=
  Respond (w_socket waiting)
    (FResponse {| request_id := w_requestId waiting; status := st_continue;
                  r_message := None; bulk_approved := None;
                  instructions := Some instructions; resolution := None |}).


(** A computation that neither ends the process nor touches the persisted
    state or the process status. *)
Definition quiet {A} (m : M A) : Prop :=
  ∀ d, ∃ r d', m d = (r, d') ∧ r ≠ Halt ∧ state d' = state d ∧ proc d' = proc d.

(** The environment with another answer of the chat service to [sendMessage]. *)
Definition withSend (env : Env) (r : option Z → string → Telegram.ApiResult Z) : Env :=
  {| now_ms := now_ms env; randomBytes2 := randomBytes2 env; sendResult := r;
     updatesResult := updatesResult env; readTranscript := readTranscript env;
     getLastClaudeMessage := getLastClaudeMessage env;
     getLastUserMessage := getLastUserMessage env; getLastToolUse := getLastToolUse env;
     findSubagentTranscripts := findSubagentTranscripts env;
     getFileMtime := getFileMtime env; readSessionFile := readSessionFile env;
     basename := basename env |}.

(** The environment with other transcript files. *)
Definition withTranscripts (env : Env)
    (r : option string → option (list Transcript.Line)) : Env :=
  {| now_ms := now_ms env; randomBytes2 := randomBytes2 env; sendResult := sendResult env;
     updatesResult := updatesResult env; readTranscript := r;
     getLastClaudeMessage := getLastClaudeMessage env;
     getLastUserMessage := getLastUserMessage env; getLastToolUse := getLastToolUse env;
     findSubagentTranscripts := findSubagentTranscripts env;
     getFileMtime := getFileMtime env; readSessionFile := readSessionFile env;
     basename := basename env |}.

Fixpoint replicate (n : nat) (c : ascii) : string :=
  match n with
  | O => EmptyString
  | S n' => String c (replicate n' c)
  end.

(** ** Concrete runs *)

Module Example.

(** The service-level error that the chat service returns to the second of
    two daemons polling with one token. *)
Definition conflictDescription : string :=
  "Conflict: terminated by other getUpdates request; make sure that only one bot instance is running".

(** A quiet outside world: the chat service accepts every message and gives
    it the id 101, there is no update, the transcript cannot be read, the
    terminal still belongs to session S. *)
Definition env : Env :=
  {| now_ms := 1700000000000;
     randomBytes2 := (Byte.xa3, Byte.xf8);
     sendResult := λ _ _, Telegram.ApiOk 101;
     updatesResult := λ _, Telegram.ApiOk [];
     readTranscript := λ _, None;
     getLastClaudeMessage := λ _ _, Some "Running the tests now.";
     getLastUserMessage := λ _ _, None;
     getLastToolUse := λ _, Some {| Transcript.tu_id := Some "toolu_1";
                                    Transcript.tu_tool := "Bash";
                                    Transcript.tu_formatted := "npm test" |};
     findSubagentTranscripts := λ _, [];
     getFileMtime := λ _, None;
     readSessionFile := λ _, Some (Some "S");
     basename := λ _, "p" |}.

Definition sending (message_id : Z) : Env := withSend env (λ _ _, Telegram.ApiOk message_id).

Definition receiving (updates : list Telegram.Update) : Env :=
  withUpdates env (λ _, Telegram.ApiOk updates).

Definition frame (type request_id : string) : HookMsg :=
  {| msg_type := type; msg_request_id := request_id; session_id := "S";
     terminal_id := Some "T1"; tool_name := "Bash"; message := Some "npm test";
     transcript_path := "/p/t.jsonl"; cwd := Some "/p" |}.

Definition chatMessage (chat : Z) (text : string) (date : Z) (reply_to : option Z)
  : Telegram.Update :=
  {| Telegram.update_id := 7;
     Telegram.message := Some {| Telegram.chat_id := Some chat; Telegram.text := Some text;
                                 Telegram.date := Some date;
                                 Telegram.reply_to_message_id := reply_to |} |}.

(** The daemon starts paired with chat 12345. *)
Definition booted : Daemon :=
  main env DEFAULT_CONFIG true (set_chatId (Some 12345) emptyState) true.

(** Session S turns AFK mode on over connection 1. *)
Definition enabled : Daemon := step env (HookFrame 1%nat (frame "enable_afk" "r1")) booted.

(** A permission request arrives on connection 1; its prompt gets the
    message id 101. *)
Definition asked : Daemon :=
  step env (HookFrame 1%nat (frame "permission_request" "r2")) enabled.

(** Connection 1 is closed while the request is pending. *)
Definition disconnected : Daemon := step env (SocketClosed 1%nat) asked.

(** The same request arrives again on connection 2; its prompt gets the
    message id 102. *)
Definition askedAgain : Daemon :=
  step (sending 102) (HookFrame 2%nat (frame "permission_request" "r3")) asked.

(** The transcript gains the result of the tool use, not an error. *)
Definition resolvedTranscript : list Transcript.Line :=
  [Some {| Transcript.e_type := "user";
           Transcript.e_content :=
             Some (Transcript.CBlocks
                     [{| Transcript.b_type := "tool_result";
                         Transcript.b_tool_use_id := Some "toolu_1";
                         Transcript.b_is_error := false |}]) |}].

Definition envResolved : Env := withTranscripts env (λ _, Some resolvedTranscript).

(** The transcript-poll tick that follows. *)
Definition polled : Daemon := step envResolved TranscriptTick asked.

(** The chat service answers [getUpdates] with the conflict error. *)
Definition envConflict : Env :=
  withUpdates env (λ _, Telegram.ApiNotOk (Some conflictDescription)).

(** Three update-polling ticks in a row meet the conflict error. *)
Definition conflicted : Daemon :=
  run [(envConflict, TelegramTick); (envConflict, TelegramTick); (envConflict, TelegramTick)]
      booted.

(** Somebody else sends [/start] from chat 999, just now. *)
Definition hijacked : Daemon :=
  step (receiving [chatMessage 999 "/start" 1700000000 None]) TelegramTick booted.


(** A reply [maybe] to message 101. *)
Definition answeredMaybe : Daemon :=
  step (receiving [chatMessage 12345 "maybe" 1700000000 (Some 101)]) TelegramTick asked.

(** A stop request arrives on connection 3; its notification gets the
    message id 201. *)
Definition stopAsked : Daemon :=
  step (sending 201) (HookFrame 3%nat (frame "stop_request" "r4")) enabled.

(** A reply of 2001 characters. *)
Definition longText : string := replicate 2001 "a".

End Example.

(** ** Notions used to state the further properties *)


(** The characters that [escapeMarkdown] escapes. *)
Definition isMarkdownSpecial (c : ascii) : bool :=
  bool_decide (c = "_"%char) || bool_decide (c = "*"%char)
  || bool_decide (c = "`"%char) || bool_decide (c = "["%char).

(** The text without the backslash in front of each special character that
    has one. *)
Fixpoint unescapeMarkdown (s : string) : string :=
  match s with
  | EmptyString => EmptyString
  | String c rest =>
      match rest with
      | String c' rest' =>
          if bool_decide (c = "\"%char) && isMarkdownSpecial c'
          then String c' (unescapeMarkdown rest')
          else String c (unescapeMarkdown rest)
      | EmptyString => String c EmptyString
      end
  end.

(** How many characters of the text [escapeMarkdown] escapes. *)
Fixpoint countSpecial (s : string) : nat :=
  match s with
  | EmptyString => 0
  | String c s' => (if isMarkdownSpecial c then 1 else 0) + countSpecial s'
  end.

(** Every special character of the text has a backslash right before it. *)
Fixpoint specialsEscaped (previous : option ascii) (s : string) : bool :=
  match s with
  | EmptyString => true
  | String c s' =>
      (negb (isMarkdownSpecial c) || bool_decide (previous = Some "\"%char))
      && specialsEscaped (Some c) s'
  end.



(** The update with its message, if it has one, made a reply to message [n]. *)
Definition inReplyTo (n : Z) (u : Telegram.Update) : Telegram.Update :=
  {| Telegram.update_id := Telegram.update_id u;
     Telegram.message :=
       (λ m, {| Telegram.chat_id := Telegram.chat_id m; Telegram.text := Telegram.text m;
                Telegram.date := Telegram.date m;
                Telegram.reply_to_message_id := Some n |}) <$> Telegram.message u |}.

(** The frame that carries the verdict of a permission request to the hook. *)
Definition verdictResponse (requestId : string) (decision : Decision) : Response :=
  {| request_id := requestId;
     status := match decision with denied => st_denied | _ => st_approved end;
     r_message := match decision with denied => Some "User denied" | _ => None end;
     bulk_approved := Some (bool_decide (decision = approved_all));
     instructions := None;
     resolution := None |}.

(** The persisted list of AFK sessions names exactly the sessions whose AFK
    flag is set in the registry. *)
Definition afkMirrored (d : Daemon) : Prop :=
  ∀ sessionId,
    sessionId ∈ afkSessions (state d) ↔ Sessions.isAfkEnabled sessionId (registry d) = true.

(** The persisted AFK sessions and the AFK flags of the registry are both
    the members of [a], and the registry holds no pending request. *)
Definition afkAre (a : list string) (d : Daemon) : Prop :=
  (∀ sessionId, sessionId ∈ afkSessions (state d) ↔ sessionId ∈ a)
  ∧ (∀ sessionId, sessionId ∈ Sessions.afkEnabledSessions (registry d) ↔ sessionId ∈ a)
  ∧ Sessions.pendingByMessageId (registry d) = [].

(** [m] keeps the property [J] of the daemon, however it ends. *)
Definition keeps (J : Daemon → Prop) {A} (m : M A) : Prop :=
  ∀ d, J d → J (m d).2.

(** * Properties *)

(** ** Rules for invariants of the persisted state *)

Section preservation.
Variable I : State → Prop.

Lemma preserves_ret {A} (a : A) : preserves I (mret a).
Proof. by intros d. Qed.

Lemma preserves_bind {A B} (m : M A) (k : A → M B) :
  preserves I m → (∀ a, preserves I (k a)) → preserves I (m ≫= k).
Proof.
  intros Hm Hk d Hd. unfold mbind, M_bind.
  specialize (Hm d Hd). destruct (m d) as [[a|e|] d']; simpl in *; auto.
  by apply Hk.
Qed.

Lemma preserves_throw {A} e : preserves I (@throw A e).
Proof. by intros d. Qed.

Lemma preserves_get : preserves I get.
Proof. by intros d. Qed.

Lemma preserves_modify f :
  (∀ d, I (state d) → I (state (f d))) → preserves I (modify f).
Proof. intros Hf d Hd. by apply Hf. Qed.

Lemma preserves_modifyState f :
  (∀ s, I s → I (f s)) → preserves I (modifyState f).
Proof. intros Hf d Hd. by apply Hf. Qed.

Lemma preserves_emit e : preserves I (emit e).
Proof. by intros d. Qed.

Lemma preserves_tryCatch {A} (m : M A) h :
  preserves I m → (∀ e, preserves I (h e)) → preserves I (tryCatch m h).
Proof.
  intros Hm Hh d Hd. unfold tryCatch.
  specialize (Hm d Hd). destruct (m d) as [[a|e|] d']; simpl in *; auto.
  by apply Hh.
Qed.

Lemma preserves_tryFinally {A} (m : M A) f :
  preserves I m → preserves I f → preserves I (tryFinally m f).
Proof.
  intros Hm Hf d Hd. unfold tryFinally.
  specialize (Hm d Hd). destruct (m d) as [[a|e|] d']; simpl in *; auto;
    specialize (Hf d' Hm); by destruct (f d') as [[[]|e'|] d''].
Qed.

Lemma preserves_swallow {A} (m : M A) : preserves I m → preserves I (swallow m).
Proof.
  intros Hm. apply preserves_tryCatch.
  - apply preserves_bind; [done | intros; apply preserves_ret].
  - intros; apply preserves_ret.
Qed.

Lemma state_crash e d : state (crash e d) = state d.
Proof. unfold crash. by destruct (proc d). Qed.

Lemma preserves_detach {A} (m : M A) : preserves I m → preserves I (detach m).
Proof.
  intros Hm d Hd. unfold detach.
  specialize (Hm d Hd). destruct (m d) as [[a|e|] d']; simpl in *; auto.
  by rewrite state_crash.
Qed.

Lemma preserves_exitProcess {A} code : preserves I (@exitProcess A code).
Proof. by intros d. Qed.

Lemma preserves_forEach {A} (xs : list A) f :
  (∀ x, preserves I (f x)) → preserves I (forEach xs f).
Proof.
  intros Hf. induction xs as [|x xs IH]; simpl.
  - apply preserves_ret.
  - apply preserves_bind; auto.
Qed.

Lemma preserves_dispatch (m : M unit) d :
  preserves I m → I (state d) → I (state (dispatch m d)).
Proof.
  intros Hm Hd. unfold dispatch. destruct (proc d); auto.
  specialize (Hm d Hd). destruct (m d) as [[a|e|] d']; simpl in *; auto.
  by rewrite state_crash.
Qed.
End preservation.

Create HintDb pres discriminated.

Ltac inv_close :=
  first
    [ assumption
    | match goal with
      | HI : StateInvariant _ |- _ =>
          first [ apply (inv_clear _ HI) | apply (inv_remove _ HI)
                | apply (inv_expire _ HI) | apply (inv_afkSessions _ HI)
                | apply (inv_pendingRequests _ HI) | apply (inv_sessionWhitelists _ HI) ];
          inv_close
      end
    | match goal with
      | Hins : keptByInsert _ |- _ => apply Hins; inv_close
      end ].

Ltac pres_leaf :=
  intros; simpl;
  repeat match goal with
         | |- context [match ?x with _ => _ end] => destruct x; simpl
         end;
  inv_close.

Ltac pres_step :=
  first
    [ solve [eauto with pres]
    | apply preserves_ret
    | apply preserves_throw
    | apply preserves_get
    | apply preserves_emit
    | apply preserves_exitProcess
    | apply preserves_bind; [| intros ?]
    | apply preserves_tryCatch; [| intros ?]
    | apply preserves_tryFinally
    | apply preserves_swallow
    | apply preserves_detach
    | apply preserves_forEach; intros ?
    | apply preserves_modifyState; solve [pres_leaf]
    | apply preserves_modify; solve [pres_leaf]
    | match goal with
      | |- preserves _ (match ?x with _ => _ end) => destruct x eqn:?
      end ].

Ltac pres := repeat pres_step.

Section handlers.
Variable I : State → Prop.
Hypothesis HI : StateInvariant I.
Hypothesis Hins : keptByInsert I.

Lemma preserves_sendMessage env chat text : preserves I (sendMessage env chat text).
Proof. unfold sendMessage. pres. Qed.

Lemma preserves_deleteMessage chat m : preserves I (deleteMessage chat m).
Proof. unfold deleteMessage. pres. Qed.

Lemma preserves_getUpdates env offset : preserves I (getUpdates env offset).
Proof. unfold getUpdates. pres. Qed.

Lemma preserves_saveState : preserves I saveState.
Proof. unfold saveState. pres. Qed.

Lemma preserves_respond socket r : preserves I (respond socket r).
Proof. unfold respond. pres. Qed.

Hint Resolve preserves_sendMessage preserves_deleteMessage preserves_getUpdates
  preserves_saveState preserves_respond : pres.

Lemma preserves_trackWaitingSocket m w : preserves I (trackWaitingSocket m w).
Proof. unfold trackWaitingSocket. pres. Qed.

Lemma preserves_untrackMessage s m : preserves I (untrackMessage s m).
Proof. unfold untrackMessage. pres. Qed.

Lemma preserves_setTimeout t : preserves I (setTimeout t).
Proof. unfold setTimeout. pres. Qed.

Lemma preserves_clearTimeout h : preserves I (clearTimeout h).
Proof. unfold clearTimeout. pres. Qed.

Hint Resolve preserves_trackWaitingSocket preserves_untrackMessage
  preserves_setTimeout preserves_clearTimeout : pres.

Lemma preserves_addToWhitelist sid t : preserves I (addToWhitelist sid t).
Proof. unfold addToWhitelist. pres. Qed.

Lemma preserves_clearWhitelist sid : preserves I (clearWhitelist sid).
Proof. unfold clearWhitelist. pres. Qed.

Hint Resolve preserves_addToWhitelist preserves_clearWhitelist : pres.

Lemma preserves_timerFired h : preserves I (timerFired h).
Proof. unfold timerFired, permissionTimeoutFired, stopTimeoutFired. pres. Qed.

Lemma preserves_handlePermissionRequest env msg socket :
  preserves I (handlePermissionRequest env msg socket).
Proof. unfold handlePermissionRequest. pres. Qed.

Lemma preserves_handleStopRequest env msg socket :
  preserves I (handleStopRequest env msg socket).
Proof. unfold handleStopRequest. pres. Qed.

Lemma preserves_handleRequest env msg socket :
  preserves I (handleRequest env msg socket).
Proof.
  unfold handleRequest, handleEnableAfk, handleDisableAfk, handleStatus.
  pose proof preserves_handlePermissionRequest.
  pose proof preserves_handleStopRequest.
  pres.
Qed.

Lemma preserves_handleSocketDisconnect socket :
  preserves I (handleSocketDisconnect socket).
Proof. unfold handleSocketDisconnect. pres. Qed.
End handlers.

Section handlers_chat.
Variable I : State → Prop.
Hypothesis HI : StateInvariant I.

Hint Resolve preserves_sendMessage preserves_deleteMessage preserves_getUpdates
  preserves_saveState preserves_respond preserves_trackWaitingSocket
  preserves_untrackMessage preserves_setTimeout preserves_clearTimeout
  preserves_addToWhitelist preserves_clearWhitelist : pres.

Lemma preserves_parseReply text allow : preserves I (parseReply text allow).
Proof. unfold parseReply. pres. Qed.

Lemma preserves_undeliverable env p : preserves I (undeliverable env p).
Proof. unfold undeliverable. pres. Qed.

Hint Resolve preserves_parseReply preserves_undeliverable : pres.

Lemma preserves_handleResponse env m w text :
  preserves I (handleResponse env m w text).
Proof. unfold handleResponse. pres. Qed.

Hint Resolve preserves_handleResponse : pres.

Lemma preserves_processUpdate env u :
  isPairing u = false ∨ (∀ c s, I s → I (set_chatId c s)) →
  preserves I (processUpdate env u).
Proof.
  intros Hp. unfold processUpdate, isPairing in *.
  destruct (Telegram.message u) as [msg|]; [| pres].
  apply preserves_bind; [pres | intros d].
  destruct (bool_decide (JsString.trim <$> Telegram.text msg = Some "/start")
            && truthyNumOpt (Telegram.chat_id msg)) eqn:Hstart.
  - destruct Hp as [Hp | Hp]; [done |].
    apply preserves_bind; [| intros ?; pres].
    apply preserves_modifyState. auto.
  - pres.
Qed.

Lemma preserves_shutdown : preserves I shutdown.
Proof. unfold shutdown. pres. Qed.

Hint Resolve preserves_shutdown : pres.

Lemma preserves_processTelegramUpdates env :
  pairingFree env ∨ (∀ c s, I s → I (set_chatId c s)) →
  preserves I (processTelegramUpdates env).
Proof.
  intros Hp. unfold processTelegramUpdates.
  apply preserves_bind; [pres | intros d].
  destruct (negb (tokenConfigured d)); [pres |].
  destruct (isPolling d); [pres |].
  apply preserves_bind; [pres | intros _].
  apply preserves_tryFinally; [| pres].
  apply preserves_tryCatch; [| intros; pres].
  assert (Hupd : ∀ updates : list Telegram.Update,
             (∀ u, u ∈ updates →
                   isPairing u = false ∨ (∀ c s, I s → I (set_chatId c s))) →
             preserves I
               (modify (with_consecutiveConflictErrors 0);;
                forEach updates (λ update,
                  modify (with_telegramOffset (Telegram.update_id update + 1));;
                  processUpdate env update))).
  { intros updates Hall. apply preserves_bind; [pres | intros _].
    induction updates as [|u us IH]; simpl; [pres |].
    apply preserves_bind.
    - apply preserves_bind; [pres | intros _].
      apply preserves_processUpdate, Hall. left.
    - intros _. apply IH. intros u' Hu'. apply Hall. by right. }
  unfold getUpdates. intros d0 Hd0. unfold mbind at 1, M_bind at 1.
  unfold mbind at 1, M_bind at 1. simpl.
  destruct (negb (tokenConfigured d0)); simpl.
  { apply (Hupd []); [by intros ? ?%elem_of_nil | done]. }
  destruct (updatesResult env (telegramOffset d)) as [raw|desc|msg] eqn:Hraw; simpl;
    [| done | done].
  apply Hupd; [| done].
  intros u Hu. destruct Hp as [Hp | Hp]; [left | by right].
  apply (Hp _ _ _ Hraw). unfold Telegram.filterUpdates in Hu.
  by apply list_elem_of_filter in Hu as [_ ?].
Qed.
End handlers_chat.

Section handlers_transcript.
Variable I : State → Prop.
Hypothesis HI : StateInvariant I.

Hint Resolve preserves_sendMessage preserves_deleteMessage preserves_getUpdates
  preserves_saveState preserves_respond : pres.

Lemma preserves_handleLocalResolution m request res :
  preserves I (handleLocalResolution m request res).
Proof. unfold handleLocalResolution. pres. Qed.

Hint Resolve preserves_handleLocalResolution : pres.

Lemma preserves_pollRequest env m : preserves I (pollRequest env m).
Proof.
  unfold pollRequest, checkPermissionResolution, checkStopResolution, advanceOffset.
  pres.
Qed.

Lemma preserves_pollRequests env sid fuel i : preserves I (pollRequests env sid fuel i).
Proof.
  revert i. induction fuel as [|fuel IH]; intros i; simpl; [pres |].
  pose proof preserves_pollRequest. pres.
Qed.

Lemma preserves_handleSessionExpired env sid ms :
  preserves I (handleSessionExpired env sid ms).
Proof. unfold handleSessionExpired. pres. Qed.

Hint Resolve preserves_handleSessionExpired preserves_pollRequests : pres.

Lemma preserves_pollTranscripts env : preserves I (pollTranscripts env).
Proof. unfold pollTranscripts, pollSession, checkSessionValidity. pres. Qed.

Lemma preserves_start env lock : preserves I (start env lock).
Proof. unfold start. pres. Qed.

Lemma preserves_stop : preserves I stop.
Proof. unfold stop. pres. Qed.
End handlers_transcript.

(** Every callback of the event loop keeps an invariant of the persisted
    state, provided pairing keeps it or no pairing update arrives. *)
Lemma preserves_handler I env ev :
  StateInvariant I → keptByInsert I →
  pairingFree env ∨ (∀ c s, I s → I (set_chatId c s)) →
  preserves I (handler env ev).
Proof.
  intros HI Hins Hp. destruct ev; simpl.
  - by apply preserves_handleRequest.
  - apply preserves_bind; [pres | intros _]. by apply preserves_handleSocketDisconnect.
  - pres.
  - by apply preserves_timerFired.
  - by apply preserves_processTelegramUpdates.
  - by apply preserves_pollTranscripts.
  - by apply preserves_stop.
Qed.

Lemma step_preserves I env ev d :
  StateInvariant I → keptByInsert I →
  pairingFree env ∨ (∀ c s, I s → I (set_chatId c s)) →
  I (state d) → I (state (step env ev d)).
Proof.
  intros HI Hins Hp Hd. unfold step. apply preserves_dispatch; [| done].
  by apply preserves_handler.
Qed.

(** ** Evaluating the handlers *)

(** Reduction of the projections of a daemon through the field updates. *)
Ltac dsimpl :=
  cbn [config tokenConfigured state registry waitingSockets socketToMessageIds timers
       nextTimer telegramOffset consecutiveConflictErrors isPolling isPollingTranscripts
       running destroyedSockets effects proc
       with_state with_registry with_waitingSockets with_socketToMessageIds with_timers
       with_nextTimer with_telegramOffset with_consecutiveConflictErrors with_isPolling
       with_isPollingTranscripts with_running with_destroyedSockets with_effects with_proc
       fst snd].

(** Unfolding of the control-flow primitives. *)
Ltac mrun :=
  cbv [mbind M_bind mret M_ret get modify modifyState saveState emit respond
       clearTimeout untrackMessage throw tryCatch swallow detach].

Lemma string_app_cons c (s1 s2 : string) : String c s1 +:+ s2 = String c (s1 +:+ s2).
Proof. reflexivity. Qed.

Lemma string_length_app (s1 s2 : string) :
  String.length (s1 +:+ s2) = (String.length s1 + String.length s2)%nat.
Proof.
  induction s1 as [|c s1 IH]; [done |].
  rewrite string_app_cons. simpl. by rewrite IH.
Qed.

Lemma string_app_assoc (s1 s2 s3 : string) : (s1 +:+ s2) +:+ s3 = s1 +:+ (s2 +:+ s3).
Proof.
  induction s1 as [|c s1 IH]; [done |].
  rewrite !string_app_cons. by rewrite IH.
Qed.

Lemma substring0_length n s :
  (n ≤ String.length s)%nat → String.length (JsString.substring0 n s) = n.
Proof.
  revert s. induction n as [|n IH]; intros [|c s] Hn; simpl in *; try lia; auto.
  f_equal. apply IH. lia.
Qed.

Lemma removeFirst_NoDup x arr : NoDup arr → x ∉ removeFirst x arr.
Proof.
  induction 1 as [|y arr Hy Hnd IH]; simpl.
  - apply not_elem_of_nil.
  - destruct (decide (x = y)) as [->|Hne]; [done |].
    rewrite elem_of_cons. intros [? | ?]; [done | by apply IH].
Qed.

Lemma removeFromDualIndex_pending m sid s :
  pendingRequests (removeFromDualIndex m sid s) !! jsString m = None.
Proof.
  unfold removeFromDualIndex. simpl.
  destruct (requestsBySession s !! propKey sid) as [arr|]; simpl.
  - destruct (removeFirst (jsString m) arr); simpl; apply lookup_delete_eq.
  - apply lookup_delete_eq.
Qed.

Lemma removeFromDualIndex_requests m sid s arr0 arr :
  requestsBySession s !! propKey sid = Some arr0 → NoDup arr0 →
  requestsBySession (removeFromDualIndex m sid s) !! propKey sid = Some arr →
  jsString m ∉ arr.
Proof.
  intros Harr0 Hnd. unfold removeFromDualIndex. simpl. rewrite Harr0.
  pose proof (removeFirst_NoDup (jsString m) arr0 Hnd) as Hnot.
  destruct (removeFirst (jsString m) arr0) as [|y rest]; simpl.
  - by rewrite lookup_delete_eq.
  - rewrite lookup_insert_eq. by intros [= <-].
Qed.

Lemma sendMessage_ok env chat text d mid :
  tokenConfigured d = true →
  sendResult env chat text = Telegram.ApiOk mid →
  sendMessage env chat text d
  = (Val mid, with_effects (effects d ++ [SendMessage chat text])%list d).
Proof. intros Htok Hsend. unfold sendMessage. mrun. by rewrite Htok, Hsend. Qed.

Lemma handlePermissionRequest_parks env msg socket d mid :
  gatesOpen msg d →
  let existing :=
    findExistingPendingRequest (state d) (session_id msg) (tool_name msg) (message msg) in
  (is_Some existing → isMaxRetriesExceeded (inherited existing) (maxRetries (config d)) = false) →
  (∀ text, sendResult env (chatId (state d)) text = Telegram.ApiOk mid) →
  let out := handlePermissionRequest env msg socket d in
  out.1 = Val tt ∧
  state out.2 = insertIntoDualIndex (JsString.ofNumber mid) (session_id msg)
                  (permissionEntry env msg (inherited existing)) (afterBump existing (state d)) ∧
  waitingSockets out.2 !! JNum mid
    = Some (permissionWaiting msg socket
              (isBulkApprovalAllowed (config d) (Some (tool_name msg))) (nextTimer d)) ∧
  tokenConfigured out.2 = tokenConfigured d.
Proof.
  intros (Hen & Htok & Hchat & Hwl) existing Hmax Hsend out.
  subst out. unfold handlePermissionRequest.
  cbv [mbind M_bind mret M_ret get].
  apply orb_true_iff in Hen.
  assert (Hgate : negb (alwaysEnabled (config d))
                  && negb (Sessions.isAfkEnabled (session_id msg) (registry d)) = false).
  { destruct Hen as [-> | ->]; simpl; [done | by rewrite andb_false_r]. }
  rewrite Hgate, Htok, Hchat, Hwl. cbn [negb]. fold existing.
  destruct existing as [[m0 req0]|] eqn:Hex.
  - cbn [inherited afterBump] in *. rewrite Hmax by done.
    mrun. dsimpl.
    destruct (Sessions.register _ _ _ _ _) as [token registry'].
    cbn [chatId set_pendingRequests].
    erewrite sendMessage_ok; [| dsimpl; exact Htok | apply Hsend].
    cbv [setTimeout trackWaitingSocket]. mrun. dsimpl.
    split_and!; [done | done | by rewrite lookup_insert_eq | done].
  - cbn [inherited afterBump] in *.
    mrun. dsimpl.
    destruct (Sessions.register _ _ _ _ _) as [token registry'].
    erewrite sendMessage_ok; [| dsimpl; exact Htok | apply Hsend].
    cbv [setTimeout trackWaitingSocket]. mrun. dsimpl.
    split_and!; [done | done | by rewrite lookup_insert_eq | done].
Qed.

Lemma handlePermissionRequest_final env msg socket d m0 req0 :
  gatesOpen msg d →
  findExistingPendingRequest (state d) (session_id msg) (tool_name msg) (message msg)
    = Some (m0, req0) →
  let rc := default 0 (pr_retryCount req0) + 1 in
  isMaxRetriesExceeded rc (maxRetries (config d)) = true →
  let out := handlePermissionRequest env msg socket d in
  out.1 = Val tt ∧
  state out.2 = removeFromDualIndex (JStr m0) (Some (session_id msg)) (bumped m0 rc (state d)) ∧
  last (effects out.2)
    = Some (Respond socket (FResponse
              (responseMsg (msg_request_id msg) st_timeout_final
                           "User unavailable after multiple retries."))).
Proof.
  intros (Hen & Htok & Hchat & Hwl) Hex rc Hmax out.
  subst out. unfold handlePermissionRequest.
  cbv [mbind M_bind mret M_ret get].
  apply orb_true_iff in Hen.
  assert (Hgate : negb (alwaysEnabled (config d))
                  && negb (Sessions.isAfkEnabled (session_id msg) (registry d)) = false).
  { destruct Hen as [-> | ->]; simpl; [done | by rewrite andb_false_r]. }
  rewrite Hgate, Htok, Hchat, Hwl, Hex. cbn [negb]. fold rc. rewrite Hmax.
  unfold deleteMessage.
  destruct (JsString.truthy m0); cbn [andb]; mrun; dsimpl; rewrite ?Htok; cbn [negb]; dsimpl;
    (split_and!; [done | done | by rewrite last_snoc]).
Qed.

Lemma findExisting_Some s sid tool cmd m0 req0 :
  findExistingPendingRequest s sid tool cmd = Some (m0, req0) →
  (∃ arr, requestsBySession s !! sid = Some arr ∧ m0 ∈ arr)
  ∧ pendingRequests s !! m0 = Some req0
  ∧ pr_tool req0 = Some tool ∧ pr_command req0 = cmd.
Proof.
  unfold findExistingPendingRequest. intros Hhead.
  apply head_Some_elem_of in Hhead.
  apply list_elem_of_omap in Hhead as (m & Hm & Hmatch).
  destruct (pendingRequests s !! m) as [req|] eqn:Hreq; [| done].
  destruct (bool_decide (pr_tool req = Some tool)) eqn:Ht; [| done].
  destruct (bool_decide (pr_command req = cmd)) eqn:Hc; [| done].
  simpl in Hmatch. injection Hmatch as <- <-.
  apply bool_decide_eq_true in Ht, Hc.
  split_and!; try done.
  destruct (requestsBySession s !! sid) as [arr|]; simpl in Hm.
  - by exists arr.
  - by apply elem_of_nil in Hm.
Qed.

Lemma reachable_booted : reachable Example.booted.
Proof. by apply reachable_started. Qed.

Lemma reachable_asked : reachable Example.asked.
Proof. do 2 apply reachable_step. by apply reachable_started. Qed.

Lemma forEach_keeps {A} (P : Daemon → Prop) (xs : list A) (f : A → M unit) d :
  (∀ x d, P d → (f x d).1 = Val tt ∧ P (f x d).2) → P d →
  (forEach xs f d).1 = Val tt ∧ P (forEach xs f d).2.
Proof.
  intros Hf. revert d. induction xs as [|x xs IH]; intros d Hd; simpl; [done |].
  unfold mbind, M_bind. destruct (Hf x d Hd) as [Hval Hkeep].
  destruct (f x d) as [r d1]. simpl in *. subst r. by apply IH.
Qed.

Lemma since_app d d' l : effects d' = (effects d ++ l)%list → since d d' = l.
Proof. intros Heff. unfold since. rewrite Heff. apply drop_app_length. Qed.

(** ** The loop over the requests of a session *)

Lemma removeFirst_length x arr : (List.length (removeFirst x arr) ≤ List.length arr)%nat.
Proof.
  induction arr as [|y arr IH]; simpl; [done |].
  destruct (decide (x = y)); simpl; lia.
Qed.

(** No handler but the one that stores a new request makes the array of a
    session longer. *)
Lemma atMost_invariant sid n :
  StateInvariant (λ s, (List.length (default [] (requestsBySession s !! sid)) ≤ n)%nat).
Proof.
  split; simpl; try done.
  - intros m sid' s Hs. unfold removeFromDualIndex. simpl.
    destruct (requestsBySession s !! propKey sid') as [arr|] eqn:Harr; simpl; [| done].
    pose proof (removeFirst_length (jsString m) arr) as Hlen.
    destruct (decide (propKey sid' = sid)) as [Heq|Hne].
    + rewrite <- Heq in *. rewrite Harr in Hs. simpl in Hs.
      destruct (removeFirst (jsString m) arr) as [|y rest]; simpl.
      * rewrite lookup_delete_eq. simpl. lia.
      * rewrite lookup_insert_eq. simpl in *. lia.
    + destruct (removeFirst (jsString m) arr) as [|y rest]; simpl.
      * by rewrite lookup_delete_ne.
      * by rewrite lookup_insert_ne.
  - intros sid' s Hs. destruct (decide (sid' = sid)) as [->|Hne].
    + rewrite lookup_delete_eq. simpl. lia.
    + by rewrite lookup_delete_ne.
  - intros s _. rewrite lookup_empty. simpl. lia.
Qed.

Lemma pollRequest_shrinks env m sid d :
  (List.length (liveMessageIds sid (pollRequest env m d).2)
   ≤ List.length (liveMessageIds sid d))%nat.
Proof.
  unfold liveMessageIds.
  by apply (preserves_pollRequest _ (atMost_invariant sid _) env m d).
Qed.

(** The loop over the array of a session never runs out of fuel: any two
    amounts that cover what is left of the array give the same run. *)
Lemma pollRequests_fuel env sid fuel fuel' i d :
  (List.length (liveMessageIds sid d) ≤ fuel + i)%nat →
  (List.length (liveMessageIds sid d) ≤ fuel' + i)%nat →
  pollRequests env sid fuel i d = pollRequests env sid fuel' i d.
Proof.
  revert fuel' i d. induction fuel as [|fuel IH]; intros fuel' i d Hfuel Hfuel'.
  - destruct fuel' as [|fuel']; [done |]. simpl.
    unfold mbind, M_bind, get. simpl.
    rewrite (lookup_ge_None_2 (liveMessageIds sid d) i); [done | lia].
  - destruct fuel' as [|fuel'].
    + simpl. unfold mbind, M_bind, get. simpl.
      rewrite (lookup_ge_None_2 (liveMessageIds sid d) i); [done | lia].
    + simpl. unfold mbind at 1 3, M_bind at 1 3, get. simpl.
      destruct (liveMessageIds sid d !! i) as [m|]; [| done].
      unfold mbind, M_bind.
      pose proof (pollRequest_shrinks env m sid d) as Hlen.
      destruct (pollRequest env m d) as [[[]|e|] d1]; [| done | done].
      simpl in Hlen. apply IH; lia.
Qed.

(** ** The dual index (C1) *)

(** While the session registry holds no pending request, which is so as long
    as nothing calls [addPendingRequest], the close of a connection with a
    parked reply empties [pendingRequests] and leaves [requestsBySession] as
    it is. *)
Lemma handleSocketDisconnect_overwrites socket d ids :
  socketToMessageIds d !! socket = Some ids → ids ≠ [] →
  Sessions.pendingByMessageId (registry d) = [] →
  let out := handleSocketDisconnect socket d in
  pendingRequests (state out.2) = ∅ ∧
  requestsBySession (state out.2) = requestsBySession (state d).
Proof.
  intros Hids Hne Hreg out.
  assert (Hout : state out.2 = set_pendingRequests ∅ (state d));
    [| by rewrite Hout].
  subst out. unfold handleSocketDisconnect.
  unfold mbind at 1, M_bind at 1, get at 1. rewrite Hids.
  destruct ids as [|m ids]; [done |].
  set (P := λ d' : Daemon,
         state d' = state d ∧ Sessions.pendingByMessageId (registry d') = []).
  match goal with
  | |- context [forEach ?l ?f] =>
      destruct (forEach_keeps P l f d) as [Hval [Hstate Hempty]]
  end.
  - intros x d' [Hs Hr]. unfold deleteMessage. mrun.
    destruct (waitingSockets d' !! JNum x) as [w|]; [| done].
    assert (Hrm : Sessions.removePendingByMessageId (JNum x) (registry d') = registry d').
    { unfold Sessions.removePendingByMessageId. by rewrite Hr. }
    destruct (w_timeout w); dsimpl; rewrite !Hrm;
      destruct (chatIdSet (state d')); dsimpl;
      try destruct (negb (tokenConfigured d')); dsimpl; unfold P; by dsimpl.
  - by unfold P.
  - unfold mbind at 1, M_bind at 1.
    match goal with
    | |- context [forEach ?l ?f d] => destruct (forEach l f d) as [r d1]
    end.
    simpl in Hval, Hstate, Hempty. subst r. mrun. dsimpl.
    unfold Sessions.exportPendingRequests. rewrite Hempty, Hstate. simpl.
    by rewrite fmap_empty.
Qed.

(** C1, refuted by the code: when a connection closes while its request is
    pending, [handleSocketDisconnect] replaces [pendingRequests] by what the
    session registry exports, which is empty, and leaves
    [requestsBySession] as it was.  The message id 101 is then listed under
    session S without being a pending request. *)
Theorem C1_disconnect_breaks_dual_index :
  reachable Example.disconnected ∧
  dualIndexConsistent (state Example.asked) ∧
  requestsBySession (state Example.disconnected) !! "S" = Some ["101"] ∧
  pendingRequests (state Example.disconnected) !! "101" = None ∧
  ¬ dualIndexConsistent (state Example.disconnected).
Proof.
  assert (Hlisted : requestsBySession (state Example.disconnected) !! "S" = Some ["101"])
    by (vm_compute; reflexivity).
  assert (Hgone : pendingRequests (state Example.disconnected) !! "101" = None)
    by (vm_compute; reflexivity).
  split_and!; try done.
  - apply reachable_step, reachable_asked.
  - assert (Hp : pendingRequests (state Example.asked)
                 = {["101" := permissionEntry Example.env
                                 (Example.frame "permission_request" "r2") 0]})
      by (vm_compute; reflexivity).
    assert (Hr : requestsBySession (state Example.asked) = {["S" := ["101"]]})
      by (vm_compute; reflexivity).
    split.
    + intros m p. rewrite Hp, Hr. intros [<- <-]%lookup_singleton_Some.
      exists ["101"]. split; [done | by apply list_elem_of_singleton].
    + intros sid arr m. rewrite Hp, Hr. intros [<- <-]%lookup_singleton_Some.
      intros ->%list_elem_of_singleton. eexists. split; [apply lookup_singleton_eq | done].
  - intros [_ Hback].
    destruct (Hback "S" ["101"] "101" Hlisted) as (p & Hp & _).
    + by apply list_elem_of_singleton.
    + by rewrite Hgone in Hp.
Qed.

(** ** Pairing (C2) *)

(** C2, as stated, fails: a daemon paired with chat 12345 that receives
    [/start] from chat 999 is paired with chat 999 afterwards. *)
Lemma C2_counterexample :
  reachable Example.booted ∧
  chatId (state Example.booted) = Some 12345 ∧
  chatId (state Example.hijacked) = Some 999.
Proof. split_and!; [apply reachable_booted | done | by vm_compute]. Qed.

Lemma chatId_invariant c : StateInvariant (λ s, chatId s = c).
Proof.
  split; simpl; try done.
  intros m sid s Hs. unfold removeFromDualIndex. simpl.
  destruct (requestsBySession s !! propKey sid) as [arr|]; simpl; [| done].
  by destruct (removeFirst (jsString m) arr).
Qed.

(** C2, amended: every update whose trimmed text is [/start] and whose chat
    id is a non-zero number makes that chat the paired chat, whether or not
    one was paired before; as long as the chat service hands out no such
    update, no event changes the paired chat. *)
Theorem C2_pairing_follows_start env ev d u c :
  isPairing u = true →
  Telegram.message u ≫= Telegram.chat_id = Some c →
  pairingFree env →
  chatId (state (processUpdate env u d).2) = Some c
  ∧ chatId (state (step env ev d)) = chatId (state d).
Proof.
  intros Hpair Hchat Hfree. split.
  - unfold processUpdate, isPairing in *.
    destruct (Telegram.message u) as [msg|]; [| done]. simpl in Hchat.
    mrun. rewrite Hpair. unfold sendMessage. mrun. dsimpl.
    destruct (negb (tokenConfigured d)); [by rewrite Hchat |].
    destruct (sendResult env _ _); dsimpl; by rewrite Hchat.
  - apply (step_preserves (λ s, chatId s = chatId (state d)));
      [apply chatId_invariant | by intros m sid p s | by left | done].
Qed.

Lemma C2_witness :
  let u := Example.chatMessage 999 "/start" 1700000000 None in
  isPairing u = true ∧
  Telegram.message u ≫= Telegram.chat_id = Some 999 ∧
  pairingFree Example.env ∧
  chatId (state (processUpdate Example.env u Example.asked).2) = Some 999 ∧
  chatId (state (step Example.env TranscriptTick Example.asked)) = chatId (state Example.asked).
Proof.
  assert (Hfree : pairingFree Example.env).
  { intros offset updates u Hanswer Hu. injection Hanswer as <-. by apply elem_of_nil in Hu. }
  split_and!; [reflexivity | reflexivity | exact Hfree | ..];
    apply (C2_pairing_follows_start Example.env TranscriptTick Example.asked
             (Example.chatMessage 999 "/start" 1700000000 None) 999);
    first [reflexivity | exact Hfree].
Defined.

(** ** Retries (C3) *)

(** C3, as stated, fails: after the same request has come twice, two
    pending requests with one (session-id, tool-name, command-text) triple
    are stored. *)
Lemma C3_counterexample :
  reachable Example.askedAgain ∧ ¬ onePerTriple (state Example.askedAgain).
Proof.
  split.
  - apply reachable_step, reachable_asked.
  - intros Hone.
    assert (H1 : pendingRequests (state Example.askedAgain) !! "101"
                 = Some (set_retryCount 1 (permissionEntry Example.env (Example.frame "permission_request" "r2") 0)))
      by (vm_compute; reflexivity).
    assert (H2 : pendingRequests (state Example.askedAgain) !! "102"
                 = Some (permissionEntry Example.env (Example.frame "permission_request" "r3") 1))
      by (vm_compute; reflexivity).
    by specialize (Hone _ _ _ _ H1 H2 eq_refl).
Qed.

(** C3, amended: a permission request that matches the tool and command of a
    pending request of its session increments the retry count of the first
    such request.  When the count reaches [maxRetries], that request is
    removed from both indices and the caller is answered [timeout_final],
    nothing being stored.  Otherwise a further pending request with the
    incremented count is stored under the message id of the new prompt,
    next to the one that was there. *)
Theorem C3_retry_increments_and_adds env msg socket d m0 req0 :
  gatesOpen msg d →
  findExistingPendingRequest (state d) (session_id msg) (tool_name msg) (message msg)
    = Some (m0, req0) →
  let rc := default 0 (pr_retryCount req0) + 1 in
  let out := handlePermissionRequest env msg socket d in
  (rc >= maxRetries (config d) →
     out.1 = Val tt ∧
     pendingRequests (state out.2) = delete m0 (pendingRequests (state d)) ∧
     (∀ arr0 arr,
        requestsBySession (state d) !! session_id msg = Some arr0 → NoDup arr0 →
        requestsBySession (state out.2) !! session_id msg = Some arr → m0 ∉ arr) ∧
     last (effects out.2)
       = Some (Respond socket (FResponse
                 (responseMsg (msg_request_id msg) st_timeout_final
                              "User unavailable after multiple retries."))))
  ∧ (rc < maxRetries (config d) →
     ∀ mid, (∀ text, sendResult env (chatId (state d)) text = Telegram.ApiOk mid) →
            JsString.ofNumber mid ≠ m0 →
     out.1 = Val tt ∧
     pendingRequests (state out.2) !! m0 = Some (set_retryCount rc req0) ∧
     pendingRequests (state out.2) !! JsString.ofNumber mid = Some (permissionEntry env msg rc) ∧
     triple (permissionEntry env msg rc)
       = (Some (session_id msg), pr_tool req0, pr_command req0) ∧
     ∃ arr, requestsBySession (state out.2) !! session_id msg = Some arr
            ∧ m0 ∈ arr ∧ JsString.ofNumber mid ∈ arr).
Proof.
  intros Hgates Hex rc out.
  destruct (findExisting_Some _ _ _ _ _ _ Hex) as ((arr0 & Harr0 & Hin) & Hreq0 & Htool & Hcmd).
  split.
  - intros Hrc.
    destruct (handlePermissionRequest_final env msg socket d m0 req0 Hgates Hex)
      as (Hval & Hstate & Hlast).
    { by apply bool_decide_eq_true. }
    fold out in Hstate.
    split_and!; [done | | | done].
    + rewrite Hstate. unfold removeFromDualIndex, bumped. simpl.
      assert (Hdel : delete m0 (alter (set_retryCount rc) m0 (pendingRequests (state d)))
                     = delete m0 (pendingRequests (state d))).
      { apply map_eq. intros k. destruct (decide (k = m0)) as [->|Hne].
        - by rewrite !lookup_delete_eq.
        - by rewrite !lookup_delete_ne, lookup_alter_ne. }
      rewrite Harr0. by destruct (removeFirst m0 arr0); simpl.
    + intros arr1 arr Harr1 Hnd. rewrite Hstate.
      by apply (removeFromDualIndex_requests (JStr m0) (Some (session_id msg))
                  (bumped m0 rc (state d)) arr1 arr).
  - intros Hrc mid Hsend Hfresh.
    destruct (handlePermissionRequest_parks env msg socket d mid Hgates) as (Hval & Hstate & _ & _).
    { rewrite Hex. intros _. apply bool_decide_eq_false. simpl. fold rc. lia. }
    { done. }
    fold out in Hval, Hstate. rewrite Hex in Hstate. cbn [inherited afterBump] in Hstate.
    fold rc in Hstate. rewrite Hstate.
    unfold insertIntoDualIndex, bumped. simpl.
    split_and!.
    + done.
    + rewrite lookup_insert_ne by done. by rewrite lookup_alter_eq, Hreq0.
    + by rewrite lookup_insert_eq.
    + unfold triple. simpl. by rewrite Htool, Hcmd.
    + rewrite lookup_insert_eq. eexists. split; [done |]. rewrite Harr0. simpl.
      split; [by apply elem_of_app; left | apply elem_of_app; right; by apply list_elem_of_singleton].
Qed.

Lemma C3_witness :
  let msg := Example.frame "permission_request" "r3" in
  let req0 := permissionEntry Example.env (Example.frame "permission_request" "r2") 0 in
  let out := handlePermissionRequest (Example.sending 102) msg 2%nat Example.asked in
  gatesOpen msg Example.asked ∧
  findExistingPendingRequest (state Example.asked) (session_id msg) (tool_name msg) (message msg)
    = Some ("101", req0) ∧
  pendingRequests (state out.2) !! "101" = Some (set_retryCount 1 req0) ∧
  pendingRequests (state out.2) !! "102" = Some (permissionEntry (Example.sending 102) msg 1).
Proof.
  intros msg req0 out.
  assert (Hgates : gatesOpen msg Example.asked) by (repeat split; vm_compute; reflexivity).
  assert (Hex : findExistingPendingRequest (state Example.asked) (session_id msg)
                  (tool_name msg) (message msg) = Some ("101", req0))
    by (vm_compute; reflexivity).
  split_and!; [exact Hgates | exact Hex | ..];
    destruct (C3_retry_increments_and_adds (Example.sending 102) msg 2%nat Example.asked
                "101" req0 Hgates Hex) as [_ Hadd];
    destruct (Hadd ltac:(vm_compute; reflexivity) 102 (λ _, eq_refl)
                   ltac:(vm_compute; discriminate)) as (_ & Hold & Hnew & _);
    [exact Hold | exact Hnew].
Defined.

(** ** Local resolution (C4) *)

(** When nothing is parked under the string form of the message id, local
    resolution writes no frame and leaves the parked replies as they are;
    the request leaves the dual index all the same. *)
Lemma handleLocalResolution_unparked messageId request res d :
  waitingSockets d !! JStr messageId = None →
  let out := handleLocalResolution messageId request res d in
  out.1 = Val tt ∧
  filter (λ e, isRespond e = true) (since d out.2) = [] ∧
  waitingSockets out.2 = waitingSockets d ∧
  state out.2 = removeFromDualIndex (JStr messageId) (pr_sessionId request) (state d).
Proof.
  intros Hnone. simpl. unfold handleLocalResolution, deleteMessage. mrun.
  rewrite Hnone. dsimpl.
  destruct (negb (tokenConfigured d)); dsimpl.
  - split_and!; [done | | by apply delete_id | done].
    erewrite since_app; [| dsimpl; reflexivity]. done.
  - split_and!; [done | | by apply delete_id | done].
    erewrite since_app; [| dsimpl; rewrite <- app_assoc; reflexivity]. done.
Qed.

(** C4, refuted by the code: the request with message id 101 is parked on
    the live connection 1 under the number 101; the transcript gains the
    matching [tool_result]; the transcript-poll tick removes the request and
    asks the chat service to delete the prompt, but looks the parked reply up
    under the string ["101"], finds nothing, and writes no
    [resolved_locally] frame.  The reply stays parked. *)
Theorem C4_local_resolution_sends_no_frame :
  let parked :=
    permissionWaiting (Example.frame "permission_request" "r2") 1%nat false 0%nat in
  reachable Example.asked ∧
  waitingSockets Example.asked !! JNum 101 = Some parked ∧
  socketDestroyed 1%nat Example.asked = false ∧
  Transcript.findToolResult (readTranscript Example.envResolved (Some "/p/t.jsonl"))
                            (Some "toolu_1") 0
    = Some {| Transcript.tr_found := true; Transcript.tr_isError := false;
              Transcript.tr_offset := 1 |} ∧
  since Example.asked Example.polled
    = [DeleteMessage (Some 12345) (JStr "101"); SaveState (state Example.polled)] ∧
  pendingRequests (state Example.polled) = ∅ ∧
  requestsBySession (state Example.polled) = ∅ ∧
  waitingSockets Example.polled !! JNum 101 = Some parked ∧
  waitingSockets Example.asked !! JStr "101" = None.
Proof.
  split_and!; [apply reachable_asked | by vm_compute ..].
Qed.

(** ** The conflict with another poller (C5) *)

Lemma conflict_is_recognised :
  JsString.includes (errMessage (Error (Telegram.apiErrorMessage (Some Example.conflictDescription))))
                    "Conflict" = true.
Proof. by vm_compute. Qed.

(** The third conflict in a row, whatever the state of the daemon: the
    notice goes to the paired chat, then the call of the undeclared
    [shutdown] throws, and [process.exit(0)] is not reached. *)
Lemma third_conflict_crashes env d :
  proc d = Running →
  tokenConfigured d = true →
  isPolling d = false →
  2 <= consecutiveConflictErrors d →
  updatesResult env (telegramOffset d) = Telegram.ApiNotOk (Some Example.conflictDescription) →
  proc (step env TelegramTick d) = Crashed (ReferenceError "shutdown").
Proof.
  intros Hrun Htok Hpoll Hcount Hconflict.
  unfold step, dispatch, handler, processTelegramUpdates, getUpdates, shutdown, tryFinally.
  rewrite Hrun. mrun. rewrite Htok, Hpoll. cbn [negb]. cbv beta. dsimpl.
  rewrite Htok, Hconflict. cbn [negb apiFailure]. cbv beta iota.
  rewrite conflict_is_recognised.
  replace (JsString.truthy _) with true by done. cbn [andb]. cbv beta. dsimpl.
  rewrite bool_decide_eq_true_2 by lia. cbv beta.
  destruct (chatIdSet (state d)); cbv beta iota.
  - unfold sendMessage. mrun. dsimpl. rewrite Htok. cbn [negb].
    destruct (sendResult env _ _); cbv beta iota; dsimpl; unfold crash; dsimpl;
      by rewrite Hrun.
  - dsimpl. unfold crash. dsimpl. by rewrite Hrun.
Qed.

(** C5, refuted by the code: after three consecutive conflict errors the
    paired user has been notified once, but the process has not ended with
    status zero: it is brought down by the ReferenceError that the call of
    [shutdown] raises. *)
Theorem C5_conflict_does_not_exit_zero :
  reachable Example.conflicted ∧
  since Example.booted Example.conflicted = [SendMessage (Some 12345) msgConflict] ∧
  proc Example.conflicted = Crashed (ReferenceError "shutdown") ∧
  exitStatus (proc Example.conflicted) = Some 1 ∧
  exitStatus (proc Example.conflicted) ≠ Some 0.
Proof.
  split_and!; [| by vm_compute ..].
  do 3 apply reachable_step. apply reachable_booted.
Qed.

(** ** The staleness filter (C6) *)





(** ** Verdicts (C7) *)





(** ** Stop replies (C8) *)

Theorem C8_stop_reply_truncated env d messageId waiting pending text :
  checkRequestExists (state d) (JNum messageId) = Some pending →
  w_type waiting = RtStop →
  socketDestroyed (w_socket waiting) d = false →
  (2000 < String.length text)%nat →
  let out := handleResponse env messageId waiting (Some text) d in
  let s' := removeFromDualIndex (JNum messageId) (Some (w_sessionId waiting)) (state d) in
  let kept := JsString.substring0 1997 text +:+ "..." in
  let suffix :=
    " (truncated, original was " +:+ JsString.ofNumber (Z.of_nat (String.length text))
      +:+ " chars)" in
  out.1 = Val tt ∧
  state out.2 = s' ∧
  effects out.2 = (effects d ++ [SaveState s'; continueFrame waiting (kept +:+ suffix)])%list ∧
  String.length kept = 2000%nat ∧
  JsString.substring0 1997 kept = JsString.substring0 1997 text ∧
  pendingRequests s' !! JsString.ofNumber messageId = None ∧
  (∀ arr0 arr,
     requestsBySession (state d) !! w_sessionId waiting = Some arr0 → NoDup arr0 →
     requestsBySession s' !! w_sessionId waiting = Some arr →
     JsString.ofNumber messageId ∉ arr).
Proof.
  intros Hpending Htype Halive Hlong out s' kept suffix.
  assert (Hinstr : truncateInstructions text = kept +:+ suffix).
  { unfold truncateInstructions. apply Nat.ltb_lt in Hlong as ->.
    subst kept suffix. by rewrite string_app_assoc. }
  split_and!.
  - subst out. unfold handleResponse. mrun. rewrite Hpending, Htype.
    unfold socketDestroyed in *.
    destruct (w_timeout waiting); dsimpl;
      destruct (socketToMessageIds d !! w_socket waiting); dsimpl;
      by rewrite Halive.
  - subst out. unfold handleResponse. mrun. rewrite Hpending, Htype.
    unfold socketDestroyed in *.
    destruct (w_timeout waiting); dsimpl;
      destruct (socketToMessageIds d !! w_socket waiting); dsimpl;
      by rewrite Halive.
  - subst out. unfold handleResponse. mrun. rewrite Hpending, Htype.
    unfold socketDestroyed in *.
    destruct (w_timeout waiting); dsimpl;
      destruct (socketToMessageIds d !! w_socket waiting); dsimpl;
      rewrite Halive; dsimpl; rewrite Hinstr, <- app_assoc; done.
  - subst kept. rewrite string_length_app, substring0_length; simpl; lia.
  - subst kept. clear -Hlong. 
    assert (Hgen : ∀ n s t, (n ≤ String.length s)%nat →
              JsString.substring0 n (JsString.substring0 n s +:+ t) = JsString.substring0 n s).
    { induction n as [|n IH]; intros s t Hn; [done |].
      destruct s as [|c s]; simpl in Hn; [lia |].
      cbn [JsString.substring0]. rewrite string_app_cons.
      cbn [JsString.substring0]. f_equal. apply IH. lia. }
    apply Hgen. lia.
  - apply (removeFromDualIndex_pending (JNum messageId)).
  - intros arr0 arr Harr0 Hnd Harr.
    by apply (removeFromDualIndex_requests (JNum messageId) (Some (w_sessionId waiting))
                (state d) arr0 arr).
Qed.

Lemma C8_witness :
  let waiting := stopWaiting (Example.frame "stop_request" "r4") 3%nat 0%nat in
  let pending := stopEntry (Example.sending 201) (Example.frame "stop_request" "r4") in
  let out := handleResponse Example.env 201 waiting (Some Example.longText) Example.stopAsked in
  checkRequestExists (state Example.stopAsked) (JNum 201) = Some pending ∧
  socketDestroyed 3%nat Example.stopAsked = false ∧
  (2000 < String.length Example.longText)%nat ∧
  out.1 = Val tt ∧
  String.length (JsString.substring0 1997 Example.longText +:+ "...") = 2000%nat.
Proof.
  intros waiting pending out.
  assert (Hpending : checkRequestExists (state Example.stopAsked) (JNum 201) = Some pending)
    by (vm_compute; reflexivity).
  assert (Halive : socketDestroyed (w_socket waiting) Example.stopAsked = false)
    by (vm_compute; reflexivity).
  assert (Hlong : (2000 < String.length Example.longText)%nat)
    by (apply Nat.ltb_lt; vm_compute; reflexivity).
  split_and!; [exact Hpending | exact Halive | exact Hlong | ..];
    destruct (C8_stop_reply_truncated Example.env Example.stopAsked 201 waiting pending
                Example.longText Hpending eq_refl Halive Hlong)
      as (Hval & _ & _ & Hkept & _);
    [exact Hval | exact Hkept].
Defined.

(** ** The session registry (C9) *)














(** ** Sessions without requests (C10) *)

Lemma requestsNonEmpty_invariant : StateInvariant requestsNonEmpty.
Proof.
  split; unfold requestsNonEmpty; simpl; try done.
  - intros m sid s Hs k arr. unfold removeFromDualIndex. simpl.
    destruct (requestsBySession s !! propKey sid) as [l|] eqn:Hl; simpl; [| apply Hs].
    destruct (removeFirst (jsString m) l) as [|y rest] eqn:Hrm; simpl.
    + destruct (decide (propKey sid = k)) as [->|Hne].
      * by rewrite lookup_delete_eq.
      * rewrite lookup_delete_ne by done. apply Hs.
    + destruct (decide (propKey sid = k)) as [->|Hne].
      * rewrite lookup_insert_eq. by intros [= <-].
      * rewrite lookup_insert_ne by done. apply Hs.
  - intros sid s Hs k arr. destruct (decide (sid = k)) as [->|Hne].
    + by rewrite lookup_delete_eq.
    + rewrite lookup_delete_ne by done. apply Hs.
Qed.

Lemma requestsNonEmpty_insert : keptByInsert requestsNonEmpty.
Proof.
  intros m sid p s Hs k arr. unfold insertIntoDualIndex. simpl.
  destruct (decide (sid = k)) as [->|Hne].
  - rewrite lookup_insert_eq. intros [= <-]. by destruct (default [] _).
  - rewrite lookup_insert_ne by done. apply Hs.
Qed.

Lemma handleSessionExpired_deletes_key env sessionId messageIds d :
  requestsBySession (state (handleSessionExpired env sessionId messageIds d).2) !! sessionId
  = None.
Proof.
  unfold handleSessionExpired, tryCatch.
  unfold mbind at 1, M_bind at 1, get at 1.
  unfold mbind at 1, M_bind at 1.
  assert (Hsend : ∃ d0, swallow (sendMessage env (chatId (state d)) msgSessionEnded) d
                        = (Val tt, d0) ∧ state d0 = state d).
  { unfold sendMessage. mrun. destruct (negb (tokenConfigured d)); [by eexists |].
    destruct (sendResult env _ _); by eexists. }
  destruct Hsend as (d0 & -> & Hd0).
  unfold mbind at 1, M_bind at 1.
  set (P := λ d' : Daemon, requestsBySession (state d') = requestsBySession (state d)).
  match goal with
  | |- context [forEach ?l ?f d0] =>
      destruct (forEach_keeps P l f d0) as [Hval Hkeep]
  end.
  - intros x d' Hd'. unfold deleteMessage. mrun.
    destruct (negb (tokenConfigured d')); dsimpl; unfold P; by dsimpl.
  - unfold P. by rewrite Hd0.
  - match goal with
    | |- context [forEach ?l ?f d0] => destruct (forEach l f d0) as [r d1]
    end.
    simpl in Hval, Hkeep. subst r. mrun. dsimpl. simpl. apply lookup_delete_eq.
Qed.

Lemma sendMessage_result env chat text d :
  ∃ r d', sendMessage env chat text d = (r, d') ∧ r ≠ Halt
          ∧ state d' = state d ∧ proc d' = proc d.
Proof.
  unfold sendMessage, mbind, M_bind, get. simpl.
  destruct (negb (tokenConfigured d)); simpl; [by eexists _, _ |].
  destruct (sendResult env chat text); simpl; by eexists _, _.
Qed.

Lemma quiet_notice env chat text : quiet (sendMessage env chat text;; mret tt).
Proof.
  intros d. unfold mbind at 1, M_bind at 1.
  destruct (sendMessage_result env chat text d) as (r & d1 & -> & Hr & Hs & Hp).
  destruct r as [a|e|]; simpl; [| | done]; by eexists _, _.
Qed.

Lemma quiet_forEach {A} (xs : list A) (f : A → M unit) :
  (∀ x, quiet (f x)) → quiet (forEach xs f).
Proof.
  intros Hf. induction xs as [|x xs IH]; intros d; simpl.
  - by eexists _, _.
  - unfold mbind at 1, M_bind at 1.
    destruct (Hf x d) as (r & d1 & -> & Hr & Hs & Hp).
    destruct r as [a|e|]; simpl; [| by eexists _, _ | done].
    destruct (IH d1) as (r' & d2 & -> & ? & ? & ?).
    eexists _, _. split; [done |]. split_and!; congruence.
Qed.

Lemma started_requests_empty env cfg hasToken loaded :
  proc (main env cfg hasToken loaded true) = Running →
  requestsBySession (state (main env cfg hasToken loaded true)) = ∅.
Proof.
  unfold main, dispatch, tryCatch, start.
  cbv [mbind M_bind mret M_ret get modify modifyState saveState emit negb].
  cbn [createDaemon proc state with_registry with_state with_effects with_running].
  destruct ((0 <? size (pendingRequests loaded))%nat
            || (0 <? size (requestsBySession loaded))%nat) eqn:Hany.
  - match goal with
    | |- context [if ?c then _ else _] => destruct c
    end; [| done].
    match goal with
    | |- context [forEach ?l ?f ?d] =>
        destruct (quiet_forEach l f (λ x, quiet_notice env (chatId loaded) _) d)
          as (r & d' & -> & Hr & Hs & Hp)
    end.
    destruct r as [a|e|]; simpl; [done | | done].
    intros; discriminate.
  - intros _. apply orb_false_elim in Hany as [_ Hrbs].
    apply Nat.ltb_ge in Hrbs. simpl. apply map_size_empty_iff. lia.
Qed.

(** C10: in every state the daemon reaches once it has started, no session id
    of requests-by-session is mapped to an empty sequence.  There,
    [removeFromDualIndex] of the only message id of a session deletes the
    key of the session, [handleSessionExpired] deletes the key of the
    session, and the insertion of a request appends its message id to the
    sequence of the session, an empty one if the session has no key. *)
Theorem C10_requests_by_session_never_empty d :
  reachable d →
  requestsNonEmpty (state d)
  ∧ (∀ m sid, requestsBySession (state d) !! propKey sid = Some [jsString m] →
       requestsBySession (removeFromDualIndex m sid (state d)) !! propKey sid = None)
  ∧ (∀ env sid ms,
       requestsBySession (state (handleSessionExpired env sid ms d).2) !! sid = None)
  ∧ (∀ m sid p,
       requestsBySession (insertIntoDualIndex m sid p (state d)) !! sid
       = Some (default [] (requestsBySession (state d) !! sid) ++ [m])%list).
Proof.
  intros Hreach. split_and!.
  - induction Hreach as [env cfg hasToken loaded Hrun | env ev d _ IH].
    + intros k arr. by rewrite (started_requests_empty _ _ _ _ Hrun), lookup_empty.
    + apply step_preserves;
        [apply requestsNonEmpty_invariant | apply requestsNonEmpty_insert | | done].
      right. intros c s Hs. apply Hs.
  - intros m sid Hone. unfold removeFromDualIndex. simpl. rewrite Hone. simpl.
    rewrite decide_True by done. simpl. apply lookup_delete_eq.
  - intros env sid ms. apply handleSessionExpired_deletes_key.
  - intros m sid p. unfold insertIntoDualIndex. simpl. apply lookup_insert_eq.
Qed.

Lemma C10_witness :
  reachable Example.askedAgain ∧ requestsNonEmpty (state Example.askedAgain).
Proof.
  assert (Hreach : reachable Example.askedAgain).
  { unfold Example.askedAgain, Example.asked, Example.enabled, Example.booted.
    do 3 apply reachable_step. apply reachable_started. reflexivity. }
  split; [exact Hreach |].
  apply (proj1 (C10_requests_by_session_never_empty Example.askedAgain Hreach)).
Defined.

(** * Further properties *)

(** ** Insertion-ordered maps and sets *)

Section jsmap.
Context {K V : Type} `{EqDecision K}.
Implicit Types (k : K) (v : V) (m : list (K * V)).

Lemma JsMap_get_None k m : JsMap.get k m = None ↔ ∀ v, (k, v) ∉ m.
Proof.
  induction m as [|[k' v'] m IH]; simpl.
  - split; [intros _ v; apply not_elem_of_nil | done].
  - destruct (decide (k = k')) as [->|Hne].
    + split; [done |]. intros Hall. destruct (Hall v'). apply elem_of_cons. by left.
    + rewrite IH. split.
      * intros Hall v [[= ? ?] | ?]%elem_of_cons; [done | by eapply Hall].
      * intros Hall v Hin. apply (Hall v), elem_of_cons. by right.
Qed.

Lemma JsMap_get_Some_elem k v m : JsMap.get k m = Some v → (k, v) ∈ m.
Proof.
  induction m as [|[k' v'] m IH]; simpl; [done |].
  destruct (decide (k = k')) as [->|Hne].
  - intros [= ->]. apply elem_of_cons. by left.
  - intros Hget. apply elem_of_cons. right. by apply IH.
Qed.

Lemma JsMap_get_set_eq k v m : JsMap.get k (JsMap.set k v m) = Some v.
Proof.
  induction m as [|[k' v'] m IH]; simpl.
  - by rewrite decide_True.
  - destruct (decide (k = k')) as [->|Hne]; simpl.
    + by rewrite decide_True.
    + by rewrite decide_False.
Qed.


Lemma JsMap_get_filter (P : K * V → Prop) `{∀ x, base.Decision (P x)} k m :
  (∀ v v', P (k, v) ↔ P (k, v')) →
  JsMap.get k (filter P m) = match JsMap.get k m with
                             | Some v => if decide (P (k, v)) then Some v else None
                             | None => None
                             end.
Proof.
  intros Hkey. induction m as [|[k' v'] m IH]; simpl; [done |].
  rewrite filter_cons. destruct (decide (P (k', v'))) as [HP|HP]; simpl.
  - destruct (decide (k = k')) as [->|Hne]; [by rewrite decide_True | apply IH].
  - destruct (decide (k = k')) as [->|Hne]; [| apply IH].
    rewrite decide_False by done. rewrite IH.
    destruct (JsMap.get k' m) as [v|]; [| done].
    rewrite decide_False; [done |]. by rewrite (Hkey v v').
Qed.

Lemma JsMap_get_delete_eq k m : JsMap.get k (JsMap.delete k m) = None.
Proof.
  apply JsMap_get_None. intros v [Hne _]%list_elem_of_filter. by apply Hne.
Qed.

Lemma JsMap_get_delete_ne k k' m :
  k ≠ k' → JsMap.get k' (JsMap.delete k m) = JsMap.get k' m.
Proof.
  intros Hne. unfold JsMap.delete.
  induction m as [|[k0 v0] m IH]; simpl; [done |].
  rewrite filter_cons. simpl. destruct (decide (k0 ≠ k)) as [Hk|Hk]; simpl.
  - destruct (decide (k' = k0)); [done | apply IH].
  - apply dec_stable in Hk as ->. by rewrite decide_False.
Qed.

Lemma JsMap_length_set k v m :
  List.length (JsMap.set k v m)
  = match JsMap.get k m with Some _ => List.length m | None => S (List.length m) end.
Proof.
  induction m as [|[k' v'] m IH]; simpl; [done |].
  destruct (decide (k = k')); simpl; [done |]. rewrite IH. by destruct (JsMap.get k m).
Qed.

Lemma JsMap_delete_absent k m : JsMap.get k m = None → JsMap.delete k m = m.
Proof.
  intros Hnone. unfold JsMap.delete.
  induction m as [|[k' v'] m IH]; simpl in *; [done |].
  destruct (decide (k = k')) as [->|Hne]; [done |].
  rewrite filter_cons. simpl. rewrite decide_True by done. by rewrite IH.
Qed.

Lemma JsMap_delete_set_absent k v m :
  JsMap.get k m = None → JsMap.delete k (JsMap.set k v m) = m.
Proof.
  intros Hnone. unfold JsMap.delete.
  induction m as [|[k' v'] m IH]; simpl in *.
  - rewrite filter_cons. simpl. by rewrite decide_False by (by intros ?).
  - destruct (decide (k = k')) as [->|Hne]; [done |].
    rewrite filter_cons. simpl. rewrite decide_True by done. by rewrite IH.
Qed.
End jsmap.

Section jsset.
Context {K : Type} `{EqDecision K}.
Implicit Types (k : K) (s : list K).

Lemma JsSet_has_add k k' s :
  JsSet.has k' (JsSet.add k s) = bool_decide (k' = k) || JsSet.has k' s.
Proof.
  unfold JsSet.add, JsSet.has.
  destruct (bool_decide (k ∈ s)) eqn:Hin.
  - apply bool_decide_eq_true in Hin.
    destruct (bool_decide_reflect (k' = k)) as [->|]; [| done].
    simpl. by apply bool_decide_eq_true.
  - destruct (bool_decide_reflect (k' = k)) as [->|Hne]; simpl.
    + apply bool_decide_eq_true, elem_of_app. right. by apply list_elem_of_singleton.
    + apply bool_decide_ext. rewrite elem_of_app, list_elem_of_singleton. tauto.
Qed.

Lemma JsSet_has_delete k k' s :
  JsSet.has k' (JsSet.delete k s) = negb (bool_decide (k' = k)) && JsSet.has k' s.
Proof.
  unfold JsSet.delete, JsSet.has.
  destruct (bool_decide_reflect (k' = k)) as [->|Hne]; simpl.
  - apply bool_decide_eq_false. by intros [? _]%list_elem_of_filter.
  - apply bool_decide_ext. rewrite list_elem_of_filter. tauto.
Qed.

Lemma JsSet_add_NoDup k s : NoDup s → NoDup (JsSet.add k s).
Proof.
  intros Hnd. unfold JsSet.add, JsSet.has. case_bool_decide as Hin; [done |].
  apply NoDup_app. split_and!; [done | | apply NoDup_singleton].
  intros x Hx ->%list_elem_of_singleton. done.
Qed.

Lemma JsSet_delete_NoDup k s : NoDup s → NoDup (JsSet.delete k s).
Proof. apply NoDup_filter. Qed.

Lemma JsSet_add_all_NoDup (xs : list K) s :
  NoDup s → NoDup (foldl (λ s x, JsSet.add x s) s xs).
Proof.
  revert s. induction xs as [|x xs IH]; intros s Hnd; simpl; [done |].
  by apply IH, JsSet_add_NoDup.
Qed.

Lemma JsSet_add_all_id (xs : list K) s :
  xs ⊆ s → foldl (λ s x, JsSet.add x s) s xs = s.
Proof.
  induction xs as [|x xs IH]; intros Hsub; simpl; [done |].
  unfold JsSet.add at 2, JsSet.has. rewrite bool_decide_eq_true_2.
  - apply IH. intros y Hy. apply Hsub, elem_of_cons. by right.
  - apply Hsub, elem_of_cons. by left.
Qed.

Lemma JsSet_add_all_fresh (xs : list K) s :
  NoDup xs → (∀ x, x ∈ xs → x ∉ s) → foldl (λ s x, JsSet.add x s) s xs = (s ++ xs)%list.
Proof.
  revert s. induction xs as [|x xs IH]; intros s Hnd Hfresh; simpl.
  - by rewrite app_nil_r.
  - apply NoDup_cons in Hnd as [Hx Hnd].
    unfold JsSet.add at 2, JsSet.has. rewrite bool_decide_eq_false_2.
    + rewrite IH; [by rewrite <- app_assoc | done |].
      intros y Hy [Hin | ->%list_elem_of_singleton]%elem_of_app; [| done].
      apply (Hfresh y); [apply elem_of_cons; by right | done].
    + apply Hfresh, elem_of_cons. by left.
Qed.
End jsset.

(** ** The session registry: lookups, AFK flags, pending requests *)



Lemma startsWith_app (p s : string) : JsString.startsWith p (p +:+ s) = true.
Proof.
  induction p as [|c p IH]; simpl; [by destruct s |].
  by rewrite decide_True.
Qed.

(** X2: [unregister] of a registered session removes its registration, its
    token, its AFK flag and its pending requests, and leaves the
    registration and the AFK flag of every other session alone; for a
    session that is not registered it changes nothing, not even an AFK flag
    or a pending request that the session has. *)
Theorem X2_unregister_forgets sessionId r :
  let r' := Sessions.unregister sessionId r in
  match Sessions.sessionsBySessionId r !! sessionId with
  | Some session =>
      Sessions.getBySessionId sessionId r' = None
      ∧ Sessions.getByToken (Sessions.sd_token session) r' = None
      ∧ Sessions.isAfkEnabled sessionId r' = false
      ∧ (∀ m p, Sessions.getPendingByMessageId m r' = Some p →
                Sessions.rp_sessionId p ≠ sessionId)
      ∧ (∀ tool command,
           Sessions.getPendingBySessionAndTool sessionId tool command r' = None)
      ∧ (∀ other, other ≠ sessionId →
           Sessions.getBySessionId other r' = Sessions.getBySessionId other r
           ∧ Sessions.isAfkEnabled other r' = Sessions.isAfkEnabled other r)
  | None => r' = r
  end.
Proof.
  unfold Sessions.unregister.
  destruct (Sessions.sessionsBySessionId r !! sessionId) as [session|] eqn:Hs; simpl; [| done].
  unfold Sessions.getBySessionId, Sessions.getByToken, Sessions.isAfkEnabled,
    Sessions.getPendingByMessageId, Sessions.getPendingBySessionAndTool. simpl.
  rewrite !lookup_delete_eq. split_and!.
  - done.
  - done.
  - rewrite JsSet_has_delete. by rewrite bool_decide_eq_true_2.
  - intros m p Hget. apply JsMap_get_Some_elem in Hget.
    by apply list_elem_of_filter in Hget as [? _].
  - intros tool command.
    replace (filter _ (Sessions.pendingKeyToMessageId r) !! _) with (@None jsval); [done |].
    symmetry. apply map_lookup_filter_None. right. intros k _. simpl.
    unfold Sessions.makePendingKey.
    rewrite <- (string_app_assoc sessionId ":"). by rewrite startsWith_app.
  - intros other Hne. rewrite lookup_delete_ne by done. split; [done |].
    rewrite JsSet_has_delete. by rewrite bool_decide_eq_false_2.
Qed.

Lemma calls_afk_NoDup cs r :
  NoDup (Sessions.afkEnabledSessions r) →
  NoDup (Sessions.afkEnabledSessions (calls cs r)).
Proof.
  unfold calls. revert r. induction cs as [|c cs IH]; intros r Hnd; simpl; [done |].
  apply IH. destruct c; simpl.
  - unfold Sessions.register. by destruct (Sessions.sessionsBySessionId r !! _).
  - unfold Sessions.unregister.
    destruct (Sessions.sessionsBySessionId r !! _); simpl; [| done].
    by apply JsSet_delete_NoDup.
  - by apply JsSet_add_NoDup.
  - by apply JsSet_delete_NoDup.
  - done.
  - unfold Sessions.removePendingByMessageId. by destruct (JsMap.get _ _).
  - by apply JsSet_add_all_NoDup.
Qed.

(** X3: the AFK flags behave as a set: [enableAfk] sets the flag of one
    session, [disableAfk] clears it, neither touches another session, enabling
    twice is enabling once, and whatever calls the registry has received,
    [getAfkEnabledSessions] lists no session twice. *)
Theorem X3_afk_flags sessionId other r cs :
  Sessions.isAfkEnabled other (Sessions.enableAfk sessionId r)
    = bool_decide (other = sessionId) || Sessions.isAfkEnabled other r
  ∧ Sessions.isAfkEnabled other (Sessions.disableAfk sessionId r)
    = negb (bool_decide (other = sessionId)) && Sessions.isAfkEnabled other r
  ∧ Sessions.enableAfk sessionId (Sessions.enableAfk sessionId r)
    = Sessions.enableAfk sessionId r
  ∧ NoDup (Sessions.getAfkEnabledSessions (calls cs Sessions.empty)).
Proof.
  split_and!.
  - apply JsSet_has_add.
  - apply JsSet_has_delete.
  - unfold Sessions.enableAfk. simpl. f_equal.
    unfold JsSet.add at 1. by rewrite JsSet_has_add, bool_decide_eq_true_2.
  - apply calls_afk_NoDup, NoDup_nil_2.
Qed.

(** X4: a pending request that was added is found by its message id and by
    its session, tool and command; once [removePendingByMessageId] has
    removed it, both lookups find nothing; and when the message id was not
    in use, adding raises [getPendingCount] by one and removing gives back
    the map of pending requests as it was. *)
Theorem X4_pending_round_trip sessionId messageId tool command requestId retryCount
    firstRequestAt r :
  let r' := Sessions.addPendingRequest sessionId messageId tool command requestId retryCount
              firstRequestAt r in
  let pending :=
    {| Sessions.rp_sessionId := sessionId; Sessions.rp_messageId := messageId;
       Sessions.rp_tool := tool; Sessions.rp_command := command;
       Sessions.rp_requestId := requestId; Sessions.rp_retryCount := retryCount;
       Sessions.rp_firstRequestAt := firstRequestAt |} in
  let r'' := Sessions.removePendingByMessageId messageId r' in
  Sessions.getPendingByMessageId messageId r' = Some pending
  ∧ Sessions.getPendingBySessionAndTool sessionId tool command r' = Some pending
  ∧ Sessions.getPendingByMessageId messageId r'' = None
  ∧ Sessions.getPendingBySessionAndTool sessionId tool command r'' = None
  ∧ (Sessions.getPendingByMessageId messageId r = None →
     Sessions.getPendingCount r' = S (Sessions.getPendingCount r)
     ∧ Sessions.pendingByMessageId r'' = Sessions.pendingByMessageId r).
Proof.
  unfold Sessions.getPendingByMessageId, Sessions.getPendingBySessionAndTool,
    Sessions.removePendingByMessageId, Sessions.addPendingRequest, Sessions.getPendingCount.
  simpl. rewrite !JsMap_get_set_eq, !lookup_insert_eq. simpl.
  rewrite JsMap_get_set_eq, JsMap_get_delete_eq, lookup_delete_eq.
  split_and!; try done.
  intros Hfresh. rewrite JsMap_length_set, Hfresh. split; [done |].
  by apply JsMap_delete_set_absent.
Qed.


(** X6: [exportState().pendingRequests] holds one entry per session that has
    pending requests, and the entry of a session describes the pending
    request of that session that was inserted last; the other pending
    requests of the session are not exported. *)
Theorem X6_exportState_keeps_last r sessionId :
  Sessions.exportPendingRequests r !! sessionId
  = (λ pending,
       {| Sessions.ex_messageId := Sessions.rp_messageId pending;
          Sessions.ex_tool := Sessions.rp_tool pending;
          Sessions.ex_command := Sessions.rp_command pending;
          Sessions.ex_retryCount := Sessions.rp_retryCount pending;
          Sessions.ex_firstRequestAt := Sessions.rp_firstRequestAt pending |})
    <$> last (filter (λ pending, Sessions.rp_sessionId pending = sessionId)
                     (Sessions.pendingByMessageId r).*2).
Proof.
  unfold Sessions.exportPendingRequests.
  induction (Sessions.pendingByMessageId r) as [|[m p] l IH] using rev_ind; [done |].
  rewrite foldl_app, fmap_app, filter_app. simpl.
  rewrite filter_cons, filter_nil.
  destruct (decide (Sessions.rp_sessionId p = sessionId)) as [Heq|Hne].
  - rewrite Heq, lookup_insert_eq, last_snoc. done.
  - rewrite lookup_insert_ne by done. by rewrite app_nil_r.
Qed.

(** X7: the AFK sessions survive an export followed by an import into a
    fresh registry, in the same order; the pending requests do not: the
    fresh registry has none after the import. *)
Theorem X7_afk_export_import cs :
  let r := calls cs Sessions.empty in
  let r' := Sessions.importState (Sessions.exportAfkSessions r) Sessions.empty in
  Sessions.getAfkEnabledSessions r' = Sessions.getAfkEnabledSessions r
  ∧ (∀ sessionId, Sessions.isAfkEnabled sessionId r' = Sessions.isAfkEnabled sessionId r)
  ∧ Sessions.getPendingCount r' = 0%nat.
Proof.
  intros r r'.
  assert (Hlist : Sessions.getAfkEnabledSessions r' = Sessions.getAfkEnabledSessions r).
  { unfold r', Sessions.importState, Sessions.exportAfkSessions,
      Sessions.getAfkEnabledSessions. simpl.
    rewrite JsSet_add_all_fresh; [done | |].
    - apply calls_afk_NoDup, NoDup_nil_2.
    - intros x _. apply not_elem_of_nil. }
  split_and!; [done | | done].
  intros sessionId. unfold Sessions.isAfkEnabled.
  unfold Sessions.getAfkEnabledSessions in Hlist. by rewrite Hlist.
Qed.

(** ** The dual index: insertion, removal, lookup *)

Lemma removeFirst_snoc_fresh x arr : x ∉ arr → removeFirst x (arr ++ [x]) = arr.
Proof.
  induction arr as [|y arr IH]; simpl; intros Hx.
  - by rewrite decide_True.
  - apply not_elem_of_cons in Hx as [Hne Hx]. rewrite decide_False by done.
    by rewrite IH.
Qed.




(** X8: removing a request that has just been inserted gives back the state:
    [removeFromDualIndex] undoes the insertion of a message id that was not
    pending and not listed under the session, provided the session is not
    mapped to an empty array. *)
Theorem X8_insert_then_remove m sessionId p s :
  pendingRequests s !! m = None →
  m ∉ default [] (requestsBySession s !! sessionId) →
  requestsBySession s !! sessionId ≠ Some [] →
  removeFromDualIndex (JStr m) (Some sessionId) (insertIntoDualIndex m sessionId p s) = s.
Proof.
  intros Hfresh Hlisted Hnonempty.
  destruct s as [chat afk pend rbs wl].
  unfold removeFromDualIndex, insertIntoDualIndex, set_requestsBySession,
    set_pendingRequests. simpl in *.
  rewrite lookup_insert_eq, removeFirst_snoc_fresh by done.
  rewrite delete_insert_id by done.
  destruct (rbs !! sessionId) as [arr|] eqn:Harr; simpl.
  - destruct arr as [|y arr]; [done |]. simpl.
    f_equal. rewrite insert_insert_eq. by apply insert_id.
  - f_equal. by apply delete_insert_id.
Qed.

Lemma X8_witness :
  let p := permissionEntry Example.env (Example.frame "permission_request" "r2") 0 in
  let s := state Example.stopAsked in
  pendingRequests s !! "101" = None
  ∧ removeFromDualIndex (JStr "101") (Some "S") (insertIntoDualIndex "101" "S" p s) = s.
Proof.
  intros p s.
  assert (Hfresh : pendingRequests s !! "101" = None) by (vm_compute; reflexivity).
  split; [exact Hfresh |].
  apply (X8_insert_then_remove "101" "S" p s Hfresh).
  - vm_compute. intros Hin. by apply list_elem_of_singleton in Hin.
  - vm_compute. discriminate.
Defined.



Lemma head_omap_first {A B} (f : A → option B) (l : list A) :
  match head (omap f l) with
  | Some b =>
      ∃ before a after,
        l = (before ++ a :: after)%list ∧ f a = Some b ∧ ∀ x, x ∈ before → f x = None
  | None => ∀ x, x ∈ l → f x = None
  end.
Proof.
  induction l as [|a l IH].
  - intros x Hx. by apply elem_of_nil in Hx.
  - change (omap f (a :: l)) with (match f a with Some b => b :: omap f l | None => omap f l end).
    destruct (f a) as [b|] eqn:Hfa; simpl.
    + exists [], a, l. split_and!; [done | done |]. intros x Hx. by apply elem_of_nil in Hx.
    + destruct (head (omap f l)) as [b|].
      * destruct IH as (before & a' & after & -> & Ha' & Hbefore).
        exists (a :: before), a', after. split_and!; [done | done |].
        intros x [-> | Hx]%elem_of_cons; [done | by apply Hbefore].
      * intros x [-> | Hx]%elem_of_cons; [done | by apply IH].
Qed.


(** ** The chat adapter: fresh updates, the highest update id, retries *)

(** X11: [getUpdates] never drops a fresh update: an update whose date is at
    most the staleness threshold old, or that has no message or no date, is
    kept; the updates that are kept come in the order in which the chat
    service sent them; and filtering what was kept drops nothing more. *)
Theorem X11_fresh_updates_kept now_ms threshold updates :
  let kept := Telegram.filterUpdates now_ms threshold updates in
  (∀ u, u ∈ updates → isStale now_ms threshold u = false → u ∈ kept)
  ∧ sublist kept updates
  ∧ Telegram.filterUpdates now_ms threshold kept = kept.
Proof.
  unfold Telegram.filterUpdates. split_and!.
  - intros u Hin Hfresh. apply list_elem_of_filter. split; [| done].
    unfold isStale, Telegram.keepUpdate in *.
    destruct (Telegram.message u) as [msg|]; [| done].
    destruct (Telegram.date msg) as [date|]; [| done].
    destruct (Telegram.truthyNum date); [| done].
    apply bool_decide_eq_false in Hfresh. apply bool_decide_eq_true. lia.
  - apply sublist_filter.
  - apply list_filter_filter_l. done.
Qed.

Lemma foldl_max_ge (z : Z) (zs : list Z) :
  z <= foldl Z.max z zs ∧ ∀ x, x ∈ zs → x <= foldl Z.max z zs.
Proof.
  revert z. induction zs as [|y zs IH]; intros z; simpl.
  - split; [lia |]. intros x Hx. by apply elem_of_nil in Hx.
  - destruct (IH (Z.max z y)) as [Hz Hall]. split; [lia |].
    intros x [-> | Hx]%elem_of_cons; [lia | by apply Hall].
Qed.

Lemma foldl_max_in (z : Z) (zs : list Z) : foldl Z.max z zs ∈ z :: zs.
Proof.
  revert z. induction zs as [|y zs IH]; intros z; simpl.
  - apply elem_of_cons. by left.
  - specialize (IH (Z.max z y)). apply elem_of_cons in IH as [Heq | Hin].
    + rewrite Heq. destruct (Z.max_spec z y) as [[_ ->] | [_ ->]].
      * apply elem_of_cons. right. apply elem_of_cons. by left.
      * apply elem_of_cons. by left.
    + apply elem_of_cons. right. apply elem_of_cons. by right.
Qed.

(** X12: [getMaxUpdateId] returns [null] exactly for an empty array;
    otherwise it returns the update id of one of the updates, and no update
    has a higher one. *)
Theorem X12_getMaxUpdateId updates :
  match Telegram.getMaxUpdateId updates with
  | None => updates = []
  | Some top =>
      (∃ u, u ∈ updates ∧ Telegram.update_id u = top)
      ∧ ∀ u, u ∈ updates → Telegram.update_id u <= top
  end.
Proof.
  destruct updates as [|u us]; simpl; [done |].
  destruct (foldl_max_ge (Telegram.update_id u) (Telegram.update_id <$> us)) as [Hu Hus].
  split.
  - pose proof (foldl_max_in (Telegram.update_id u) (Telegram.update_id <$> us)) as Hin.
    apply elem_of_cons in Hin as [Heq | Hin].
    + exists u. split; [apply elem_of_cons; by left | done].
    + apply list_elem_of_fmap in Hin as (u' & Heq & Hin').
      exists u'. split; [apply elem_of_cons; by right | done].
  - intros u' [-> | Hin]%elem_of_cons; [done |].
    apply Hus, list_elem_of_fmap. by exists u'.
Qed.

Lemma apiAttempts_spec {A} retryDelay (outcome : nat → Telegram.FetchOutcome A) attempt more :
  let out := Telegram.apiAttempts retryDelay outcome attempt more in
  let k := List.length out.2 in
  (k ≤ more)%nat
  ∧ out.2 = (λ i, retryDelay * 2 ^ Z.of_nat i) <$> seq attempt k
  ∧ (∀ i, (attempt ≤ i < attempt + k)%nat →
       ∃ msg, outcome i = Telegram.FetchFailed msg
              ∧ JsString.includes msg "Telegram API error" = false)
  ∧ match outcome (attempt + k)%nat with
    | Telegram.FetchOk result => out.1 = Telegram.ApiOk result
    | Telegram.FetchNotOk description => out.1 = Telegram.ApiNotOk description
    | Telegram.FetchFailed msg =>
        out.1 = Telegram.ApiNetworkError msg
        ∧ (JsString.includes msg "Telegram API error" = true ∨ k = more)
    end.
Proof.
  intros out k. subst out k. revert attempt more.
  assert (Hstop : ∀ attempt more r,
            Telegram.apiAttempts retryDelay outcome attempt more = (r, []) →
            match outcome attempt with
            | Telegram.FetchOk result => r = Telegram.ApiOk result
            | Telegram.FetchNotOk description => r = Telegram.ApiNotOk description
            | Telegram.FetchFailed msg =>
                r = Telegram.ApiNetworkError msg
                ∧ (JsString.includes msg "Telegram API error" = true ∨ 0%nat = more)
            end →
            let out := Telegram.apiAttempts retryDelay outcome attempt more in
            let k := List.length out.2 in
            (k ≤ more)%nat
            ∧ out.2 = (λ i, retryDelay * 2 ^ Z.of_nat i) <$> seq attempt k
            ∧ (∀ i, (attempt ≤ i < attempt + k)%nat →
                 ∃ msg, outcome i = Telegram.FetchFailed msg
                        ∧ JsString.includes msg "Telegram API error" = false)
            ∧ match outcome (attempt + k)%nat with
              | Telegram.FetchOk result => out.1 = Telegram.ApiOk result
              | Telegram.FetchNotOk description => out.1 = Telegram.ApiNotOk description
              | Telegram.FetchFailed msg =>
                  out.1 = Telegram.ApiNetworkError msg
                  ∧ (JsString.includes msg "Telegram API error" = true ∨ k = more)
              end).
  { intros attempt more r Hrun Hlast. simpl. rewrite Hrun. simpl.
    rewrite Nat.add_0_r. split; [lia |]. split; [done |]. split; [intros; lia | done]. }
  intros attempt more. revert attempt. induction more as [|more IH]; intros attempt.
  - destruct (outcome attempt) as [result|description|msg] eqn:Hout.
    + eapply Hstop; [simpl; by rewrite Hout | by rewrite Hout].
    + eapply Hstop; [simpl; by rewrite Hout | by rewrite Hout].
    + destruct (JsString.includes msg "Telegram API error") eqn:Hmark.
      * eapply Hstop; [simpl; by rewrite Hout, Hmark | rewrite Hout; split; [done | by left]].
      * eapply Hstop; [simpl; by rewrite Hout, Hmark | rewrite Hout; split; [done | by right]].
  - destruct (outcome attempt) as [result|description|msg] eqn:Hout.
    + eapply Hstop; [simpl; by rewrite Hout | by rewrite Hout].
    + eapply Hstop; [simpl; by rewrite Hout | by rewrite Hout].
    + destruct (JsString.includes msg "Telegram API error") eqn:Hmark.
      * eapply Hstop; [simpl; by rewrite Hout, Hmark | rewrite Hout; split; [done | by left]].
      * specialize (IH (S attempt)). simpl. rewrite Hout, Hmark.
        destruct (Telegram.apiAttempts retryDelay outcome (S attempt) more) as [r delays].
        simpl in *. destruct IH as (Hlen & Hdelays & Hfailed & Hlast).
        split; [lia |]. split; [by rewrite Hdelays at 1 |]. split.
        -- intros i Hi. destruct (decide (i = attempt)) as [->|Hne]; [by exists msg |].
           apply Hfailed. lia.
        -- replace (attempt + S (List.length delays))%nat
             with (S (attempt + List.length delays))%nat by lia.
           destruct (outcome (S (attempt + List.length delays))); [done | done |].
           destruct Hlast as [Hr Hwhy]. split; [done |].
           destruct Hwhy; [by left | right; lia].
Qed.

(** X13: how [apiRequest] retries.  It waits [retryDelay], twice that, four
    times that and so on between attempts, at most [retries] times; every
    attempt before the last one made failed with a network error; the call
    returns the result of the last attempt made when that succeeded, throws
    at once (no retry) when the service answered with [ok: false] or the
    error message contains [Telegram API error], and after [retries + 1]
    network failures throws the last of them. *)
Theorem X13_apiRequest_retries {A} retryDelay retries
    (outcome : nat → Telegram.FetchOutcome A) :
  let out := Telegram.apiRequest retryDelay retries outcome in
  let k := List.length out.2 in
  (k ≤ retries)%nat
  ∧ out.2 = (λ i, retryDelay * 2 ^ Z.of_nat i) <$> seq 0 k
  ∧ (∀ i, (i < k)%nat →
       ∃ msg, outcome i = Telegram.FetchFailed msg
              ∧ JsString.includes msg "Telegram API error" = false)
  ∧ match outcome k with
    | Telegram.FetchOk result => out.1 = Telegram.ApiOk result
    | Telegram.FetchNotOk description => out.1 = Telegram.ApiNotOk description
    | Telegram.FetchFailed msg =>
        out.1 = Telegram.ApiNetworkError msg
        ∧ (JsString.includes msg "Telegram API error" = true ∨ k = retries)
    end.
Proof.
  destruct (apiAttempts_spec retryDelay outcome 0 retries) as (Hlen & Hdelays & Hfailed & Hlast).
  unfold Telegram.apiRequest. split_and!; [done | done | | done].
  intros i Hi. apply Hfailed. lia.
Qed.

(** ** The transcript probe *)


Lemma scanToolResult_app toolUseId i l1 l2 :
  Transcript.scanToolResult toolUseId i l1 = None →
  Transcript.scanToolResult toolUseId i (l1 ++ l2)
  = Transcript.scanToolResult toolUseId (i + List.length l1) l2.
Proof.
  revert i. induction l1 as [|l l1 IH]; intros i; simpl.
  - by rewrite Nat.add_0_r.
  - destruct (Transcript.lineToolResult toolUseId l); [done |].
    intros Hnone. rewrite IH by done. f_equal. lia.
Qed.

Lemma scanUserMessage_app i l1 l2 :
  Transcript.scanUserMessage i l1 = None →
  Transcript.scanUserMessage i (l1 ++ l2)
  = Transcript.scanUserMessage (i + List.length l1) l2.
Proof.
  revert i. induction l1 as [|l l1 IH]; intros i; simpl.
  - by rewrite Nat.add_0_r.
  - destruct (Transcript.lineUserMessage l); [done |].
    intros Hnone. rewrite IH by done. f_equal. lia.
Qed.


(** X15: polling by offset misses nothing.  When a scan of the transcript
    from [afterOffset] (not beyond its end) found nothing, scanning the
    transcript after lines have been appended from the offset that the
    first scan returned gives what a scan from [afterOffset] gives, for
    [findToolResult] and for [findUserMessage]. *)
Theorem X15_polling_by_offset lines appended toolUseId afterOffset :
  (afterOffset ≤ List.length lines)%nat →
  (∀ r, Transcript.findToolResult (Some lines) toolUseId afterOffset = Some r →
        Transcript.tr_found r = false →
        Transcript.findToolResult (Some (lines ++ appended)%list) toolUseId (Transcript.tr_offset r)
        = Transcript.findToolResult (Some (lines ++ appended)%list) toolUseId afterOffset)
  ∧ (∀ r, Transcript.findUserMessage (Some lines) afterOffset = Some r →
          Transcript.um_found r = false →
          Transcript.findUserMessage (Some (lines ++ appended)%list) (Transcript.um_offset r)
          = Transcript.findUserMessage (Some (lines ++ appended)%list) afterOffset).
Proof.
  intros Hle. split.
  - unfold Transcript.findToolResult. intros r [= <-].
    destruct (Transcript.scanToolResult toolUseId afterOffset (drop afterOffset lines))
      as [[isError offset]|] eqn:Hscan; simpl; [done |]. intros _.
    rewrite drop_app_length, (drop_app_le _ _ afterOffset) by done.
    rewrite (scanToolResult_app _ _ _ _ Hscan), length_drop.
    by replace (afterOffset + (List.length lines - afterOffset))%nat
      with (List.length lines) by lia.
  - unfold Transcript.findUserMessage. intros r [= <-].
    destruct (Transcript.scanUserMessage afterOffset (drop afterOffset lines))
      as [[content offset]|] eqn:Hscan; simpl; [done |]. intros _.
    rewrite drop_app_length, (drop_app_le _ _ afterOffset) by done.
    rewrite (scanUserMessage_app _ _ _ Hscan), length_drop.
    by replace (afterOffset + (List.length lines - afterOffset))%nat
      with (List.length lines) by lia.
Qed.

Lemma X15_witness :
  let lines := [None; None] in
  Transcript.findToolResult (Some (lines ++ Example.resolvedTranscript)%list) (Some "toolu_1") 2
  = Transcript.findToolResult (Some (lines ++ Example.resolvedTranscript)%list) (Some "toolu_1") 1.
Proof.
  intros lines.
  exact (proj1 (X15_polling_by_offset lines Example.resolvedTranscript (Some "toolu_1") 1
                  ltac:(simpl; lia))
           {| Transcript.tr_found := false; Transcript.tr_isError := false;
              Transcript.tr_offset := 2 |} eq_refl eq_refl).
Defined.

Lemma limitLength_bound n text :
  (3 ≤ n)%nat → (String.length (Transcript.limitLength (Some n) text) ≤ n)%nat.
Proof.
  intros Hn. unfold Transcript.limitLength.
  destruct (n =? 0)%nat eqn:Hz; [apply Nat.eqb_eq in Hz; lia |]. simpl.
  destruct (n <? String.length text)%nat eqn:Hlt.
  - apply Nat.ltb_lt in Hlt. rewrite string_length_app, substring0_length by lia. simpl. lia.
  - apply Nat.ltb_ge in Hlt. done.
Qed.

Lemma lineText_bound role n l text :
  (3 ≤ n)%nat → Transcript.lineText role (Some n) l = Some text →
  (String.length text ≤ n)%nat.
Proof.
  intros Hn. unfold Transcript.lineText.
  destruct l as [entry|]; [| done].
  destruct (bool_decide _); [| done].
  destruct (Transcript.me_content entry) as [content|]; [| done].
  destruct (Transcript.contentTruthy content); [| done].
  destruct (Transcript.contentText content) as [t|]; [| done].
  destruct (JsString.truthy t && JsString.truthy (JsString.trim t)); [| done].
  intros [= <-]. by apply limitLength_bound.
Qed.

Lemma lastText_last role maxLength lines :
  match Transcript.lastText role maxLength lines with
  | Some text =>
      ∃ before l after,
        lines = (before ++ l :: after)%list
        ∧ Transcript.lineText role maxLength l = Some text
        ∧ ∀ l', l' ∈ after → Transcript.lineText role maxLength l' = None
  | None => ∀ l, l ∈ lines → Transcript.lineText role maxLength l = None
  end.
Proof.
  unfold Transcript.lastText.
  pose proof (head_omap_first (Transcript.lineText role maxLength) (reverse lines)) as Hfirst.
  destruct (head (omap _ (reverse lines))) as [text|].
  - destruct Hfirst as (before & l & after & Hrev & Hl & Hbefore).
    exists (reverse after), l, (reverse before). split_and!; [| done |].
    + rewrite <- (reverse_involutive lines), Hrev, reverse_app, reverse_cons.
      by rewrite <- app_assoc.
    + intros l' Hin. apply Hbefore. by apply elem_of_reverse.
  - intros l Hin. apply Hfirst. by apply elem_of_reverse.
Qed.

(** X16: the context that [getLastClaudeMessage] or [getLastUserMessage]
    returns for a limit [maxLength] of at least 3 has at most [maxLength]
    characters, and it is the text (cut to the limit) of the last line of the
    transcript that is an entry of the role with a non-blank text: no later
    line has one. *)
Theorem X16_context_last_and_bounded lines n text :
  (3 ≤ n)%nat →
  Transcript.getLastClaudeMessage (Some lines) (Some n) = Some text
  ∨ Transcript.getLastUserMessage (Some lines) (Some n) = Some text →
  (String.length text ≤ n)%nat
  ∧ ∃ role before l after,
      lines = (before ++ l :: after)%list
      ∧ Transcript.lineText role (Some n) l = Some text
      ∧ ∀ l', l' ∈ after → Transcript.lineText role (Some n) l' = None.
Proof.
  intros Hn Hlast.
  assert (Hrole : ∃ role, Transcript.lastText role (Some n) lines = Some text).
  { destruct Hlast as [H | H]; [by exists "assistant" | by exists "user"]. }
  destruct Hrole as [role Hrole].
  pose proof (lastText_last role (Some n) lines) as Hspec. rewrite Hrole in Hspec.
  destruct Hspec as (before & l & after & Hlines & Hl & Hafter).
  split; [by eapply lineText_bound | by exists role, before, l, after].
Qed.

Lemma X16_witness :
  let long := replicate 600 "a" in
  let lines :=
    [Some {| Transcript.me_type := "assistant";
             Transcript.me_content := Some (Transcript.MString long) |};
     Some {| Transcript.me_type := "assistant";
             Transcript.me_content :=
               Some (Transcript.MBlocks [{| Transcript.tb_type := "tool_use";
                                            Transcript.tb_text := None |}]) |}] in
  Transcript.getLastClaudeMessage (Some lines) (Some 500%nat)
    = Some (replicate 497 "a" +:+ "...")
  ∧ (String.length (replicate 497 "a" +:+ "...") ≤ 500)%nat.
Proof.
  intros long lines.
  assert (Hget : Transcript.getLastClaudeMessage (Some lines) (Some 500%nat)
                 = Some (replicate 497 "a" +:+ "...")) by (vm_compute; reflexivity).
  split; [exact Hget |].
  exact (proj1 (X16_context_last_and_bounded lines 500 _ ltac:(lia) (or_introl Hget))).
Defined.

(** ** The framing of the pipe *)








Section receive.
Context {A : Type} (parse : string → option A) (stringify : A → string).





End receive.




(** ** Escaping for the chat *)

Lemma specialsEscaped_escape previous text :
  specialsEscaped previous (escapeMarkdown text) = true.
Proof.
  revert previous. induction text as [|c text IH]; intros previous; [done |].
  cbn [escapeMarkdown]. fold (isMarkdownSpecial c).
  destruct (isMarkdownSpecial c) eqn:Hc; cbn [specialsEscaped].
  - rewrite Hc, IH. change (isMarkdownSpecial "\"%char) with false.
    by rewrite (bool_decide_eq_true_2 (Some "\"%char = Some "\"%char)).
  - by rewrite Hc, IH.
Qed.

(** X19: [escapeMarkdown] only inserts backslashes: it adds one character
    for each of [_ * ` \[] in the text and none otherwise; in its result
    each of these characters has a backslash right before it; and taking
    those backslashes away gives back the text, so that different texts
    are escaped differently. *)
Theorem X19_escapeMarkdown text other :
  String.length (escapeMarkdown text) = (String.length text + countSpecial text)%nat
  ∧ specialsEscaped None (escapeMarkdown text) = true
  ∧ unescapeMarkdown (escapeMarkdown text) = text
  ∧ (escapeMarkdown text = escapeMarkdown other → text = other).
Proof.
  assert (Hlen : String.length (escapeMarkdown text)
                 = (String.length text + countSpecial text)%nat).
  { induction text as [|c text IH]; simpl; [done |].
    fold (isMarkdownSpecial c). destruct (isMarkdownSpecial c); simpl; rewrite IH; lia. }
  assert (Hback : ∀ t, unescapeMarkdown (escapeMarkdown t) = t).
  { clear. induction t as [|c t IH]; [done |].
    cbn [escapeMarkdown]. fold (isMarkdownSpecial c).
    destruct (isMarkdownSpecial c) eqn:Hc.
    - cbn [unescapeMarkdown]. rewrite bool_decide_eq_true_2 by done.
      rewrite Hc. simpl. by rewrite IH.
    - cbn [unescapeMarkdown].
      destruct (escapeMarkdown t) as [|c' rest] eqn:Hesc.
      + destruct t as [|c0 t]; [done |]. simpl in Hesc.
        by destruct (_ || _) in Hesc.
      + destruct (bool_decide (c = "\"%char) && isMarkdownSpecial c') eqn:Hpair.
        * apply andb_true_iff in Hpair as [Hslash%bool_decide_eq_true Hc'].
          destruct t as [|c0 t]; [done |]. simpl in Hesc.
          fold (isMarkdownSpecial c0) in Hesc.
          destruct (isMarkdownSpecial c0) eqn:Hc0; injection Hesc as <- <-.
          -- done.
          -- congruence.
        * by rewrite IH. }
  split_and!; [done | apply specialsEscaped_escape | done |].
  intros Heq. by rewrite <- (Hback text), Heq, Hback.
Qed.
